(** * Gasoline-price forecasting script: tagging, partitioning, orchestration

    A shallow embedding of [scripts/python_model.py].  The script is a linear
    pipeline over pandas data frames:

    - [is_great_recession] tags a date with membership in a fixed interval;
    - [rename_and_train_test_split] renames the raw columns, attaches the tag
      and cuts the frame into a training and a test range;
    - [final_prophet_model] drives the forecasting library and computes the
      accuracy figures;
    - [main] wires the three together.

    Data frames are Python objects: they live in a heap and are passed by
    reference, so the functions are written in a small state-and-exception
    monad over a heap of frames and a trace of the calls made to the
    forecasting library. *)

From Stdlib Require Import ZArith List String Bool Lia Reals Lra Sorted Uint63 PrimFloat.
From stdpp Require Import base gmap strings list.

Local Open Scope string_scope.
Local Open Scope list_scope.
Local Open Scope Z_scope.

(* ===================================================================== *)
(** ** Timestamps *)
(* ===================================================================== *)

(** A pandas [Timestamp] is a count of nanoseconds since 1970-01-01T00:00,
    or the missing value [NaT]. *)
Inductive Timestamp : Type :=
| NaT
| Ts (ns : Z).

(** Days since 1970-01-01 of a proleptic Gregorian calendar date. *)
Definition days_from_civil (y m d : Z) : Z :=
  let y' := if m <=? 2 then y - 1 else y in
  let era := y' / 400 in
  let yoe := y' - era * 400 in
  let mp := (m + 9) mod 12 in
  let doy := (153 * mp + 2) / 5 + d - 1 in
  let doe := yoe * 365 + yoe / 4 - yoe / 100 + doy in
  era * 146097 + doe - 719468.

(** The calendar date (year, month, day) of a day count; inverse of
    [days_from_civil]. *)
Definition civil_from_days (z : Z) : Z * Z * Z :=
  let z' := z + 719468 in
  let era := z' / 146097 in
  let doe := z' - era * 146097 in
  let yoe := (doe - doe / 1460 + doe / 36524 - doe / 146096) / 365 in
  let doy := doe - (365 * yoe + yoe / 4 - yoe / 100) in
  let mp := (5 * doy + 2) / 153 in
  let d := doy - (153 * mp + 2) / 5 + 1 in
  let m := if mp <? 10 then mp + 3 else mp - 9 in
  let y := yoe + era * 400 in
  (if m <=? 2 then y + 1 else y, m, d).

Definition ns_per_day : Z := 86400 * 1000000000.

(** [datetime(year=y, month=m, day=d)] and [pd.Timestamp(y, m, d)]: midnight
    of the given day. *)
Definition datetime (y m d : Z) : Timestamp :=
  Ts (days_from_civil y m d * ns_per_day).

(** Comparisons.  Every comparison with [NaT] is [False]. *)
Definition ts_le (a b : Timestamp) : bool :=
  match a, b with
  | Ts x, Ts y => x <=? y
  | _, _ => false
  end.

Definition ts_lt (a b : Timestamp) : bool :=
  match a, b with
  | Ts x, Ts y => x <? y
  | _, _ => false
  end.

Definition ts_ge (a b : Timestamp) : bool := ts_le b a.

Definition ts_gt (a b : Timestamp) : bool := ts_lt b a.

(* ===================================================================== *)
(** ** The recession tagger *)
(* ===================================================================== *)

Definition recession_start : Timestamp := datetime 2007 12 1.

Definition recession_end : Timestamp := datetime 2009 6 1.

(** [is_great_recession(ds)].  [pd.to_datetime] is the identity on a value
    that already is a timestamp; the chained comparison
    [a <= day_to_check <= b] is [a <= day_to_check and day_to_check <= b]. *)
Definition is_great_recession (ds : Timestamp) : Z :=
  let day_to_check := ds in
  if ts_le recession_start day_to_check && ts_le day_to_check recession_end
  then 1
  else 0.

(* ===================================================================== *)
(** ** Data frames *)
(* ===================================================================== *)

(** A cell of a frame: a timestamp, a float64 or an int64. *)
Inductive Cell : Type :=
| CTime (t : Timestamp)
| CFloat (x : float)
| CInt (n : Z).

(** A row carries its index label and one cell per column, in column
    order. *)
Record Row : Type := mkRow { label : Z; cells : list Cell }.

Record DataFrame : Type := mkDataFrame { columns : list string; rows : list Row }.

(** A series: values with their index labels. *)
Definition Series (A : Type) : Type := list (Z * A).

Definition labels (df : DataFrame) : list Z := map label (rows df).

Definition series_map {A B : Type} (f : A -> B) (s : Series A) : Series B :=
  map (fun '(l, a) => (l, f a)) s.

Definition values {A : Type} (s : Series A) : list A := map snd s.

(** Exceptions the script can end with.  [BadRef] has no Python counterpart:
    it is the embedding's answer to a location that is not in the heap. *)
Inductive Exn : Type :=
| KeyError (key : string)
| TypeError
| ValueError
| AttributeError (name : string)
| IndexError
| BadRef.

Inductive Result (A : Type) : Type :=
| Ok (a : A)
| Raise (e : Exn).

Arguments Ok {A} a.
Arguments Raise {A} e.

(** The cell of a row under a column label (the first such column). *)
Fixpoint lookup_cell (name : string) (cols : list string) (cs : list Cell) : option Cell :=
  match cols, cs with
  | c :: cols', x :: cs' =>
      if String.eqb c name then Some x else lookup_cell name cols' cs'
  | _, _ => None
  end.

(** Overwrite the cell under every column carrying the label. *)
Fixpoint assign_cell (name : string) (v : Cell) (cols : list string) (cs : list Cell) : list Cell :=
  match cols, cs with
  | c :: cols', x :: cs' =>
      (if String.eqb c name then v else x) :: assign_cell name v cols' cs'
  | _, _ => cs
  end.

Definition missing : Cell := CFloat nan.

Definition column_count (name : string) (cols : list string) : nat :=
  length (List.filter (String.eqb name) cols).

Definition has_column (name : string) (df : DataFrame) : bool :=
  negb (Nat.eqb (column_count name (columns df)) 0).

(** [df[name]] and [df.name] as the script uses them, to get one column as a
    series.  A label no column carries is a [KeyError].  When several columns
    carry the label pandas hands back a frame instead of a series, and the
    element-wise use the script makes of it ends in a [ValueError]. *)
Definition getitem (df : DataFrame) (name : string) : Result (Series Cell) :=
  match column_count name (columns df) with
  | O => Raise (KeyError name)
  | S O =>
      Ok (map (fun r => (label r, default missing (lookup_cell name (columns df) (cells r))))
              (rows df))
  | _ => Raise ValueError
  end.

(** [df.rename(columns=mapping)]: every column label goes through the
    mapping; a label the mapping does not mention stays (a mapping key that
    names no column is ignored). *)
Definition rename (mapping : string -> string) (df : DataFrame) : DataFrame :=
  mkDataFrame (map mapping (columns df)) (rows df).

(** [df[name] = series], the series being indexed like the frame: an
    existing column is overwritten, a new one is appended on the right.  A
    row the series has no value for gets the missing value. *)
Fixpoint assign_rows (name : string) (cols : list string) (fresh_col : bool)
  (rs : list Row) (vs : list Cell) : list Row :=
  match rs with
  | [] => []
  | r :: rs' =>
      let v := match vs with v :: _ => v | [] => missing end in
      mkRow (label r)
            (if fresh_col then cells r ++ [v] else assign_cell name v cols (cells r))
        :: assign_rows name cols fresh_col rs' (tl vs)
  end.

Definition setitem (df : DataFrame) (name : string) (s : Series Cell) : DataFrame :=
  let fresh_col := negb (has_column name df) in
  mkDataFrame (if fresh_col then columns df ++ [name] else columns df)
              (assign_rows name (columns df) fresh_col (rows df) (values s)).

(** [df[mask]] with a boolean series indexed like the frame: the rows whose
    mask entry is [True], in order, with their labels. *)
Fixpoint select_rows (mask : list bool) (rs : list Row) : list Row :=
  match mask, rs with
  | b :: mask', r :: rs' =>
      if b then r :: select_rows mask' rs' else select_rows mask' rs'
  | _, _ => []
  end.

Definition bool_index (df : DataFrame) (mask : Series bool) : DataFrame :=
  mkDataFrame (columns df) (select_rows (values mask) (rows df)).

(** Element-wise [&] of two boolean series with the same index. *)
Fixpoint series_and (a b : Series bool) : Series bool :=
  match a, b with
  | (l, x) :: a', (_, y) :: b' => (l, x && y) :: series_and a' b'
  | _, _ => []
  end.

(** The values of a datetime64 column.  A column holding anything else is
    not comparable with a timestamp: pandas rejects [column < Timestamp] with
    a [TypeError]; the embedding raises it as soon as the column is read as
    dates. *)
Fixpoint as_dates (s : Series Cell) : Result (Series Timestamp) :=
  match s with
  | [] => Ok []
  | (l, CTime t) :: s' =>
      match as_dates s' with
      | Ok ds => Ok ((l, t) :: ds)
      | Raise e => Raise e
      end
  | _ :: _ => Raise TypeError
  end.

(* ===================================================================== *)
(** ** The heap of frames and the script monad *)
(* ===================================================================== *)

(** One seasonal term of the forecasting model ([add_seasonality]'s
    arguments; an argument left out is [None]). *)
Record Seasonality : Type := mkSeasonality {
  s_name : string;
  s_period : float;
  s_fourier_order : Z;
  s_prior_scale : option float;
  s_mode : option string;
  s_condition_name : option string
}.

(** The configuration a [Prophet] object holds before it is fitted. *)
Record ModelConfig : Type := mkModelConfig {
  yearly_seasonality : bool;
  changepoint_prior_scale : float;
  changepoint_range : float;
  seasonalities : list Seasonality
}.

(** A reference to a frame object. *)
Definition loc : Type := positive.

(** Calls made to the forecasting library and to the console, in order. *)
Inductive Event : Type :=
| EvProphet (config : ModelConfig)
| EvAddSeasonality (s : Seasonality)
| EvFit (train : loc)
| EvMakeFuture (periods : nat) (freq : string)
| EvPredict (data : loc)
| EvPlot
| EvCrossValidation (initial period horizon : string)
| EvPerformanceMetrics (metrics : list string)
| EvPrint (train_mae train_rmse test_mae test_rmse : float).

Record World : Type := mkWorld { heap : gmap loc DataFrame; trace : list Event }.

(** A computation runs in a world and ends with a value or an exception; the
    world it leaves behind is kept either way. *)
Definition Py (A : Type) : Type := World -> Result A * World.

Definition ret {A : Type} (a : A) : Py A := fun w => (Ok a, w).

Definition bind {A B : Type} (m : Py A) (k : A -> Py B) : Py B :=
  fun w =>
    match m w with
    | (Ok a, w') => k a w'
    | (Raise e, w') => (Raise e, w')
    end.

Definition lift {A : Type} (r : Result A) : Py A := fun w => (r, w).

Declare Scope py_scope.
Delimit Scope py_scope with py.
Notation "x <- m ;; k" := (bind m (fun x => k))
  (at level 100, m at next level, right associativity) : py_scope.
Notation "m ;;; k" := (bind m (fun _ => k))
  (at level 100, right associativity) : py_scope.

(** A new frame object, at a location the heap does not use yet. *)
Definition new_frame (df : DataFrame) : Py loc :=
  fun w =>
    let p := fresh (dom (heap w)) in
    (Ok p, mkWorld (<[p := df]> (heap w)) (trace w)).

Definition read_frame (p : loc) : Py DataFrame :=
  fun w =>
    match heap w !! p with
    | Some df => (Ok df, w)
    | None => (Raise BadRef, w)
    end.

(** In-place update of the object at [p]. *)
Definition write_frame (p : loc) (df : DataFrame) : Py unit :=
  fun w => (Ok tt, mkWorld (<[p := df]> (heap w)) (trace w)).

Definition emit (e : Event) : Py unit :=
  fun w => (Ok tt, mkWorld (heap w) (trace w ++ [e])).

Local Open Scope py_scope.

(** [p.rename(columns=mapping)]: a new object; [p] is left as it is. *)
Definition df_rename (mapping : string -> string) (p : loc) : Py loc :=
  df <- read_frame p ;;
  new_frame (rename mapping df).

(** [p[name]] *)
Definition df_getitem (p : loc) (name : string) : Py (Series Cell) :=
  df <- read_frame p ;;
  lift (getitem df name).

(** [p.name]: the column as an attribute of the frame. *)
Definition df_getattr (p : loc) (name : string) : Py (Series Cell) :=
  df <- read_frame p ;;
  lift (match getitem df name with
        | Raise (KeyError _) => Raise (AttributeError name)
        | r => r
        end).

(** [p[name] = s]: mutates the object at [p]. *)
Definition df_setitem (p : loc) (name : string) (s : Series Cell) : Py unit :=
  df <- read_frame p ;;
  write_frame p (setitem df name s).

(** [p[mask]]: a new object holding the selected rows. *)
Definition df_bool_index (p : loc) (mask : Series bool) : Py loc :=
  df <- read_frame p ;;
  new_frame (bool_index df mask).

(** [column.apply(is_great_recession)] on a date column. *)
Definition apply_is_great_recession (ds : Series Cell) : Py (Series Cell) :=
  dates <- lift (as_dates ds) ;;
  ret (series_map (fun d => CInt (is_great_recession d)) dates).

(** [column < t], [column >= t], [column <= t] on a date column. *)
Definition series_lt (ds : Series Cell) (t : Timestamp) : Py (Series bool) :=
  dates <- lift (as_dates ds) ;;
  ret (series_map (fun d => ts_lt d t) dates).

Definition series_ge (ds : Series Cell) (t : Timestamp) : Py (Series bool) :=
  dates <- lift (as_dates ds) ;;
  ret (series_map (fun d => ts_ge d t) dates).

Definition series_le (ds : Series Cell) (t : Timestamp) : Py (Series bool) :=
  dates <- lift (as_dates ds) ;;
  ret (series_map (fun d => ts_le d t) dates).

(* ===================================================================== *)
(** ** The partitioner *)
(* ===================================================================== *)

(** The mapping [{'gas_price': 'y', 'month_and_year': 'ds'}]. *)
Definition rename_columns (c : string) : string :=
  if String.eqb c "gas_price" then "y"
  else if String.eqb c "month_and_year" then "ds"
  else c.

Definition start_date : Timestamp := datetime 2016 1 1.

Definition last_date : Timestamp := datetime 2018 1 1.

(** [rename_and_train_test_split(dataframe)].  The parameter is rebound to
    the renamed copy on the first line; the tag column is then written into
    that copy. *)
Definition rename_and_train_test_split (dataframe : loc) : Py (loc * loc) :=
  dataframe <- df_rename rename_columns dataframe ;;
  ds <- df_getitem dataframe "ds" ;;
  tags <- apply_is_great_recession ds ;;
  df_setitem dataframe "great_recession" tags ;;;
  ds1 <- df_getattr dataframe "ds" ;;
  before_start <- series_lt ds1 start_date ;;
  train_data <- df_bool_index dataframe before_start ;;
  ds2 <- df_getattr dataframe "ds" ;;
  from_start <- series_ge ds2 start_date ;;
  ds3 <- df_getattr dataframe "ds" ;;
  upto_last <- series_le ds3 last_date ;;
  test_data <- df_bool_index dataframe (series_and from_start upto_last) ;;
  ret (train_data, test_data).

(* ===================================================================== *)
(** ** Numbers and accuracy metrics *)
(* ===================================================================== *)

(** The arithmetic numpy performs, as an interface.  The script runs it on
    float64; the same formulas read over the real numbers give their exact
    values. *)
Class Number (T : Type) : Type := {
  num_zero : T;
  num_add : T -> T -> T;
  num_sub : T -> T -> T;
  num_mul : T -> T -> T;
  num_div : T -> T -> T;
  num_abs : T -> T;
  num_sqrt : T -> T;
  num_of_nat : nat -> T;
  num_is_nan : T -> bool;
  num_is_finite : T -> bool
}.

(** IEEE-754 binary64, as numpy's float64. *)
#[export] Instance float_Number : Number float := {
  num_zero := PrimFloat.zero;
  num_add := PrimFloat.add;
  num_sub := PrimFloat.sub;
  num_mul := PrimFloat.mul;
  num_div := PrimFloat.div;
  num_abs := PrimFloat.abs;
  num_sqrt := PrimFloat.sqrt;
  num_of_nat := fun n => PrimFloat.of_uint63 (Uint63.of_Z (Z.of_nat n));
  num_is_nan := PrimFloat.is_nan;
  num_is_finite := PrimFloat.is_finite
}.


Section Metrics.

Context {T : Type} `{Number T}.

(** Sum of the entries, left to right.  (numpy adds long arrays in blocks;
    the grouping only changes how float64 sums round.) *)
Definition np_sum (xs : list T) : T := fold_left num_add xs num_zero.

(** [np.mean] of an array. *)
Definition np_mean (xs : list T) : T :=
  num_div (np_sum xs) (num_of_nat (length xs)).

(** [np.mean] of a pandas series: the series' own [mean], which leaves the
    missing entries out. *)
Definition series_mean (xs : list T) : T :=
  np_mean (List.filter (fun x => negb (num_is_nan x)) xs).

(** [np.mean(np.abs(residuals))] *)
Definition mean_absolute (residuals : list T) : T :=
  series_mean (map num_abs residuals).

Fixpoint zip_sub (xs ys : list T) : list T :=
  match xs, ys with
  | x :: xs', y :: ys' => num_sub x y :: zip_sub xs' ys'
  | _, _ => []
  end.

Definition squared_errors (y_true y_pred : list T) : list T :=
  map (fun d => num_mul d d) (zip_sub y_true y_pred).

(** [sklearn.metrics.mean_squared_error(y_true, y_pred)]: the two arrays
    must have the same, non-zero number of samples and hold finite numbers
    only, otherwise it raises [ValueError]. *)
Definition mean_squared_error (y_true y_pred : list T) : Result T :=
  if negb (Nat.eqb (length y_true) (length y_pred)) then Raise ValueError
  else if Nat.eqb (length y_true) 0 then Raise ValueError
  else if negb (forallb num_is_finite y_true && forallb num_is_finite y_pred)
  then Raise ValueError
  else Ok (np_mean (squared_errors y_true y_pred)).

(** [np.sqrt(mean_squared_error(y_actual, y_predicted))] *)
Definition root_mean_squared (y_actual y_predicted : list T) : Result T :=
  match mean_squared_error y_actual y_predicted with
  | Ok mse => Ok (num_sqrt mse)
  | Raise e => Raise e
  end.

End Metrics.

(* ===================================================================== *)
(** ** The forecasting library *)
(* ===================================================================== *)

(** Modelled from the spec: the forecasting library is an external
    collaborator with operations [fit], [predict] and [cross_validate]
    (sections 4.3 and 6); its fitting and cross-validation arithmetic is not
    part of the script.  [lib_fit] is the fit of a configured model on a
    training frame, [lib_yhat] the value a fitted model predicts for a date
    and its recession flag, [lib_cross_validation] the per-horizon pairs
    (mae, rmse) of the rolling-origin cross-validation.  That a prediction
    is a function of the fitted model, the date and the flag alone is an
    assumption of this interface, not something the script or the spec
    says: nothing below is claimed about which columns the library reads. *)
Record ForecastLibrary : Type := mkForecastLibrary {
  Fitted : Type;
  lib_fit : ModelConfig -> DataFrame -> Result Fitted;
  lib_yhat : Fitted -> Timestamp -> Cell -> float;
  lib_cross_validation : Fitted -> Result (list (float * float))
}.

(** A fitted model remembers the dates it was fitted on. *)
Record FittedModel (L : ForecastLibrary) : Type := mkFittedModel {
  fm_state : Fitted L;
  fm_history : list Timestamp
}.

Arguments mkFittedModel {L} fm_state fm_history.
Arguments fm_state {L} f.
Arguments fm_history {L} f.

(** A plot of a forecast frame. *)
Inductive Figure : Type :=
| FigureOf (forecast : loc).

(** Rows labelled 0, 1, 2, ... (a fresh [RangeIndex]). *)
Fixpoint number_rows (first : Z) (css : list (list Cell)) : list Row :=
  match css with
  | [] => []
  | cs :: css' => mkRow first cs :: number_rows (first + 1) css'
  end.

(** [pd.concat([a, b], ignore_index=True)] of two frames with the same
    columns: the rows of [a], then the rows of [b], relabelled from 0.  When
    the columns differ the result has the columns of [a] followed by the new
    ones of [b], each row filled with the missing value where its frame has
    no such column. *)
Definition concat_columns (a b : list string) : list string :=
  a ++ List.filter (fun c => Nat.eqb (column_count c a) 0) b.

Definition realign (target cols : list string) (cs : list Cell) : list Cell :=
  map (fun c => default missing (lookup_cell c cols cs)) target.

Definition concat_ignore_index (a b : DataFrame) : DataFrame :=
  if bool_decide (columns a = columns b)
  then mkDataFrame (columns a) (number_rows 0 (map cells (rows a ++ rows b)))
  else
    let cols := concat_columns (columns a) (columns b) in
    mkDataFrame cols
      (number_rows 0 (map (fun r => realign cols (columns a) (cells r)) (rows a)
                      ++ map (fun r => realign cols (columns b) (cells r)) (rows b))).

Definition pd_concat (a b : loc) : Py loc :=
  da <- read_frame a ;;
  db <- read_frame b ;;
  new_frame (concat_ignore_index da db).

(** The month a timestamp falls in, counted from year 0, and the first
    instant of a month so counted. *)
Definition month_index (ns : Z) : Z :=
  let '(y, m, _) := civil_from_days (ns / ns_per_day) in
  y * 12 + (m - 1).

Definition month_start (k : Z) : Timestamp := datetime (k / 12) (k mod 12 + 1) 1.

(** The latest proper timestamp of a list. *)
Fixpoint latest (ds : list Timestamp) : option Z :=
  match ds with
  | [] => None
  | NaT :: ds' => latest ds'
  | Ts x :: ds' =>
      match latest ds' with
      | Some y => Some (Z.max x y)
      | None => Some x
      end
  end.

(** Modelled from the spec: "extend the date axis 24 months past the end of
    Train (monthly frequency, month-start alignment)".  The frame holds the
    dates the model was fitted on, followed by the [periods] month starts
    that come after the latest of them. *)
Definition future_dates (history : list Timestamp) (periods : nat) : Result (list Timestamp) :=
  match latest history with
  | None => Raise ValueError
  | Some last =>
      Ok (history
          ++ map (fun i => month_start (month_index last + 1 + Z.of_nat i)) (seq 0 periods))
  end.

Definition make_future_dataframe {L : ForecastLibrary} (model : FittedModel L)
  (periods : nat) (freq : string) : Py loc :=
  emit (EvMakeFuture periods freq) ;;;
  dates <- lift (future_dates (fm_history model) periods) ;;
  new_frame (mkDataFrame ["ds"] (number_rows 0 (map (fun d => [CTime d]) dates))).

(** [Prophet(...)] and [model.add_seasonality(...)] *)
Definition Prophet (yearly : bool) (prior_scale range : float) : Py ModelConfig :=
  let config := mkModelConfig yearly prior_scale range [] in
  emit (EvProphet config) ;;;
  ret config.

Definition add_seasonality (model : ModelConfig) (s : Seasonality) : Py ModelConfig :=
  emit (EvAddSeasonality s) ;;;
  ret (mkModelConfig (yearly_seasonality model) (changepoint_prior_scale model)
         (changepoint_range model) (seasonalities model ++ [s])).

(** [model.fit(train_data)] *)
Definition fit (L : ForecastLibrary) (model : ModelConfig) (train_data : loc) :
  Py (FittedModel L) :=
  train <- read_frame train_data ;;
  emit (EvFit train_data) ;;;
  state <- lift (lib_fit L model train) ;;
  ds <- lift (getitem train "ds") ;;
  dates <- lift (as_dates ds) ;;
  ret (mkFittedModel state (values dates)).

(** Rows ordered by date, by insertion.  (Rows with equal dates keep their
    order here; pandas does not promise that.) *)
Fixpoint insert_by {A : Type} (key : A -> Timestamp) (x : A) (l : list A) : list A :=
  match l with
  | [] => [x]
  | y :: l' => if ts_le (key x) (key y) then x :: l else y :: insert_by key x l'
  end.

Definition sort_by {A : Type} (key : A -> Timestamp) (l : list A) : list A :=
  fold_right (insert_by key) [] l.

Definition is_NaT (d : Timestamp) : bool :=
  match d with
  | NaT => true
  | Ts _ => false
  end.

(** Modelled from the spec: "produce predictions over the combined series".
    The library takes the dates and the recession flags of the frame it is
    asked about, refuses a missing date or a frame without the flag column
    ([ValueError]), orders the rows by date and numbers them afresh; the
    forecast frame has one row per row asked about, its first column the
    date and its last column, [yhat], the predicted value.  (The library's
    columns in between, the components of the prediction, are left out.) *)
Definition forecast_cells {L : ForecastLibrary} (state : Fitted L)
  (asked : list (Timestamp * Cell)) : list (list Cell) :=
  map (fun '(d, c) => [CTime d; CFloat (lib_yhat L state d c)]) asked.

Definition predict {L : ForecastLibrary} (model : FittedModel L) (data : loc) : Py loc :=
  df <- read_frame data ;;
  emit (EvPredict data) ;;;
  ds <- lift (getitem df "ds") ;;
  dates <- lift (as_dates ds) ;;
  flags <- lift (match getitem df "great_recession" with
                 | Raise (KeyError _) => Raise ValueError
                 | r => r
                 end) ;;
  if existsb is_NaT (values dates) then lift (Raise ValueError)
  else
    new_frame
      (mkDataFrame ["ds"; "yhat"]
         (number_rows 0
            (forecast_cells (fm_state model)
               (sort_by fst (combine (values dates) (values flags)))))).

(** [cross_validation(model, ...)] followed by [performance_metrics]. *)
Definition cross_validation {L : ForecastLibrary} (model : FittedModel L)
  (initial period horizon : string) : Py (list (float * float)) :=
  emit (EvCrossValidation initial period horizon) ;;;
  lift (lib_cross_validation L (fm_state model)).

Definition performance_metrics (cv_results : list (float * float)) (metrics : list string) :
  Py (list (float * float)) :=
  emit (EvPerformanceMetrics metrics) ;;;
  ret cv_results.

(* ===================================================================== *)
(** ** The orchestrator *)
(* ===================================================================== *)

Definition float_of_Z (n : Z) : float :=
  if n <? 0 then PrimFloat.opp (PrimFloat.of_uint63 (Uint63.of_Z (- n)))
  else PrimFloat.of_uint63 (Uint63.of_Z n).

(** The values of a numeric column as float64. *)
Fixpoint as_floats (s : Series Cell) : Result (Series float) :=
  match s with
  | [] => Ok []
  | (l, c) :: s' =>
      match c, as_floats s' with
      | CFloat x, Ok xs => Ok ((l, x) :: xs)
      | CInt n, Ok xs => Ok ((l, float_of_Z n) :: xs)
      | CTime _, _ => Raise TypeError
      | _, Raise e => Raise e
      end
  end.

(** [df.iloc[n:, -1]]: the last column, from row position [n] on, each value
    with the label of its row. *)
Definition iloc_from_last_column (n : nat) (df : DataFrame) : Result (Series Cell) :=
  match columns df with
  | [] => Raise IndexError
  | _ :: _ => Ok (map (fun r => (label r, List.last (cells r) missing)) (skipn n (rows df)))
  end.

Fixpoint same_labels (a b : list Z) : bool :=
  match a, b with
  | [], [] => true
  | x :: a', y :: b' => Z.eqb x y && same_labels a' b'
  | _, _ => false
  end.

Fixpoint series_lookup {A : Type} (l : Z) (s : Series A) : option A :=
  match s with
  | [] => None
  | (l', a) :: s' => if Z.eqb l l' then Some a else series_lookup l s'
  end.

Fixpoint has_duplicate (ls : list Z) : bool :=
  match ls with
  | [] => false
  | l :: ls' => existsb (Z.eqb l) ls' || has_duplicate ls'
  end.

Fixpoint insert_label (l : Z) (ls : list Z) : list Z :=
  match ls with
  | [] => [l]
  | x :: ls' => if l <=? x then l :: ls else x :: insert_label l ls'
  end.

Definition sort_labels (ls : list Z) : list Z := fold_right insert_label [] ls.

Fixpoint zip_sub_series (a b : Series float) : Series float :=
  match a, b with
  | (l, x) :: a', (_, y) :: b' => (l, PrimFloat.sub x y) :: zip_sub_series a' b'
  | _, _ => []
  end.

(** [a - b] on two series.  pandas subtracts label by label: when the two
    indexes are equal the values pair up in order; otherwise the result is
    indexed by the sorted union of the labels and holds NaN at every label
    one of the two lacks.  (Indexes that differ and repeat a label are not
    modelled: pandas joins them occurrence by occurrence, here the
    subtraction stops with [ValueError].  A frame read from a file is
    indexed 0, 1, 2, ... and repeats no label.) *)
Definition series_sub (a b : Series float) : Result (Series float) :=
  let la := map fst a in
  let lb := map fst b in
  if same_labels la lb then Ok (zip_sub_series a b)
  else if has_duplicate la || has_duplicate lb then Raise ValueError
  else
    Ok (map (fun l =>
               (l, match series_lookup l a, series_lookup l b with
                   | Some x, Some y => PrimFloat.sub x y
                   | _, _ => PrimFloat.nan
                   end))
            (sort_labels (la ++ List.filter (fun l => negb (existsb (Z.eqb l) la)) lb))).

Set Warnings "-inexact-float".

(** [final_prophet_model(train_data, test_data)] *)
Definition final_prophet_model (L : ForecastLibrary) (train_data test_data : loc) :
  Py (loc * Figure) :=
  all_data <- pd_concat train_data test_data ;;
  model <- Prophet false 0.1%float 0.85%float ;;
  model <- add_seasonality model
             (mkSeasonality "yearly" 365.25%float 3 (Some 20%float) (Some "additive") None) ;;
  model <- add_seasonality model
             (mkSeasonality "great_recession" 365.25%float 4 None None (Some "great_recession")) ;;
  model <- fit L model train_data ;;
  future <- make_future_dataframe model 24 "MS" ;;
  future_ds <- df_getitem future "ds" ;;
  future_tags <- apply_is_great_recession future_ds ;;
  df_setitem future "great_recession" future_tags ;;;
  forecast <- predict model all_data ;;
  emit EvPlot ;;;
  let fig1 := FigureOf forecast in
  cv_results <- cross_validation model "730 days" "180 days" "365 days" ;;
  performance_results <- performance_metrics cv_results ["mae"; "rmse"] ;;
  let train_mae := series_mean (map fst performance_results) in
  let train_rmse := series_mean (map snd performance_results) in
  y_actual_cells <- df_getattr test_data "y" ;;
  y_actual <- lift (as_floats y_actual_cells) ;;
  forecast_frame <- read_frame forecast ;;
  y_predicted_cells <- lift (iloc_from_last_column 288 forecast_frame) ;;
  y_predicted <- lift (as_floats y_predicted_cells) ;;
  residuals <- lift (series_sub y_predicted y_actual) ;;
  let test_mae := mean_absolute (values residuals) in
  test_rmse <- lift (root_mean_squared (values y_actual) (values y_predicted)) ;;
  emit (EvPrint train_mae train_rmse test_mae test_rmse) ;;;
  ret (forecast, fig1).

(** The configuration the orchestrator builds, and the calls it makes to
    the forecasting library before it prints, in order. *)
Definition base_config : ModelConfig := mkModelConfig false 0.1%float 0.85%float [].

Definition yearly_term : Seasonality :=
  mkSeasonality "yearly" 365.25%float 3 (Some 20%float) (Some "additive") None.

Definition recession_term : Seasonality :=
  mkSeasonality "great_recession" 365.25%float 4 None None (Some "great_recession").

Definition library_calls (train_data all_data : loc) : list Event :=
  [ EvProphet base_config;
    EvAddSeasonality yearly_term;
    EvAddSeasonality recession_term;
    EvFit train_data;
    EvMakeFuture 24 "MS";
    EvPredict all_data;
    EvPlot;
    EvCrossValidation "730 days" "180 days" "365 days";
    EvPerformanceMetrics ["mae"; "rmse"] ].

Set Warnings "+inexact-float".

(** The two steps [main] runs on the frame [pd.read_csv] loaded. *)
Definition pipeline (L : ForecastLibrary) (csv : DataFrame) : Py (loc * Figure) :=
  dataframe <- new_frame csv ;;
  split <- rename_and_train_test_split dataframe ;;
  final_prophet_model L (fst split) (snd split).

(** [main()], on the frame read from the data file. *)
Definition main (L : ForecastLibrary) (csv : DataFrame) : Py unit :=
  pipeline L csv ;;;
  ret tt.

(** The empty world the script starts in. *)
Definition initial_world : World := mkWorld ∅ [].

(** The standard input: one row per month from January 1992 to January 2018
    (313 rows), month-start dates in the first column and the price in the
    second, indexed 0, 1, 2, ... *)
Definition monthly_series (first_month : Z) (prices : list float) : DataFrame :=
  mkDataFrame ["month_and_year"; "gas_price"]
    (number_rows 0
       (map (fun '(i, x) => [CTime (month_start (first_month + Z.of_nat i)); CFloat x])
            (imap (fun i x => (i, x)) prices))).

Definition standard_series (price : nat -> float) : DataFrame :=
  monthly_series (1992 * 12) (map price (seq 0 313)).

(* ===================================================================== *)
(** ** Reading the frames the script produces *)
(* ===================================================================== *)

(** The date of a row: its cell under [ds]. *)
Definition date_of (df : DataFrame) (r : Row) : Timestamp :=
  match lookup_cell "ds" (columns df) (cells r) with
  | Some (CTime t) => t
  | _ => NaT
  end.

(** The recession flag of a row: its cell under [great_recession]. *)
Definition flag_of (df : DataFrame) (r : Row) : option Cell :=
  lookup_cell "great_recession" (columns df) (cells r).

(** Every row has one cell per column. *)
Definition well_formed (df : DataFrame) : Prop :=
  Forall (fun r => length (cells r) = length (columns df)) (rows df).

(** The renamed and tagged frame the partitioner cuts (lines 48 to 51). *)
Definition tagged_frame (df : DataFrame) : Result DataFrame :=
  let renamed := rename rename_columns df in
  match getitem renamed "ds" with
  | Raise e => Raise e
  | Ok ds =>
      match as_dates ds with
      | Raise e => Raise e
      | Ok dates =>
          Ok (setitem renamed "great_recession"
                (series_map (fun d => CInt (is_great_recession d)) dates))
      end
  end.

Definition in_train (df : DataFrame) (r : Row) : bool :=
  ts_lt (date_of df r) start_date.

Definition in_test (df : DataFrame) (r : Row) : bool :=
  ts_ge (date_of df r) start_date && ts_le (date_of df r) last_date.

(** A row occurs exactly once in a list of rows. *)
Definition occurs_once (r : Row) (rs : list Row) : Prop :=
  exists i : nat, rs !! i = Some r /\ forall j : nat, rs !! j = Some r -> j = i.

(** Rows in ascending date order. *)
Definition ascending (df : DataFrame) : Prop :=
  StronglySorted (fun a b => ts_le a b = true) (map (date_of df) (rows df)).

Definition strictly_ascending (df : DataFrame) : Prop :=
  StronglySorted (fun a b => ts_lt a b = true) (map (date_of df) (rows df)).

(** Two runs of the partitioner end alike: with the same exception, or with
    train frames of the same content and test frames of the same content. *)
Definition same_outcome (a b : Result (loc * loc) * World) : Prop :=
  match fst a, fst b with
  | Ok (train1, test1), Ok (train2, test2) =>
      (exists d : DataFrame,
          heap (snd a) !! train1 = Some d /\ heap (snd b) !! train2 = Some d)
      /\ (exists d : DataFrame,
             heap (snd a) !! test1 = Some d /\ heap (snd b) !! test2 = Some d)
  | Raise e1, Raise e2 => e1 = e2
  | _, _ => False
  end.

(** A forecasting library that always fits and predicts one constant. *)
Definition constant_library (yhat : float) : ForecastLibrary :=
  mkForecastLibrary unit (fun _ _ => Ok tt) (fun _ _ _ => yhat) (fun _ => Ok [(yhat, yhat)]).

(** The two cuts of a tagged frame (lines 58 and 59). *)
Definition train_frame (tg : DataFrame) : DataFrame :=
  mkDataFrame (columns tg) (List.filter (in_train tg) (rows tg)).

Definition test_frame (tg : DataFrame) : DataFrame :=
  mkDataFrame (columns tg) (List.filter (in_test tg) (rows tg)).

(** A small raw frame: one row inside the recession, the last training
    month, the two ends of the test range, one month past it, and one row
    with a missing date. *)
Definition sample_frame : DataFrame :=
  mkDataFrame ["month_and_year"; "gas_price"]
    [ mkRow 0 [CTime (datetime 2008 1 1); CFloat 3%float];
      mkRow 1 [CTime (datetime 2015 12 1); CFloat 2%float];
      mkRow 2 [CTime (datetime 2016 1 1); CFloat 2%float];
      mkRow 3 [CTime (datetime 2018 1 1); CFloat 2.5%float];
      mkRow 4 [CTime (datetime 2018 2 1); CFloat 2.5%float];
      mkRow 5 [CTime NaT; CFloat 2%float] ].

(** A world holding one frame, at location 1. *)
Definition world_with (df : DataFrame) : World := mkWorld {[ 1%positive := df ]} [].

(** Four months around the start of the test range, November 2015 to
    February 2016. *)
Definition short_series : DataFrame :=
  monthly_series (2015 * 12 + 10) [2%float; 2%float; 2.5%float; 2.5%float].

(** A raw frame with the date column only: [gas_price] is absent. *)
Definition dates_only_frame : DataFrame :=
  mkDataFrame ["month_and_year"]
    [ mkRow 0 [CTime (datetime 2015 12 1)];
      mkRow 1 [CTime (datetime 2016 1 1)] ].

(** A raw frame with the price column only: the date column is absent. *)
Definition prices_only_frame : DataFrame :=
  mkDataFrame ["gas_price"]
    [ mkRow 0 [CFloat 2%float];
      mkRow 1 [CFloat 2.5%float] ].

(** The standard series at a flat price, tagged, and the world the
    partitioner leaves when run on it: Train is at location 3, Test at
    location 4. *)
Definition flat_series : DataFrame := standard_series (fun _ => 2%float).

Definition flat_tagged : DataFrame :=
  match tagged_frame flat_series with
  | Ok tg => tg
  | Raise _ => mkDataFrame [] []
  end.

Definition flat_split_world : World :=
  snd (rename_and_train_test_split 1%positive (world_with flat_series)).


(** Adjacent dates increase: an executable check of [strictly_ascending]. *)
Fixpoint dates_increasing (ds : list Timestamp) : bool :=
  match ds with
  | [] => true
  | d :: ds' =>
      match ds' with
      | [] => true
      | d' :: _ => ts_lt d d' && dates_increasing ds'
      end
  end.

(* ===================================================================== *)
(** ** Reading the runs of the script *)
(* ===================================================================== *)

(** Every frame object of [w] is still there in [w'], with the content it
    had. *)
Definition frames_kept (w w' : World) : Prop :=
  forall (p : loc) (df : DataFrame), heap w !! p = Some df -> heap w' !! p = Some df.

Definition is_print (e : Event) : bool :=
  match e with
  | EvPrint _ _ _ _ => true
  | _ => false
  end.

(** The configuration the model has when it is fitted: the constructor's
    arguments and the two seasonal terms, in the order they were added. *)
Definition fitted_config : ModelConfig :=
  mkModelConfig (yearly_seasonality base_config) (changepoint_prior_scale base_config)
    (changepoint_range base_config) [yearly_term; recession_term].

(** The rows of a frame dated before the test range, and in it. *)
Definition train_count (df : DataFrame) : nat :=
  length (List.filter (in_train df) (rows df)).

Definition test_count (df : DataFrame) : nat :=
  length (List.filter (in_test df) (rows df)).

(** A frame indexed 0, 1, 2, ..., as [pd.read_csv] with [index_col=False]
    builds it. *)
Definition range_indexed (df : DataFrame) : Prop :=
  labels df = map Z.of_nat (seq 0 (length (rows df))).

(** The frame with its rows relabelled from 0 ([reset_index(drop=True)]). *)
Definition reset_index (df : DataFrame) : DataFrame :=
  mkDataFrame (columns df) (number_rows 0 (map cells (rows df))).

(** The world the partitioner leaves on the flat standard series, with
    Test replaced by its relabelled copy. *)
Definition reindexed_split_world : World :=
  mkWorld (<[4%positive := reset_index (test_frame flat_tagged)]> (heap flat_split_world))
          (trace flat_split_world).

(** A raw frame that already carries a [great_recession] column. *)
Definition pretagged_frame : DataFrame :=
  mkDataFrame ["month_and_year"; "great_recession"; "gas_price"]
    [ mkRow 0 [CTime (datetime 2008 1 1); CInt 7; CFloat 3%float];
      mkRow 1 [CTime (datetime 2016 1 1); CInt 7; CFloat 2%float] ].

Set Warnings "-inexact-float".



Set Warnings "+inexact-float".




(* ===================================================================== *)
(** * Properties *)
(* ===================================================================== *)

(* ===================================================================== *)
(** ** The recession interval *)
(* ===================================================================== *)

(** C1.  The tagger returns 1 exactly on the dates from 2007-12-01 to
    2009-06-01, both ends included, and 0 on every other date (and on a
    missing date): in nanoseconds since 1970, 1 exactly between
    1196467200000000000 and 1243814400000000000.  In particular it is 1 on
    2007-12-01 and on 2009-06-01, and 0 on 2007-11-30 and on 2009-06-02. *)
Theorem tagger_interval :
  (forall d : Timestamp,
      is_great_recession d
      = if ts_le (datetime 2007 12 1) d && ts_le d (datetime 2009 6 1) then 1 else 0)
  /\ (forall ns : Z,
         is_great_recession (Ts ns) = 1
         <-> 1196467200000000000 <= ns <= 1243814400000000000)
  /\ (forall d : Timestamp, is_great_recession d = 1 \/ is_great_recession d = 0)
  /\ is_great_recession NaT = 0
  /\ is_great_recession (datetime 2007 12 1) = 1
  /\ is_great_recession (datetime 2009 6 1) = 1
  /\ is_great_recession (datetime 2007 11 30) = 0
  /\ is_great_recession (datetime 2009 6 2) = 0.
Proof.
  split; [reflexivity|].
  split.
  { intros ns. unfold is_great_recession, recession_start, recession_end, datetime.
    change (days_from_civil 2007 12 1 * ns_per_day) with 1196467200000000000.
    change (days_from_civil 2009 6 1 * ns_per_day) with 1243814400000000000.
    cbn [ts_le].
    destruct (Z.leb_spec 1196467200000000000 ns), (Z.leb_spec ns 1243814400000000000);
      cbn; split; intros; try lia; try discriminate. }
  split.
  { intros d. unfold is_great_recession.
    destruct (ts_le recession_start d && ts_le d recession_end); auto. }
  repeat split; vm_compute; reflexivity.
Qed.

(* ===================================================================== *)
(** ** Cells, columns and rows *)
(* ===================================================================== *)

Lemma lookup_cell_assign_other (m n : string) (v : Cell) (cols : list string) (cs : list Cell) :
  m <> n ->
  lookup_cell m cols (assign_cell n v cols cs) = lookup_cell m cols cs.
Proof.
  intros Hne. revert cs.
  induction cols as [|c cols IH]; intros [|x cs]; simpl; try reflexivity.
  destruct (String.eqb_spec c m) as [->|Hcm].
  - destruct (String.eqb_spec m n); [contradiction | reflexivity].
  - apply IH.
Qed.

Lemma lookup_cell_app_Some (m : string) (cols more : list string) (cs extra : list Cell) (x : Cell) :
  lookup_cell m cols cs = Some x ->
  lookup_cell m (cols ++ more) (cs ++ extra) = Some x.
Proof.
  revert cs.
  induction cols as [|c cols IH]; intros [|y cs]; simpl; try discriminate.
  destruct (String.eqb c m); [trivial | apply IH].
Qed.

Lemma lookup_cell_assign_same (n : string) (v : Cell) (cols : list string) (cs : list Cell) :
  length cs = length cols ->
  column_count n cols <> 0%nat ->
  lookup_cell n cols (assign_cell n v cols cs) = Some v.
Proof.
  revert cs.
  induction cols as [|c cols IH]; intros [|x cs]; simpl; try discriminate.
  - intros _ Hc. now elim Hc.
  - intros Hlen Hc. unfold column_count in Hc. simpl in Hc.
    rewrite String.eqb_sym in Hc.
    destruct (String.eqb c n); [reflexivity|].
    apply IH; [lia | exact Hc].
Qed.

Lemma lookup_cell_fresh_column (n : string) (v : Cell) (cols : list string) (cs : list Cell) :
  length cs = length cols ->
  column_count n cols = 0%nat ->
  lookup_cell n (cols ++ [n]) (cs ++ [v]) = Some v.
Proof.
  revert cs.
  induction cols as [|c cols IH]; intros [|x cs]; simpl; try discriminate.
  - intros _ _. now rewrite String.eqb_refl.
  - intros Hlen Hc. unfold column_count in Hc. simpl in Hc.
    rewrite String.eqb_sym in Hc.
    destruct (String.eqb c n); [discriminate|].
    apply IH; [lia | exact Hc].
Qed.

Lemma column_count_app (n : string) (a b : list string) :
  column_count n (a ++ b) = (column_count n a + column_count n b)%nat.
Proof. unfold column_count. now rewrite List.filter_app, length_app. Qed.

Lemma assign_rows_labels (n : string) (cols : list string) (b : bool) (rs : list Row) (vs : list Cell) :
  map label (assign_rows n cols b rs vs) = map label rs.
Proof.
  revert vs. induction rs as [|r rs IH]; intros vs; simpl; [reflexivity|].
  now rewrite IH.
Qed.

Lemma assign_rows_length (n : string) (cols : list string) (b : bool) (rs : list Row) (vs : list Cell) :
  length (assign_rows n cols b rs vs) = length rs.
Proof.
  revert vs. induction rs as [|r rs IH]; intros vs; simpl; [reflexivity|].
  now rewrite IH.
Qed.

(** Writing a column leaves the cells of every other column in place. *)
Lemma assign_rows_lookup_other (m n : string) (cols : list string) (b : bool)
  (rs : list Row) (vs : list Cell) :
  m <> n ->
  Forall (fun r => is_Some (lookup_cell m cols (cells r))) rs ->
  map (fun r => lookup_cell m (if b then cols ++ [n] else cols) (cells r))
      (assign_rows n cols b rs vs)
  = map (fun r => lookup_cell m cols (cells r)) rs.
Proof.
  intros Hne Hall. revert vs.
  induction Hall as [|r rs [x Hx] _ IH]; intros vs; simpl; [reflexivity|].
  rewrite IH. f_equal.
  destruct b.
  - rewrite Hx. now apply lookup_cell_app_Some.
  - now apply lookup_cell_assign_other.
Qed.

(** The written column holds the assigned values. *)
Lemma assign_rows_lookup_same (n : string) (cols : list string) (rs : list Row) (vs : list Cell) :
  Forall (fun r => length (cells r) = length cols) rs ->
  length vs = length rs ->
  let b := Nat.eqb (column_count n cols) 0 in
  map (fun r => lookup_cell n (if b then cols ++ [n] else cols) (cells r))
      (assign_rows n cols b rs vs)
  = map Some vs.
Proof.
  intros Hall. revert vs.
  induction Hall as [|r rs Hr _ IH]; intros [|v vs]; simpl; try discriminate; [reflexivity|].
  intros Hlen. injection Hlen as Hlen.
  specialize (IH vs Hlen). simpl in IH. rewrite IH. f_equal.
  destruct (Nat.eqb_spec (column_count n cols) 0) as [Hc|Hc].
  - now apply lookup_cell_fresh_column.
  - now apply lookup_cell_assign_same.
Qed.

Lemma select_rows_filter {A : Type} (f : A -> bool) (g : Row -> A) (rs : list Row) :
  select_rows (map f (map g rs)) rs = List.filter (fun r => f (g r)) rs.
Proof.
  induction rs as [|r rs IH]; simpl; [reflexivity|].
  now rewrite IH.
Qed.

Lemma values_series_map {A B : Type} (f : A -> B) (s : Series A) :
  values (series_map f s) = map f (values s).
Proof.
  unfold values, series_map. rewrite !map_map.
  apply map_ext. now intros [l a].
Qed.

Lemma series_and_map {A : Type} (f g : A -> bool) (s : Series A) :
  series_and (series_map f s) (series_map g s) = series_map (fun a => f a && g a) s.
Proof.
  induction s as [|[l a] s IH]; [reflexivity|].
  cbn. f_equal. exact IH.
Qed.

(** A series read as dates is that list of dates, cell for cell. *)
Lemma as_dates_Ok (s : Series Cell) (dates : Series Timestamp) :
  as_dates s = Ok dates -> s = series_map CTime dates.
Proof.
  revert dates. induction s as [|[l c] s IH]; intros dates; simpl.
  - now intros [= <-].
  - destruct c; try discriminate.
    destruct (as_dates s) as [ds|e]; [|discriminate].
    intros [= <-]. simpl. now rewrite <- (IH ds).
Qed.

Lemma as_dates_series_map (dates : Series Timestamp) :
  as_dates (series_map CTime dates) = Ok dates.
Proof.
  induction dates as [|[l t] dates IH]; [reflexivity|].
  change (series_map CTime ((l, t) :: dates)) with ((l, CTime t) :: series_map CTime dates).
  cbn [as_dates]. now rewrite IH.
Qed.

(* ===================================================================== *)
(** ** The tagged frame *)
(* ===================================================================== *)

Lemma column_as_dates (n : string) (cols : list string) (rs : list Row) (dates : Series Timestamp) :
  map (fun r => (label r, default missing (lookup_cell n cols (cells r)))) rs
  = series_map CTime dates ->
  map (fun r => lookup_cell n cols (cells r)) rs = map (fun d => Some (CTime d)) (values dates)
  /\ map fst dates = map label rs.
Proof.
  revert dates. induction rs as [|r rs IH]; intros [|[l t] dates]; simpl; try discriminate.
  - auto.
  - intros Heq. injection Heq as Hl Hc Hrest.
    destruct (IH dates Hrest) as [IH1 IH2].
    split; [|congruence].
    f_equal; [|exact IH1].
    destruct (lookup_cell n cols (cells r)) as [c|]; simpl in Hc; [congruence | discriminate].
Qed.

(** What [tagged_frame] returns, when it returns: the renamed frame with the
    tag of every row's date written under [great_recession]. *)
Lemma tagged_frame_Ok (df tg : DataFrame) :
  tagged_frame df = Ok tg ->
  exists dates : Series Timestamp,
    column_count "ds" (map rename_columns (columns df)) = 1%nat
    /\ map (fun r => lookup_cell "ds" (map rename_columns (columns df)) (cells r)) (rows df)
       = map (fun d => Some (CTime d)) (values dates)
    /\ map fst dates = labels df
    /\ tg = setitem (rename rename_columns df) "great_recession"
              (series_map (fun d => CInt (is_great_recession d)) dates).
Proof.
  unfold tagged_frame, getitem. cbn [rename columns rows].
  destruct (column_count "ds" (map rename_columns (columns df))) as [|[|k]] eqn:Hcount;
    try discriminate.
  destruct (as_dates _) as [dates|e] eqn:Hdates; [|discriminate].
  intros [= <-]. exists dates.
  apply as_dates_Ok, column_as_dates in Hdates as [H1 H2].
  auto.
Qed.

Section Tagged.

Variables (df tg : DataFrame) (dates : Series Timestamp).

Hypothesis Hcount : column_count "ds" (map rename_columns (columns df)) = 1%nat.
Hypothesis Hcells :
  map (fun r => lookup_cell "ds" (map rename_columns (columns df)) (cells r)) (rows df)
  = map (fun d => Some (CTime d)) (values dates).
Hypothesis Hlabels : map fst dates = labels df.
Hypothesis Htg :
  tg = setitem (rename rename_columns df) "great_recession"
         (series_map (fun d => CInt (is_great_recession d)) dates).

Lemma tagged_columns :
  columns tg
  = if Nat.eqb (column_count "great_recession" (map rename_columns (columns df))) 0
    then map rename_columns (columns df) ++ ["great_recession"]
    else map rename_columns (columns df).
Proof.
  rewrite Htg. unfold setitem, has_column. cbn [rename columns rows].
  now rewrite negb_involutive.
Qed.

Lemma tagged_labels : labels tg = labels df.
Proof.
  rewrite Htg. unfold labels, setitem. cbn [rename columns rows].
  apply assign_rows_labels.
Qed.

Lemma tagged_length : length (rows tg) = length (rows df).
Proof.
  rewrite Htg. unfold setitem. cbn [rename columns rows]. apply assign_rows_length.
Qed.

Lemma tagged_ds_cells :
  map (fun r => lookup_cell "ds" (columns tg) (cells r)) (rows tg)
  = map (fun d => Some (CTime d)) (values dates).
Proof.
  rewrite tagged_columns. rewrite Htg at 1. unfold setitem, has_column.
  cbn [rename columns rows]. rewrite negb_involutive.
  rewrite assign_rows_lookup_other; [exact Hcells | discriminate |].
  apply List.Forall_forall. intros r Hr.
  apply (List.in_map (fun r => lookup_cell "ds" (map rename_columns (columns df)) (cells r))) in Hr.
  rewrite Hcells in Hr. apply List.in_map_iff in Hr as [d [Hd _]].
  rewrite <- Hd. eauto.
Qed.

Lemma tagged_dates : map (date_of tg) (rows tg) = values dates.
Proof.
  pose proof tagged_ds_cells as H.
  revert H. generalize (values dates). generalize (rows tg).
  induction l as [|r rs IH]; intros [|d ds]; simpl; try discriminate; [reflexivity|].
  intros [= Hr Hrest]. unfold date_of at 1. rewrite Hr. f_equal. now apply IH.
Qed.

Lemma tagged_ds_count : column_count "ds" (columns tg) = 1%nat.
Proof.
  rewrite tagged_columns.
  destruct (Nat.eqb _ 0); [|exact Hcount].
  rewrite column_count_app, Hcount. reflexivity.
Qed.

Lemma tagged_getitem_ds : getitem tg "ds" = Ok (series_map CTime dates).
Proof.
  unfold getitem. rewrite tagged_ds_count. f_equal.
  pose proof tagged_ds_cells as Hc.
  pose proof tagged_labels as Hl. rewrite <- Hlabels in Hl. unfold labels in Hl.
  revert Hc Hl. generalize (columns tg). generalize (rows tg). generalize dates.
  induction dates0 as [|[l d] ds IH]; intros [|r rs] cols; simpl; try discriminate;
    [reflexivity|].
  intros [= Hr Hrest] [= Hl Hls]. rewrite Hr, Hl. simpl. f_equal. now apply IH.
Qed.

Lemma tagged_flags :
  well_formed df ->
  map (flag_of tg) (rows tg)
  = map (fun d => Some (CInt (is_great_recession d))) (values dates).
Proof.
  intros Hwf. unfold flag_of. rewrite tagged_columns. rewrite Htg at 1.
  unfold setitem, has_column. cbn [rename columns rows]. rewrite negb_involutive.
  rewrite assign_rows_lookup_same.
  - rewrite values_series_map, map_map. reflexivity.
  - unfold well_formed in Hwf. rewrite length_map. exact Hwf.
  - rewrite values_series_map, length_map.
    unfold values. rewrite length_map.
    rewrite <- (length_map fst dates), Hlabels. unfold labels. now rewrite length_map.
Qed.

End Tagged.

(* ===================================================================== *)
(** ** Laws of the script monad *)
(* ===================================================================== *)

Lemma bind_assoc {A B C : Type} (m : Py A) (f : A -> Py B) (g : B -> Py C) (w : World) :
  bind (bind m f) g w = bind m (fun a => bind (f a) g) w.
Proof. unfold bind. destruct (m w) as [[a|e] w']; reflexivity. Qed.

Lemma bind_ret {A B : Type} (a : A) (k : A -> Py B) (w : World) :
  bind (ret a) k w = k a w.
Proof. reflexivity. Qed.

Lemma bind_lift_Ok {A B : Type} (a : A) (k : A -> Py B) (w : World) :
  bind (lift (Ok a)) k w = k a w.
Proof. reflexivity. Qed.

Lemma bind_lift_Raise {A B : Type} (e : Exn) (k : A -> Py B) (w : World) :
  bind (lift (Raise e)) k w = (Raise e, w).
Proof. reflexivity. Qed.

Lemma bind_read_frame {B : Type} (p : loc) (df : DataFrame) (k : DataFrame -> Py B) (w : World) :
  heap w !! p = Some df ->
  bind (read_frame p) k w = k df w.
Proof. intros Hp. unfold bind, read_frame. now rewrite Hp. Qed.

Lemma bind_new_frame {B : Type} (df : DataFrame) (k : loc -> Py B) (w : World) :
  bind (new_frame df) k w
  = k (fresh (dom (heap w))) (mkWorld (<[fresh (dom (heap w)) := df]> (heap w)) (trace w)).
Proof. reflexivity. Qed.

Lemma bind_write_frame {B : Type} (p : loc) (df : DataFrame) (k : unit -> Py B) (w : World) :
  bind (write_frame p df) k w = k tt (mkWorld (<[p := df]> (heap w)) (trace w)).
Proof. reflexivity. Qed.

Lemma bind_emit {B : Type} (e : Event) (k : unit -> Py B) (w : World) :
  bind (emit e) k w = k tt (mkWorld (heap w) (trace w ++ [e])).
Proof. reflexivity. Qed.

Lemma bind_run {A B : Type} (m : Py A) (k : A -> Py B) (w w' : World) (r : Result A) :
  m w = (r, w') ->
  bind m k w = match r with Ok a => k a w' | Raise e => (Raise e, w') end.
Proof. intros Hm. unfold bind. now rewrite Hm. Qed.

(** A fresh location differs from every location in use. *)
Lemma fresh_not_in (h : gmap loc DataFrame) (p : loc) :
  is_Some (h !! p) -> p <> fresh (dom h).
Proof.
  intros Hp Heq. apply (is_fresh (dom h)). rewrite <- Heq. now apply elem_of_dom.
Qed.

Lemma fresh_lookup (h : gmap loc DataFrame) : h !! fresh (dom h) = None.
Proof. apply not_elem_of_dom, is_fresh. Qed.

Ltac heap_simpl :=
  cbn [heap trace];
  repeat first
    [ rewrite lookup_insert_eq
    | rewrite lookup_insert_ne by heap_distinct ]
with heap_distinct :=
  first [ apply not_eq_sym, fresh_not_in; heap_is_Some
        | apply fresh_not_in; heap_is_Some ]
with heap_is_Some :=
  heap_simpl;
  solve [ eassumption | eexists; reflexivity | eexists; eassumption ].

Ltac heap_lookup := heap_simpl; first [ reflexivity | eassumption ].

Ltac py_step :=
  first
    [ rewrite bind_assoc
    | rewrite bind_ret
    | rewrite bind_lift_Ok
    | rewrite bind_lift_Raise
    | rewrite bind_new_frame
    | rewrite bind_write_frame
    | rewrite bind_emit
    | erewrite bind_read_frame by heap_lookup ];
  cbn [heap trace].

(* ===================================================================== *)
(** ** Running the partitioner *)
(* ===================================================================== *)

(** The partitioner, run on a frame in the heap: it allocates the renamed
    copy, tags it in place, and allocates the two cuts; nothing else in the
    world changes. *)
Lemma split_run (w : World) (p : loc) (df : DataFrame) :
  heap w !! p = Some df ->
  rename_and_train_test_split p w
  = let p1 := fresh (dom (heap w)) in
    match tagged_frame df with
    | Raise e => (Raise e, mkWorld (<[p1 := rename rename_columns df]> (heap w)) (trace w))
    | Ok tg =>
        let h1 := <[p1 := tg]> (heap w) in
        let p2 := fresh (dom h1) in
        let h2 := <[p2 := train_frame tg]> h1 in
        let p3 := fresh (dom h2) in
        (Ok (p2, p3), mkWorld (<[p3 := test_frame tg]> h2) (trace w))
    end.
Proof.
  intros Hp.
  unfold rename_and_train_test_split, df_rename, df_getitem.
  repeat py_step.
  destruct (tagged_frame df) as [tg|e] eqn:Htagged.
  - destruct (tagged_frame_Ok _ _ Htagged) as (dates & Hcount & Hcells & Hlabels & Htg).
    assert (Hds : getitem tg "ds" = Ok (series_map CTime dates))
      by (eapply tagged_getitem_ds; eassumption).
    assert (Hdates : map (date_of tg) (rows tg) = values dates)
      by (eapply tagged_dates; eassumption).
    unfold tagged_frame in Htagged. cbv zeta in Htagged.
    destruct (getitem (rename rename_columns df) "ds") as [ds|e] eqn:Hget; [|discriminate].
    destruct (as_dates ds) as [dates'|e] eqn:Hdates'; [|discriminate].
    injection Htagged as Htagged.
    unfold apply_is_great_recession, df_setitem.
    repeat py_step. rewrite Hdates'. repeat py_step.
    rewrite Htagged, insert_insert_eq.
    unfold df_getattr, series_lt, series_ge, series_le, df_bool_index.
    repeat py_step. rewrite Hds. cbn [heap trace]. repeat py_step.
    rewrite as_dates_series_map. repeat py_step.
    rewrite Hds. cbn [heap trace]. repeat py_step.
    rewrite as_dates_series_map. repeat py_step.
    rewrite Hds. cbn [heap trace]. repeat py_step.
    rewrite as_dates_series_map. repeat py_step.
    unfold new_frame, ret. cbn [heap trace].
    rewrite series_and_map.
    unfold bool_index, train_frame, test_frame, in_train, in_test.
    rewrite !values_series_map, <- Hdates, !select_rows_filter.
    reflexivity.
  - unfold tagged_frame in Htagged. cbv zeta in Htagged.
    destruct (getitem (rename rename_columns df) "ds") as [ds|e'] eqn:Hget.
    + destruct (as_dates ds) as [dates'|e'] eqn:Hdates'; [discriminate|].
      injection Htagged as ->.
      unfold apply_is_great_recession. repeat py_step.
      rewrite Hdates'. now repeat py_step.
    + injection Htagged as ->. now repeat py_step.
Qed.

(** The world a successful run of the partitioner leaves. *)
Lemma split_Ok (w w' : World) (p train test : loc) (df : DataFrame) :
  heap w !! p = Some df ->
  rename_and_train_test_split p w = (Ok (train, test), w') ->
  exists tg : DataFrame,
    tagged_frame df = Ok tg
    /\ heap w' !! train = Some (train_frame tg)
    /\ heap w' !! test = Some (test_frame tg)
    /\ train <> test
    /\ heap w !! train = None
    /\ heap w !! test = None
    /\ trace w' = trace w
    /\ (forall q : loc, is_Some (heap w !! q) -> heap w' !! q = heap w !! q).
Proof.
  intros Hp Hrun. rewrite (split_run w p df Hp) in Hrun. cbv zeta in Hrun.
  destruct (tagged_frame df) as [tg|e]; [|discriminate].
  injection Hrun as <- <- <-. exists tg.
  set (p1 := fresh (dom (heap w))).
  set (h1 := <[p1 := tg]> (heap w)).
  set (p2 := fresh (dom h1)).
  set (h2 := <[p2 := train_frame tg]> h1).
  set (p3 := fresh (dom h2)).
  assert (H12 : p1 <> p2).
  { apply fresh_not_in. subst h1. rewrite lookup_insert_eq. eauto. }
  assert (H23 : p2 <> p3).
  { apply fresh_not_in. subst h2. rewrite lookup_insert_eq. eauto. }
  assert (H13 : p1 <> p3).
  { apply fresh_not_in. subst h2 h1. rewrite lookup_insert_ne, lookup_insert_eq; eauto. }
  assert (Hold : forall q, is_Some (heap w !! q) -> q <> p1 /\ q <> p2 /\ q <> p3).
  { intros q Hq.
    assert (Hq1 : q <> p1) by (now apply fresh_not_in).
    assert (Hq2 : q <> p2).
    { apply fresh_not_in. subst h1. now rewrite lookup_insert_ne by auto. }
    repeat split; auto.
    apply fresh_not_in. subst h2 h1. now rewrite !lookup_insert_ne by auto. }
  cbn [heap trace]. repeat split.
  - subst h2. now rewrite lookup_insert_ne, lookup_insert_eq by auto.
  - now rewrite lookup_insert_eq.
  - exact H23.
  - destruct (heap w !! p2) eqn:E; [|reflexivity].
    destruct (Hold p2) as (_ & Hne & _); [eauto | contradiction].
  - destruct (heap w !! p3) eqn:E; [|reflexivity].
    destruct (Hold p3) as (_ & _ & Hne); [eauto | contradiction].
  - intros q Hq. destruct (Hold q Hq) as (Hq1 & Hq2 & Hq3).
    subst h2 h1. now rewrite !lookup_insert_ne by auto.
Qed.

(* ===================================================================== *)
(** ** The three date ranges *)
(* ===================================================================== *)

Lemma start_date_ns : start_date = Ts 1451606400000000000.
Proof. reflexivity. Qed.

Lemma last_date_ns : last_date = Ts 1514764800000000000.
Proof. reflexivity. Qed.

Ltac ts_cases d :=
  unfold in_train, in_test, ts_ge, ts_gt in *;
  rewrite ?start_date_ns, ?last_date_ns in *;
  destruct d as [|?ns]; cbn [ts_le ts_lt] in *;
  rewrite ?andb_true_iff, ?andb_false_iff, ?Z.ltb_lt, ?Z.leb_le, ?Z.ltb_ge, ?Z.leb_gt in *;
  try discriminate; try lia; auto.

Lemma train_not_test (d : Timestamp) :
  ts_lt d start_date = true -> ts_ge d start_date && ts_le d last_date = false.
Proof. intros H. ts_cases d. Qed.

Lemma test_not_train (d : Timestamp) :
  ts_ge d start_date && ts_le d last_date = true -> ts_lt d start_date = false.
Proof. intros H. ts_cases d. Qed.

Lemma after_last_neither (d : Timestamp) :
  ts_gt d last_date = true ->
  ts_lt d start_date = false /\ ts_ge d start_date && ts_le d last_date = false.
Proof. intros H. split; ts_cases d. Qed.

Lemma upto_last_split (d : Timestamp) :
  ts_le d last_date = ts_lt d start_date || (ts_ge d start_date && ts_le d last_date).
Proof.
  unfold ts_ge. rewrite start_date_ns, last_date_ns.
  destruct d as [|x]; cbn [ts_le ts_lt]; [reflexivity|].
  destruct (Z.ltb_spec x 1451606400000000000), (Z.leb_spec 1451606400000000000 x),
    (Z.leb_spec x 1514764800000000000); cbn; try reflexivity; lia.
Qed.

(* ===================================================================== *)
(** ** Rows of a list without repeated labels *)
(* ===================================================================== *)

Lemma occurs_once_filter (f : Row -> bool) (r : Row) (rs : list Row) :
  NoDup rs -> In r rs -> f r = true -> occurs_once r (List.filter f rs).
Proof.
  intros Hnd Hin Hf.
  assert (Hin' : In r (List.filter f rs)) by (apply List.filter_In; auto).
  apply list_elem_of_In, list_elem_of_lookup in Hin' as [i Hi].
  exists i. split; [exact Hi|].
  intros j Hj. eapply NoDup_lookup; [|exact Hj|exact Hi].
  now apply NoDup_ListNoDup, List.NoDup_filter, NoDup_ListNoDup.
Qed.

Lemma not_in_filter (f : Row -> bool) (r : Row) (rs : list Row) :
  f r = false -> ~ In r (List.filter f rs).
Proof. intros Hf Hin. apply List.filter_In in Hin as [_ Hin]. congruence. Qed.

(* ===================================================================== *)
(** ** The partition is a disjoint cover of the rows up to 2018-01-01 *)
(* ===================================================================== *)

(** Cutting a list by two predicates that exclude each other loses and
    repeats nothing. *)
Lemma filter_three_way (f g : Row -> bool) (l : list Row) :
  (forall r : Row, f r = true -> g r = false) ->
  Permutation l
    (List.filter f l ++ List.filter g l
     ++ List.filter (fun r => negb (f r) && negb (g r)) l).
Proof.
  intros Hexcl. induction l as [|a l IH]; [constructor|].
  cbn [List.filter].
  destruct (f a) eqn:Hf.
  - rewrite (Hexcl a Hf). cbn [negb andb app]. now constructor.
  - destruct (g a) eqn:Hg; cbn [negb andb].
    + cbn [app]. now apply Permutation_cons_app.
    + rewrite app_assoc. apply Permutation_cons_app. now rewrite <- app_assoc.
Qed.

(** C2.  A successful run of the partitioner leaves a Train frame holding
    the rows of the tagged input with ds < 2016-01-01 and a Test frame
    holding those with 2016-01-01 <= ds <= 2018-01-01, each in input order:
    the input rows are, up to order, the Train rows, the Test rows and the
    rows in neither range, so every row goes to exactly one of the three.
    No row is in both frames, and a row with ds > 2018-01-01 is in neither.
    When the index labels of the input are distinct, a row with
    ds < 2016-01-01 occurs in Train exactly once and not in Test, a row with
    2016-01-01 <= ds <= 2018-01-01 occurs in Test exactly once and not in
    Train; in particular a row dated 2016-01-01 is in Test, not in Train. *)
Theorem partition_disjoint_cover
  (w w' : World) (p train test : loc) (df : DataFrame)
  (Hp : heap w !! p = Some df)
  (Hrun : rename_and_train_test_split p w = (Ok (train, test), w')) :
  exists tg tr te : DataFrame,
    tagged_frame df = Ok tg
    /\ labels tg = labels df
    /\ heap w' !! train = Some tr
    /\ heap w' !! test = Some te
    /\ rows tr = List.filter (fun r => ts_lt (date_of tg r) start_date) (rows tg)
    /\ rows te
       = List.filter
           (fun r => ts_ge (date_of tg r) start_date && ts_le (date_of tg r) last_date)
           (rows tg)
    /\ Permutation (rows tg)
         (rows tr ++ rows te
          ++ List.filter
               (fun r => negb (ts_lt (date_of tg r) start_date)
                         && negb (ts_ge (date_of tg r) start_date
                                  && ts_le (date_of tg r) last_date))
               (rows tg))
    /\ (forall r : Row, In r (rows tr) -> In r (rows te) -> False)
    /\ (forall r : Row,
           ts_gt (date_of tg r) last_date = true ->
           ~ In r (rows tr) /\ ~ In r (rows te))
    /\ (NoDup (labels df) ->
        forall r : Row,
          In r (rows tg) ->
          (ts_lt (date_of tg r) start_date = true ->
           occurs_once r (rows tr) /\ ~ In r (rows te))
          /\ (ts_ge (date_of tg r) start_date = true ->
              ts_le (date_of tg r) last_date = true ->
              occurs_once r (rows te) /\ ~ In r (rows tr))
          /\ (date_of tg r = datetime 2016 1 1 ->
              occurs_once r (rows te) /\ ~ In r (rows tr))).
Proof.
  destruct (split_Ok _ _ _ _ _ _ Hp Hrun) as (tg & Htg & Htr & Hte & _).
  destruct (tagged_frame_Ok _ _ Htg) as (dates & Hcount & Hcells & Hl & Hset).
  assert (Hlab : labels tg = labels df) by (eapply tagged_labels; eassumption).
  exists tg, (train_frame tg), (test_frame tg).
  cbn [train_frame test_frame rows]. unfold in_train, in_test.
  repeat match goal with |- _ /\ _ => split end; try assumption; try reflexivity.
  - apply filter_three_way. intros r. apply train_not_test.
  - intros r Htrain Htest.
    apply List.filter_In in Htrain as [_ Htrain], Htest as [_ Htest].
    now rewrite (train_not_test _ Htrain) in Htest.
  - intros r Hafter. split; apply not_in_filter; now apply after_last_neither.
  - intros Hnodup r Hin.
    assert (Hnd : NoDup (rows tg)).
    { apply NoDup_ListNoDup, (List.NoDup_map_inv label), NoDup_ListNoDup.
      fold (labels tg). now rewrite Hlab. }
    repeat split; intros.
    + now apply occurs_once_filter.
    + apply not_in_filter. now apply train_not_test.
    + apply occurs_once_filter; auto. now rewrite H, H0.
    + apply not_in_filter. apply test_not_train. now rewrite H, H0.
    + apply occurs_once_filter; auto. now rewrite H.
    + apply not_in_filter. now rewrite H.
Qed.

Lemma partition_disjoint_cover_witness :
  NoDup (labels sample_frame)
  /\ exists tg tr te : DataFrame,
      tagged_frame sample_frame = Ok tg
      /\ labels tg = labels sample_frame
      /\ heap (snd (rename_and_train_test_split 1%positive (world_with sample_frame)))
           !! 3%positive = Some tr
      /\ heap (snd (rename_and_train_test_split 1%positive (world_with sample_frame)))
           !! 4%positive = Some te
      /\ rows tr = List.filter (fun r => ts_lt (date_of tg r) start_date) (rows tg)
      /\ rows te
         = List.filter
             (fun r => ts_ge (date_of tg r) start_date && ts_le (date_of tg r) last_date)
             (rows tg)
      /\ Permutation (rows tg)
           (rows tr ++ rows te
            ++ List.filter
                 (fun r => negb (ts_lt (date_of tg r) start_date)
                           && negb (ts_ge (date_of tg r) start_date
                                    && ts_le (date_of tg r) last_date))
                 (rows tg))
      /\ (forall r : Row, In r (rows tr) -> In r (rows te) -> False)
      /\ (forall r : Row,
             ts_gt (date_of tg r) last_date = true ->
             ~ In r (rows tr) /\ ~ In r (rows te))
      /\ (NoDup (labels sample_frame) ->
          forall r : Row,
            In r (rows tg) ->
            (ts_lt (date_of tg r) start_date = true ->
             occurs_once r (rows tr) /\ ~ In r (rows te))
            /\ (ts_ge (date_of tg r) start_date = true ->
                ts_le (date_of tg r) last_date = true ->
                occurs_once r (rows te) /\ ~ In r (rows tr))
            /\ (date_of tg r = datetime 2016 1 1 ->
                occurs_once r (rows te) /\ ~ In r (rows tr))).
Proof.
  split.
  - apply (bool_decide_unpack _). vm_compute. exact I.
  - apply (partition_disjoint_cover (world_with sample_frame) _ 1%positive 3%positive
             4%positive sample_frame).
    + reflexivity.
    + vm_compute. reflexivity.
Defined.

(* ===================================================================== *)
(** ** The partitioner leaves its input alone *)
(* ===================================================================== *)

Lemma split_frame (w w' : World) (p : loc) (df : DataFrame) (r : Result (loc * loc)) :
  heap w !! p = Some df ->
  rename_and_train_test_split p w = (r, w') ->
  trace w' = trace w
  /\ forall q : loc, is_Some (heap w !! q) -> heap w' !! q = heap w !! q.
Proof.
  intros Hp Hrun. destruct r as [[train test]|e].
  - destruct (split_Ok _ _ _ _ _ _ Hp Hrun) as (tg & _ & _ & _ & _ & _ & _ & Htrace & Hold).
    auto.
  - rewrite (split_run w p df Hp) in Hrun. cbv zeta in Hrun.
    destruct (tagged_frame df) as [tg|e']; [discriminate|].
    injection Hrun as _ <-. cbn [heap trace]. split; [reflexivity|].
    intros q Hq. rewrite lookup_insert_ne; [reflexivity|].
    now apply not_eq_sym, fresh_not_in.
Qed.

(** C8.  Whatever the partitioner ends with, the frame it was given is
    unchanged, and so is every other object that existed before the call.
    When it returns, Train and Test are two new objects, distinct from each
    other and from the input: writing a column into one of them changes
    neither the other nor the input. *)
Theorem partition_does_not_mutate
  (w w' : World) (p : loc) (df : DataFrame) (r : Result (loc * loc))
  (Hp : heap w !! p = Some df)
  (Hrun : rename_and_train_test_split p w = (r, w')) :
  heap w' !! p = Some df
  /\ (forall q : loc, is_Some (heap w !! q) -> heap w' !! q = heap w !! q)
  /\ forall train test : loc,
      r = Ok (train, test) ->
      train <> test /\ train <> p /\ test <> p
      /\ heap w !! train = None /\ heap w !! test = None
      /\ forall (name : string) (s : Series Cell),
          (heap (snd (df_setitem train name s w')) !! test = heap w' !! test
           /\ heap (snd (df_setitem train name s w')) !! p = Some df)
          /\ (heap (snd (df_setitem test name s w')) !! train = heap w' !! train
              /\ heap (snd (df_setitem test name s w')) !! p = Some df).
Proof.
  destruct (split_frame _ _ _ _ _ Hp Hrun) as [_ Hold].
  assert (Hp' : heap w' !! p = Some df) by (rewrite Hold; eauto).
  split; [exact Hp'|]. split; [exact Hold|].
  intros train test ->.
  destruct (split_Ok _ _ _ _ _ _ Hp Hrun)
    as (tg & _ & Htr & Hte & Hne & Hntr & Hnte & _ & _).
  assert (Htp : train <> p) by (intros ->; congruence).
  assert (Hep : test <> p) by (intros ->; congruence).
  repeat split; auto;
    unfold df_setitem, bind, read_frame, write_frame;
    rewrite ?Htr, ?Hte; cbn [snd heap trace];
    rewrite lookup_insert_ne; auto.
Qed.

Lemma partition_does_not_mutate_witness :
  heap (snd (rename_and_train_test_split 1%positive (world_with sample_frame))) !! 1%positive
  = Some sample_frame
  /\ (forall q : loc,
         is_Some (heap (world_with sample_frame) !! q) ->
         heap (snd (rename_and_train_test_split 1%positive (world_with sample_frame))) !! q
         = heap (world_with sample_frame) !! q)
  /\ forall train test : loc,
      Ok (3%positive, 4%positive) = Ok (train, test) ->
      train <> test /\ train <> 1%positive /\ test <> 1%positive
      /\ heap (world_with sample_frame) !! train = None
      /\ heap (world_with sample_frame) !! test = None
      /\ forall (name : string) (s : Series Cell),
          (heap (snd (df_setitem train name s
                        (snd (rename_and_train_test_split 1%positive (world_with sample_frame)))))
             !! test
           = heap (snd (rename_and_train_test_split 1%positive (world_with sample_frame))) !! test
           /\ heap (snd (df_setitem train name s
                           (snd (rename_and_train_test_split 1%positive
                                   (world_with sample_frame)))))
                !! 1%positive
              = Some sample_frame)
          /\ (heap (snd (df_setitem test name s
                           (snd (rename_and_train_test_split 1%positive
                                   (world_with sample_frame)))))
                !! train
              = heap (snd (rename_and_train_test_split 1%positive (world_with sample_frame)))
                  !! train
              /\ heap (snd (df_setitem test name s
                              (snd (rename_and_train_test_split 1%positive
                                      (world_with sample_frame)))))
                   !! 1%positive
                 = Some sample_frame).
Proof.
  apply (partition_does_not_mutate (world_with sample_frame) _ 1%positive sample_frame
           (Ok (3%positive, 4%positive))).
  - reflexivity.
  - vm_compute. reflexivity.
Defined.

(* ===================================================================== *)
(** ** Running the partitioner again *)
(* ===================================================================== *)

Lemma same_outcome_copies (w1 w2 : World) (p1 p2 : loc) (df : DataFrame) :
  heap w1 !! p1 = Some df ->
  heap w2 !! p2 = Some df ->
  same_outcome (rename_and_train_test_split p1 w1) (rename_and_train_test_split p2 w2).
Proof.
  intros H1 H2. unfold same_outcome.
  rewrite (split_run w1 p1 df H1), (split_run w2 p2 df H2). cbv zeta.
  destruct (tagged_frame df) as [tg|e]; cbn [fst snd heap]; [|reflexivity].
  split.
  - exists (train_frame tg). split.
    + rewrite lookup_insert_ne, lookup_insert_eq; [reflexivity|].
      apply not_eq_sym, fresh_not_in. rewrite lookup_insert_eq. eauto.
    + rewrite lookup_insert_ne, lookup_insert_eq; [reflexivity|].
      apply not_eq_sym, fresh_not_in. rewrite lookup_insert_eq. eauto.
  - exists (test_frame tg). now rewrite !lookup_insert_eq.
Qed.

(** C6.  The partitioner is deterministic, and running it a second time
    yields the same Train and Test contents: two runs on the same frame
    content (the same object or a copy of it, in any two worlds) end alike,
    and so do a run and a second run in the world the first one left; the
    second run leaves the frames of the first untouched. *)
Theorem partition_idempotent
  (w : World) (p : loc) (df : DataFrame)
  (Hp : heap w !! p = Some df) :
  (forall (w2 : World) (p2 : loc),
      heap w2 !! p2 = Some df ->
      same_outcome (rename_and_train_test_split p w) (rename_and_train_test_split p2 w2))
  /\ same_outcome (rename_and_train_test_split p w)
       (rename_and_train_test_split p (snd (rename_and_train_test_split p w)))
  /\ forall train test : loc,
      fst (rename_and_train_test_split p w) = Ok (train, test) ->
      heap (snd (rename_and_train_test_split p (snd (rename_and_train_test_split p w)))) !! train
      = heap (snd (rename_and_train_test_split p w)) !! train
      /\ heap (snd (rename_and_train_test_split p (snd (rename_and_train_test_split p w)))) !! test
         = heap (snd (rename_and_train_test_split p w)) !! test.
Proof.
  destruct (rename_and_train_test_split p w) as [r w1] eqn:Hrun1.
  assert (Hp1 : heap w1 !! p = Some df).
  { destruct (split_frame _ _ _ _ _ Hp Hrun1) as [_ Hold]. rewrite Hold; eauto. }
  split; [|split].
  - intros w2 p2 Hp2. rewrite <- Hrun1. now apply same_outcome_copies with df.
  - rewrite <- Hrun1 at 1. cbn [snd]. now apply same_outcome_copies with df.
  - cbn [fst snd]. intros train test ->.
    destruct (split_Ok _ _ _ _ _ _ Hp Hrun1) as (tg & _ & Htr & Hte & _).
    destruct (rename_and_train_test_split p w1) as [r2 w2] eqn:Hrun2.
    destruct (split_frame _ _ _ _ _ Hp1 Hrun2) as [_ Hold].
    cbn [snd]. split; apply Hold; eauto.
Qed.

Lemma partition_idempotent_witness :
  (forall (w2 : World) (p2 : loc),
      heap w2 !! p2 = Some sample_frame ->
      same_outcome (rename_and_train_test_split 1%positive (world_with sample_frame))
        (rename_and_train_test_split p2 w2))
  /\ same_outcome (rename_and_train_test_split 1%positive (world_with sample_frame))
       (rename_and_train_test_split 1%positive
          (snd (rename_and_train_test_split 1%positive (world_with sample_frame))))
  /\ forall train test : loc,
      fst (rename_and_train_test_split 1%positive (world_with sample_frame)) = Ok (train, test) ->
      heap (snd (rename_and_train_test_split 1%positive
                   (snd (rename_and_train_test_split 1%positive (world_with sample_frame)))))
        !! train
      = heap (snd (rename_and_train_test_split 1%positive (world_with sample_frame))) !! train
      /\ heap (snd (rename_and_train_test_split 1%positive
                      (snd (rename_and_train_test_split 1%positive (world_with sample_frame)))))
           !! test
         = heap (snd (rename_and_train_test_split 1%positive (world_with sample_frame))) !! test.
Proof.
  apply (partition_idempotent (world_with sample_frame) 1%positive sample_frame).
  reflexivity.
Defined.

(* ===================================================================== *)
(** ** The tag column *)
(* ===================================================================== *)

Lemma map_pointwise {A B C : Type} (f : A -> C) (g : A -> B) (h : B -> C) (l : list A) :
  map f l = map h (map g l) -> forall x : A, In x l -> f x = h (g x).
Proof.
  induction l as [|a l IH]; simpl; [contradiction|].
  intros [= Ha Hl] x [<-|Hx]; auto.
Qed.

(** In the tagged frame of a well-formed input the flag column is the
    tagger mapped over the date column. *)
Lemma tagged_flag_column (df tg : DataFrame) :
  well_formed df ->
  tagged_frame df = Ok tg ->
  map (flag_of tg) (rows tg)
  = map (fun d => Some (CInt (is_great_recession d))) (map (date_of tg) (rows tg)).
Proof.
  intros Hwf Htg.
  destruct (tagged_frame_Ok _ _ Htg) as (dates & Hcount & Hcells & Hl & Hset).
  erewrite tagged_flags, tagged_dates; try eassumption. reflexivity.
Qed.

Lemma tagged_flag_of_date (df tg : DataFrame) :
  well_formed df ->
  tagged_frame df = Ok tg ->
  forall r : Row,
    In r (rows tg) -> flag_of tg r = Some (CInt (is_great_recession (date_of tg r))).
Proof.
  intros Hwf Htg.
  apply (map_pointwise (flag_of tg) (date_of tg)
           (fun d => Some (CInt (is_great_recession d)))).
  now apply tagged_flag_column with df.
Qed.

(** C9.  The tag is a function of the date alone: the tagger returns equal
    results on equal dates, and in the tagged frame, in Train and in Test
    the [great_recession] cell of every row is the tagger applied to the
    row's [ds] cell.  Hence another input with the same date column gets the
    same tag column, whatever its other cells hold. *)
Theorem tag_depends_on_date_only
  (w w' : World) (p train test : loc) (df : DataFrame)
  (Hp : heap w !! p = Some df)
  (Hwf : well_formed df)
  (Hrun : rename_and_train_test_split p w = (Ok (train, test), w')) :
  (forall d1 d2 : Timestamp, d1 = d2 -> is_great_recession d1 = is_great_recession d2)
  /\ exists tg tr te : DataFrame,
      tagged_frame df = Ok tg
      /\ heap w' !! train = Some tr
      /\ heap w' !! test = Some te
      /\ (forall r : Row,
             In r (rows tg) ->
             flag_of tg r = Some (CInt (is_great_recession (date_of tg r))))
      /\ (forall r : Row,
             In r (rows tr) ->
             flag_of tr r = Some (CInt (is_great_recession (date_of tr r))))
      /\ (forall r : Row,
             In r (rows te) ->
             flag_of te r = Some (CInt (is_great_recession (date_of te r))))
      /\ (forall df2 tg2 : DataFrame,
             well_formed df2 ->
             tagged_frame df2 = Ok tg2 ->
             map (date_of tg2) (rows tg2) = map (date_of tg) (rows tg) ->
             map (flag_of tg2) (rows tg2) = map (flag_of tg) (rows tg)).
Proof.
  split; [now intros d1 d2 ->|].
  destruct (split_Ok _ _ _ _ _ _ Hp Hrun) as (tg & Htg & Htr & Hte & _).
  pose proof (tagged_flag_of_date df tg Hwf Htg) as Hflag.
  exists tg, (train_frame tg), (test_frame tg).
  repeat split; auto.
  - intros r Hin. apply List.filter_In in Hin as [Hin _]. now apply Hflag.
  - intros r Hin. apply List.filter_In in Hin as [Hin _]. now apply Hflag.
  - intros df2 tg2 Hwf2 Htg2 Hdates.
    rewrite (tagged_flag_column df2 tg2 Hwf2 Htg2), (tagged_flag_column df tg Hwf Htg).
    now rewrite Hdates.
Qed.

Lemma tag_depends_on_date_only_witness :
  (forall d1 d2 : Timestamp, d1 = d2 -> is_great_recession d1 = is_great_recession d2)
  /\ exists tg tr te : DataFrame,
      tagged_frame sample_frame = Ok tg
      /\ heap (snd (rename_and_train_test_split 1%positive (world_with sample_frame)))
           !! 3%positive = Some tr
      /\ heap (snd (rename_and_train_test_split 1%positive (world_with sample_frame)))
           !! 4%positive = Some te
      /\ (forall r : Row,
             In r (rows tg) ->
             flag_of tg r = Some (CInt (is_great_recession (date_of tg r))))
      /\ (forall r : Row,
             In r (rows tr) ->
             flag_of tr r = Some (CInt (is_great_recession (date_of tr r))))
      /\ (forall r : Row,
             In r (rows te) ->
             flag_of te r = Some (CInt (is_great_recession (date_of te r))))
      /\ (forall df2 tg2 : DataFrame,
             well_formed df2 ->
             tagged_frame df2 = Ok tg2 ->
             map (date_of tg2) (rows tg2) = map (date_of tg) (rows tg) ->
             map (flag_of tg2) (rows tg2) = map (flag_of tg) (rows tg)).
Proof.
  apply (tag_depends_on_date_only (world_with sample_frame) _ 1%positive 3%positive 4%positive
           sample_frame).
  - reflexivity.
  - repeat constructor.
  - vm_compute. reflexivity.
Defined.

(* ===================================================================== *)
(** ** Row order *)
(* ===================================================================== *)

Lemma sorted_filter {A : Type} (R : Timestamp -> Timestamp -> Prop) (g : A -> Timestamp)
  (f : A -> bool) (l : list A) :
  StronglySorted R (map g l) -> StronglySorted R (map g (List.filter f l)).
Proof.
  induction l as [|a l IH]; simpl; intros Hs; [constructor|].
  apply StronglySorted_inv in Hs as [Hs Hall].
  destruct (f a); simpl; [|now apply IH].
  constructor; [now apply IH|].
  apply List.Forall_forall. intros d Hd.
  apply List.in_map_iff in Hd as (x & <- & Hx).
  apply List.filter_In in Hx as [Hx _].
  rewrite List.Forall_forall in Hall. apply Hall. now apply List.in_map.
Qed.

(** In a list sorted by date, once a row is not before the start of the
    test range no later row is. *)
Lemma no_train_after (g : Row -> Timestamp) (d : Timestamp) (l : list Row) :
  ts_lt d start_date = false ->
  Forall (fun x => ts_le d x = true) (map g l) ->
  List.filter (fun r => ts_lt (g r) start_date) l = [].
Proof.
  intros Hd. induction l as [|a l IH]; intros Hall; [reflexivity|].
  cbn [List.filter map] in *.
  apply Forall_cons in Hall as [Ha Hall].
  rewrite IH by exact Hall.
  replace (ts_lt (g a) start_date) with false; [reflexivity|].
  rewrite start_date_ns in *.
  destruct d as [|x], (g a) as [|y]; cbn [ts_le ts_lt] in *; try discriminate; auto.
  apply Z.ltb_ge in Hd. apply Z.leb_le in Ha. symmetry. apply Z.ltb_ge. lia.
Qed.

(** Cutting a date-sorted list at the start of the test range and putting
    the two pieces back together gives the rows up to the last test date. *)
Lemma sorted_cut (g : Row -> Timestamp) (l : list Row) :
  StronglySorted (fun a b => ts_le a b = true) (map g l) ->
  List.filter (fun r => ts_lt (g r) start_date) l
  ++ List.filter (fun r => ts_ge (g r) start_date && ts_le (g r) last_date) l
  = List.filter (fun r => ts_le (g r) last_date) l.
Proof.
  induction l as [|a l IH]; intros Hs; [reflexivity|].
  cbn [List.filter map] in *.
  apply StronglySorted_inv in Hs as [Hs Hall].
  specialize (IH Hs).
  pose proof (upto_last_split (g a)) as Hsplit.
  destruct (ts_lt (g a) start_date) eqn:Hlt.
  - rewrite (train_not_test _ Hlt) in *. cbn [orb] in Hsplit. rewrite Hsplit.
    cbn [app]. now rewrite IH.
  - assert (Hnone : List.filter (fun r => ts_lt (g r) start_date) l = [])
      by (apply (no_train_after g (g a)); [exact Hlt | exact Hall]).
    rewrite Hnone in IH |- *. cbn [orb app] in *.
    destruct (ts_ge (g a) start_date && ts_le (g a) last_date);
      rewrite Hsplit; now rewrite IH.
Qed.

Lemma number_rows_cells (k : Z) (css : list (list Cell)) :
  map cells (number_rows k css) = css.
Proof.
  revert k. induction css as [|cs css IH]; intros k; simpl; [reflexivity|].
  now rewrite IH.
Qed.

Lemma number_rows_labels (k : Z) (css : list (list Cell)) :
  map label (number_rows k css) = map (fun i => k + Z.of_nat i) (seq 0 (length css)).
Proof.
  revert k. induction css as [|cs css IH]; intros k; simpl; [reflexivity|].
  rewrite IH, <- seq_shift, map_map. f_equal; [f_equal; lia|].
  apply map_ext. intros i. lia.
Qed.

Lemma number_rows_length (k : Z) (css : list (list Cell)) :
  length (number_rows k css) = length css.
Proof.
  revert k. induction css as [|cs css IH]; intros k; simpl; [reflexivity|].
  now rewrite IH.
Qed.

(** The dates of the tagged frame are the dates of the renamed input. *)
Lemma tagged_dates_input (df tg : DataFrame) :
  tagged_frame df = Ok tg ->
  map (date_of tg) (rows tg) = map (date_of (rename rename_columns df)) (rows df).
Proof.
  intros Htg.
  destruct (tagged_frame_Ok _ _ Htg) as (dates & Hcount & Hcells & Hl & Hset).
  erewrite tagged_dates by eassumption.
  unfold date_of. cbn [rename columns rows].
  revert Hcells. generalize (values dates). generalize (rows df).
  induction l as [|r rs IH]; intros [|d ds]; simpl; try discriminate; [reflexivity|].
  intros [= Hr Hrest]. rewrite Hr. f_equal. now apply IH.
Qed.

(** C10.  Partitioning keeps the row order.  When the input rows are in
    ascending date order, so are the rows of Train and of Test, the rows of
    Train followed by the rows of Test are the rows of the tagged input dated
    up to 2018-01-01 in their original order, and the frame [pd.concat]
    builds from Train and Test holds exactly these rows' cells, in that
    order. *)
Theorem partition_preserves_order
  (w w' : World) (p train test : loc) (df : DataFrame)
  (Hp : heap w !! p = Some df)
  (Hsorted : ascending (rename rename_columns df))
  (Hrun : rename_and_train_test_split p w = (Ok (train, test), w')) :
  exists tg tr te : DataFrame,
    tagged_frame df = Ok tg
    /\ heap w' !! train = Some tr
    /\ heap w' !! test = Some te
    /\ ascending tr
    /\ ascending te
    /\ rows tr ++ rows te
       = List.filter (fun r => ts_le (date_of tg r) last_date) (rows tg)
    /\ exists (all_data : loc) (w'' : World) (combined : DataFrame),
        pd_concat train test w' = (Ok all_data, w'')
        /\ heap w'' !! all_data = Some combined
        /\ columns combined = columns tg
        /\ map cells (rows combined)
           = map cells (List.filter (fun r => ts_le (date_of tg r) last_date) (rows tg)).
Proof.
  destruct (split_Ok _ _ _ _ _ _ Hp Hrun) as (tg & Htg & Htr & Hte & _).
  assert (Hasc : ascending tg).
  { unfold ascending in *. now rewrite (tagged_dates_input df tg Htg). }
  assert (Hcut : rows (train_frame tg) ++ rows (test_frame tg)
                 = List.filter (fun r => ts_le (date_of tg r) last_date) (rows tg)).
  { cbn [train_frame test_frame rows]. unfold in_train, in_test.
    now apply (sorted_cut (date_of tg)). }
  exists tg, (train_frame tg), (test_frame tg).
  repeat split; auto.
  - unfold ascending. cbn [train_frame rows].
    change (date_of (train_frame tg)) with (date_of tg). now apply sorted_filter.
  - unfold ascending. cbn [test_frame rows].
    change (date_of (test_frame tg)) with (date_of tg). now apply sorted_filter.
  - eexists _, _, _. unfold pd_concat. repeat py_step. unfold new_frame.
    cbn [heap trace]. split; [reflexivity|].
    cbn [heap]. rewrite lookup_insert_eq. split; [reflexivity|].
    unfold concat_ignore_index. cbn [train_frame test_frame columns].
    rewrite bool_decide_eq_true_2 by reflexivity.
    cbn [columns rows]. split; [reflexivity|].
    rewrite number_rows_cells. f_equal. exact Hcut.
Qed.

Lemma partition_preserves_order_witness :
  exists tg tr te : DataFrame,
    tagged_frame short_series = Ok tg
    /\ heap (snd (rename_and_train_test_split 1%positive (world_with short_series)))
         !! 3%positive = Some tr
    /\ heap (snd (rename_and_train_test_split 1%positive (world_with short_series)))
         !! 4%positive = Some te
    /\ ascending tr
    /\ ascending te
    /\ rows tr ++ rows te
       = List.filter (fun r => ts_le (date_of tg r) last_date) (rows tg)
    /\ exists (all_data : loc) (w'' : World) (combined : DataFrame),
        pd_concat 3%positive 4%positive
          (snd (rename_and_train_test_split 1%positive (world_with short_series)))
        = (Ok all_data, w'')
        /\ heap w'' !! all_data = Some combined
        /\ columns combined = columns tg
        /\ map cells (rows combined)
           = map cells (List.filter (fun r => ts_le (date_of tg r) last_date) (rows tg)).
Proof.
  apply (partition_preserves_order (world_with short_series) _ 1%positive 3%positive 4%positive
           short_series).
  - reflexivity.
  - unfold ascending. vm_compute. repeat constructor.
  - vm_compute. reflexivity.
Defined.

(* ===================================================================== *)
(** ** Missing columns *)
(* ===================================================================== *)

(** C5, as stated, fails: on a raw frame without [gas_price] the
    partitioner raises nothing; it returns Train and Test. *)
Lemma missing_gas_price_is_accepted :
  has_column "gas_price" dates_only_frame = false
  /\ exists (train test : loc) (w' : World),
      rename_and_train_test_split 1%positive (world_with dates_only_frame)
      = (Ok (train, test), w').
Proof.
  split; [reflexivity|].
  exists 3%positive, 4%positive. eexists. vm_compute. reflexivity.
Qed.

Lemma tagged_frame_no_date (df : DataFrame) :
  has_column "ds" (rename rename_columns df) = false ->
  tagged_frame df = Raise (KeyError "ds").
Proof.
  unfold has_column, tagged_frame, getitem. cbn [rename columns].
  destruct (column_count "ds" (map rename_columns (columns df))); [reflexivity|discriminate].
Qed.

Lemma tagged_frame_dates (df : DataFrame) (dates : Series Timestamp) :
  getitem (rename rename_columns df) "ds" = Ok (series_map CTime dates) ->
  exists tg : DataFrame, tagged_frame df = Ok tg.
Proof.
  intros Hget. unfold tagged_frame. cbv zeta. rewrite Hget, as_dates_series_map. eauto.
Qed.

(** C5, amended.  A raw frame without a date column (no [month_and_year]
    and no [ds]) makes the partitioner fail with [KeyError('ds')]; in the
    pipeline this happens before any call to the forecasting library, and
    the input frame is left as it was.  The price column plays no part: as
    soon as the frame has one date column holding dates, the partitioner
    returns Train and Test, whether [gas_price] is there or not. *)
Theorem missing_date_column_fails
  (L : ForecastLibrary) (w : World) (p : loc) (df : DataFrame)
  (Hp : heap w !! p = Some df) :
  (has_column "ds" (rename rename_columns df) = false ->
   (exists w' : World,
       rename_and_train_test_split p w = (Raise (KeyError "ds"), w')
       /\ trace w' = trace w
       /\ heap w' !! p = Some df)
   /\ exists w' : World,
       pipeline L df initial_world = (Raise (KeyError "ds"), w')
       /\ trace w' = [])
  /\ (forall dates : Series Timestamp,
         getitem (rename rename_columns df) "ds" = Ok (series_map CTime dates) ->
         exists (train test : loc) (w' : World),
           rename_and_train_test_split p w = (Ok (train, test), w')
           /\ trace w' = trace w).
Proof.
  split.
  - intros Hno. pose proof (tagged_frame_no_date df Hno) as Htg. split.
    + rewrite (split_run w p df Hp). cbv zeta. rewrite Htg.
      eexists. split; [reflexivity|]. cbn [heap trace]. split; [reflexivity|].
      rewrite lookup_insert_ne; [exact Hp|].
      apply not_eq_sym, fresh_not_in. eauto.
    + unfold pipeline. py_step.
      erewrite bind_run
        by (rewrite (split_run _ _ df) by heap_lookup; cbv zeta; rewrite Htg; reflexivity).
      eexists. split; reflexivity.
  - intros dates Hget. destruct (tagged_frame_dates df dates Hget) as [tg Htg].
    rewrite (split_run w p df Hp). cbv zeta. rewrite Htg.
    eexists _, _, _. split; reflexivity.
Qed.

Lemma missing_date_column_fails_witness :
  ((exists w' : World,
       rename_and_train_test_split 1%positive (world_with prices_only_frame)
       = (Raise (KeyError "ds"), w')
       /\ trace w' = trace (world_with prices_only_frame)
       /\ heap w' !! 1%positive = Some prices_only_frame)
   /\ exists w' : World,
       pipeline (constant_library 2%float) prices_only_frame initial_world
       = (Raise (KeyError "ds"), w')
       /\ trace w' = [])
  /\ (forall dates : Series Timestamp,
         getitem (rename rename_columns prices_only_frame) "ds" = Ok (series_map CTime dates) ->
         exists (train test : loc) (w' : World),
           rename_and_train_test_split 1%positive (world_with prices_only_frame)
           = (Ok (train, test), w')
           /\ trace w' = trace (world_with prices_only_frame)).
Proof.
  destruct (missing_date_column_fails (constant_library 2%float)
              (world_with prices_only_frame) 1%positive prices_only_frame eq_refl)
    as [Hfail Hpass].
  split; [apply Hfail; reflexivity | exact Hpass].
Defined.

(* ===================================================================== *)
(** ** Running the orchestrator *)
(* ===================================================================== *)

Ltac py_step_in H :=
  first
    [ rewrite bind_assoc in H
    | rewrite bind_ret in H
    | rewrite bind_lift_Ok in H
    | rewrite bind_lift_Raise in H
    | rewrite bind_new_frame in H
    | rewrite bind_write_frame in H
    | rewrite bind_emit in H
    | erewrite bind_read_frame in H by heap_lookup ];
  cbn [heap trace] in H.

(** A fallible pure step the run went through: it returned a value. *)
Ltac py_case_in H :=
  match type of H with
  | bind (lift ?X) _ _ = (Ok _, _) =>
      let E := fresh "Estep" in
      destruct X eqn:E;
      [ rewrite bind_lift_Ok in H | rewrite bind_lift_Raise in H; discriminate H ]
  | bind (if ?c then lift (Raise _) else _) _ _ = (Ok _, _) =>
      let E := fresh "Estep" in
      destruct c eqn:E;
      [ rewrite bind_lift_Raise in H; discriminate H | ]
  end.

Ltac py_run_in H := repeat first [ py_step_in H | py_case_in H ].

Lemma condition_Ok (df : DataFrame) (name : string) (s : Series Cell) :
  match getitem df name with
  | Raise (KeyError _) => Raise ValueError
  | r => r
  end = Ok s ->
  getitem df name = Ok s.
Proof. destruct (getitem df name) as [s'|[]]; congruence. Qed.

Lemma getattr_Ok (df : DataFrame) (name : string) (s : Series Cell) :
  match getitem df name with
  | Raise (KeyError _) => Raise (AttributeError name)
  | r => r
  end = Ok s ->
  getitem df name = Ok s.
Proof. destruct (getitem df name) as [s'|[]]; congruence. Qed.

Lemma future_frame_dates (fdates : list Timestamp) (s : Series Cell) :
  let base := mkDataFrame ["ds"] (number_rows 0 (map (fun d => [CTime d]) fdates)) in
  columns (setitem base "great_recession" s) = ["ds"; "great_recession"]
  /\ map (date_of (setitem base "great_recession" s)) (rows (setitem base "great_recession" s))
     = fdates.
Proof.
  cbv zeta. unfold setitem, has_column. cbn [columns rows]. split; [reflexivity|].
  change (column_count "great_recession" ["ds"]) with 0%nat. cbn [Nat.eqb negb app].
  unfold date_of. cbn [columns].
  generalize (values s). generalize 0.
  induction fdates as [|d fdates IH]; intros k vs; [reflexivity|].
  cbn [map number_rows assign_rows label cells app lookup_cell].
  f_equal. apply IH.
Qed.

(** What a successful run of the orchestrator went through and what it left
    behind: the frames it allocated (the combined frame, the future frame,
    the forecast), the values the accuracy figures were computed from, and
    the calls it made to the library. *)
Lemma final_run (L : ForecastLibrary) (w w' : World) (train test forecast : loc)
  (fig : Figure) (dtr dte : DataFrame) :
  heap w !! train = Some dtr ->
  heap w !! test = Some dte ->
  final_prophet_model L train test w = (Ok (forecast, fig), w') ->
  exists (state : Fitted L) (dates : Series Timestamp) (flags y_actual_cells : Series Cell)
         (y_predicted_cells : Series Cell) (y_actual y_predicted residuals : Series float)
         (cv : list (float * float)) (test_rmse : float) (fc : DataFrame)
         (all_loc future_loc : loc) (history : Series Timestamp) (fdates : list Timestamp)
         (fut : DataFrame),
    let all_data := concat_ignore_index dtr dte in
    getitem all_data "ds" = Ok (series_map CTime dates)
    /\ getitem all_data "great_recession" = Ok flags
    /\ existsb is_NaT (values dates) = false
    /\ fc = mkDataFrame ["ds"; "yhat"]
              (number_rows 0
                 (forecast_cells state (sort_by fst (combine (values dates) (values flags)))))
    /\ heap w' !! forecast = Some fc
    /\ heap w' !! train = Some dtr
    /\ heap w' !! test = Some dte
    /\ getitem dte "y" = Ok y_actual_cells
    /\ as_floats y_actual_cells = Ok y_actual
    /\ iloc_from_last_column 288 fc = Ok y_predicted_cells
    /\ as_floats y_predicted_cells = Ok y_predicted
    /\ series_sub y_predicted y_actual = Ok residuals
    /\ root_mean_squared (values y_actual) (values y_predicted) = Ok test_rmse
    /\ trace w'
       = trace w ++ library_calls train all_loc
         ++ [EvPrint (series_mean (map fst cv)) (series_mean (map snd cv))
               (mean_absolute (values residuals)) test_rmse]
    /\ heap w' !! all_loc = Some all_data
    /\ getitem dtr "ds" = Ok (series_map CTime history)
    /\ future_dates (values history) 24 = Ok fdates
    /\ heap w' !! future_loc = Some fut
    /\ columns fut = ["ds"; "great_recession"]
    /\ map (date_of fut) (rows fut) = fdates
    /\ future_loc <> all_loc
    /\ future_loc <> forecast.
Proof.
  intros Htr Hte Hrun.
  unfold final_prophet_model, pd_concat, Prophet, add_seasonality, fit,
    make_future_dataframe, df_getitem, apply_is_great_recession, df_setitem, predict,
    cross_validation, performance_metrics, df_getattr in Hrun.
  py_run_in Hrun.
  cbn [fm_state fm_history] in *.
  unfold ret in Hrun. injection Hrun as <- <- <-.
  apply as_dates_Ok in Estep1. subst a0.
  apply as_dates_Ok in Estep6. subst a5.
  apply condition_Ok in Estep7.
  apply getattr_Ok in Estep10.
  rewrite insert_insert_eq.
  destruct (future_frame_dates a2
              (series_map (fun d => CInt (is_great_recession d)) a4)) as [Hfcols Hfdates].
  set (fut := setitem _ "great_recession" _) in *.
  set (p_all := fresh (dom (heap w))).
  set (h_all := <[p_all := concat_ignore_index dtr dte]> (heap w)).
  set (p_future := fresh (dom h_all)).
  set (h_future := <[p_future := fut]> h_all).
  set (p_forecast := fresh (dom h_future)).
  assert (Hall_lookup : h_all !! p_all = Some (concat_ignore_index dtr dte))
    by apply lookup_insert_eq.
  assert (Hne1 : p_future <> p_all).
  { apply not_eq_sym, fresh_not_in. rewrite Hall_lookup. eauto. }
  assert (Hfuture_lookup : h_future !! p_future = Some fut) by apply lookup_insert_eq.
  assert (Hne2 : p_forecast <> p_future).
  { apply not_eq_sym, fresh_not_in. rewrite Hfuture_lookup. eauto. }
  assert (Hne3 : p_forecast <> p_all).
  { apply not_eq_sym, fresh_not_in. unfold h_future.
    rewrite lookup_insert_ne by exact Hne1. rewrite Hall_lookup. eauto. }
  assert (Hold : forall q : loc,
             is_Some (heap w !! q) -> q <> p_all /\ q <> p_future /\ q <> p_forecast).
  { intros q Hq.
    assert (Hq1 : q <> p_all) by (now apply fresh_not_in).
    assert (Hq2 : q <> p_future).
    { apply fresh_not_in. unfold h_all. now rewrite lookup_insert_ne by auto. }
    repeat split; auto.
    apply fresh_not_in. unfold h_future, h_all. now rewrite !lookup_insert_ne by auto. }
  eexists a, a6, a7, a9, a11, a10, a12, a13, a8, a14, _, p_all, p_future, a1, a2, fut.
  cbv zeta. cbn [heap trace].
  repeat match goal with |- _ /\ _ => split end;
    try eassumption; try reflexivity.
  - now rewrite lookup_insert_eq.
  - destruct (Hold train) as (H1 & H2 & H3); [eauto|].
    unfold h_future, h_all. now rewrite !lookup_insert_ne by auto.
  - destruct (Hold test) as (H1 & H2 & H3); [eauto|].
    unfold h_future, h_all. now rewrite !lookup_insert_ne by auto.
  - unfold library_calls. rewrite <- !app_assoc. reflexivity.
  - unfold h_future. now rewrite !lookup_insert_ne by auto.
  - now rewrite lookup_insert_ne by auto.
  - now apply not_eq_sym.
Qed.

(* ===================================================================== *)
(** ** The date axis of the forecast *)
(* ===================================================================== *)

Lemma forecast_cells_dates (L : ForecastLibrary) (state : Fitted L) (k : Z)
  (asked : list (Timestamp * Cell)) (cols : list string) :
  map (date_of (mkDataFrame ("ds" :: cols) [])) (number_rows k (forecast_cells state asked))
  = map fst asked.
Proof.
  revert k. induction asked as [|[d c] asked IH]; intros k; simpl; [reflexivity|].
  f_equal. apply IH.
Qed.

Lemma insert_by_map {A : Type} (key : A -> Timestamp) (x : A) (l : list A) :
  map key (insert_by key x l) = insert_by (fun d => d) (key x) (map key l).
Proof.
  induction l as [|y l IH]; simpl; [reflexivity|].
  destruct (ts_le (key x) (key y)); simpl; [reflexivity|]. now rewrite IH.
Qed.

Lemma sort_by_map {A : Type} (key : A -> Timestamp) (l : list A) :
  map key (sort_by key l) = sort_by (fun d => d) (map key l).
Proof.
  induction l as [|x l IH]; simpl; [reflexivity|].
  now rewrite insert_by_map, IH.
Qed.

Lemma insert_by_length {A : Type} (key : A -> Timestamp) (x : A) (l : list A) :
  length (insert_by key x l) = S (length l).
Proof.
  induction l as [|y l IH]; simpl; [reflexivity|].
  destruct (ts_le (key x) (key y)); simpl; [reflexivity|]. now rewrite IH.
Qed.

Lemma sort_by_length {A : Type} (key : A -> Timestamp) (l : list A) :
  length (sort_by key l) = length l.
Proof.
  induction l as [|x l IH]; simpl; [reflexivity|].
  now rewrite insert_by_length, IH.
Qed.

(** A list already in date order is left as it is. *)
Lemma sort_by_sorted {A : Type} (key : A -> Timestamp) (l : list A) :
  StronglySorted (fun a b => ts_le (key a) (key b) = true) l ->
  sort_by key l = l.
Proof.
  induction 1 as [|x l Hs IH Hall]; simpl; [reflexivity|].
  fold (sort_by key l). rewrite IH.
  destruct l as [|y l]; simpl; [reflexivity|].
  apply Forall_cons in Hall as [Hxy _]. now rewrite Hxy.
Qed.

Lemma map_fst_combine {A B : Type} (a : list A) (b : list B) :
  length b = length a -> map fst (combine a b) = a.
Proof.
  revert b. induction a as [|x a IH]; intros [|y b]; simpl; try discriminate; [reflexivity|].
  intros [= Hlen]. now rewrite IH.
Qed.

Lemma getitem_length (df : DataFrame) (name : string) (s : Series Cell) :
  getitem df name = Ok s -> length s = length (rows df).
Proof.
  unfold getitem. destruct (column_count name (columns df)) as [|[|k]]; try discriminate.
  intros [= <-]. now rewrite length_map.
Qed.

Lemma getitem_dates (df : DataFrame) (dates : Series Timestamp) :
  getitem df "ds" = Ok (series_map CTime dates) ->
  map (date_of df) (rows df) = values dates.
Proof.
  unfold getitem. destruct (column_count "ds" (columns df)) as [|[|k]]; try discriminate.
  intros [= Heq]. apply column_as_dates in Heq as [Hcells _].
  unfold date_of. revert Hcells. generalize (values dates). generalize (rows df).
  induction l as [|r rs IH]; intros [|d ds]; simpl; try discriminate; [reflexivity|].
  intros [= Hr Hrest]. rewrite Hr. f_equal. now apply IH.
Qed.

Lemma values_length {A : Type} (s : Series A) : length (values s) = length s.
Proof. unfold values. apply length_map. Qed.

Lemma date_of_same_cells (a b : DataFrame) (rs rs' : list Row) :
  columns a = columns b ->
  map cells rs = map cells rs' ->
  map (date_of a) rs = map (date_of b) rs'.
Proof.
  intros Hcols. unfold date_of. rewrite Hcols. revert rs'.
  induction rs as [|r rs IH]; intros [|r' rs']; simpl; try discriminate; [reflexivity|].
  intros [= Hr Hrest]. rewrite Hr. f_equal. now apply IH.
Qed.

Lemma map_filter_dates (g : Row -> Timestamp) (f : Timestamp -> bool) (l : list Row) :
  map g (List.filter (fun r => f (g r)) l) = List.filter f (map g l).
Proof.
  induction l as [|a l IH]; simpl; [reflexivity|].
  destruct (f (g a)); simpl; now rewrite IH.
Qed.

(** The forecast a successful run of the orchestrator returns has one row
    per row of the combined frame; its dates are the dates of the combined
    frame in date order.  The frame the library is asked to predict on is the
    combined frame; the future frame is another object, holding the training
    dates and the 24 month starts after them. *)
Lemma forecast_dates (L : ForecastLibrary) (w w' : World) (train test forecast : loc)
  (fig : Figure) (dtr dte : DataFrame) :
  heap w !! train = Some dtr ->
  heap w !! test = Some dte ->
  final_prophet_model L train test w = (Ok (forecast, fig), w') ->
  exists (fc fut : DataFrame) (all_loc future_loc : loc) (print : Event),
    heap w' !! forecast = Some fc
    /\ columns fc = ["ds"; "yhat"]
    /\ map (date_of fc) (rows fc)
       = sort_by (fun d => d)
           (map (date_of (concat_ignore_index dtr dte)) (rows (concat_ignore_index dtr dte)))
    /\ trace w' = trace w ++ library_calls train all_loc ++ [print]
    /\ heap w' !! all_loc = Some (concat_ignore_index dtr dte)
    /\ heap w' !! future_loc = Some fut
    /\ future_loc <> all_loc
    /\ future_loc <> forecast
    /\ future_dates (map (date_of dtr) (rows dtr)) 24 = Ok (map (date_of fut) (rows fut)).
Proof.
  intros Htr Hte Hrun.
  destruct (final_run L w w' train test forecast fig dtr dte Htr Hte Hrun)
    as (state & dates & flags & yac & ypc & ya & yp & res & cv & rmse & fc & all_loc
        & future_loc & history & fdates & fut & H).
  cbv zeta in H.
  destruct H as (Hds & Hflags & _ & Hfc & Hheap & _ & _ & _ & _ & _ & _ & _ & _ & Htrace
                 & Hall & Hhist & Hfuture & Hfut & _ & Hfut_dates & Hne1 & Hne2).
  exists fc, fut, all_loc, future_loc. eexists.
  split; [exact Hheap|]. split; [subst fc; reflexivity|]. split.
  - subst fc. cbn [rows]. rewrite (getitem_dates _ _ Hds).
    rewrite (forecast_cells_dates L state 0 _ ["yhat"]), sort_by_map.
    rewrite map_fst_combine; [reflexivity|].
    rewrite !values_length, (getitem_length _ _ _ Hflags).
    apply getitem_length in Hds. unfold series_map in Hds. now rewrite length_map in Hds.
  - split; [exact Htrace|]. repeat split; auto.
    now rewrite (getitem_dates _ _ Hhist), Hfut_dates.
Qed.

(** The frames the pipeline leaves: the dates of the forecast and of the
    combined frame are the dates of the training rows followed by the dates
    of the test rows. *)
Lemma pipeline_forecast_dates (L : ForecastLibrary) (csv : DataFrame) (w' : World)
  (forecast : loc) (fig : Figure) :
  pipeline L csv initial_world = (Ok (forecast, fig), w') ->
  exists (tg fc fut combined : DataFrame) (train all_loc future_loc : loc) (print : Event),
    let train_dates :=
      List.filter (fun d => ts_lt d start_date) (map (date_of tg) (rows tg)) in
    let test_dates :=
      List.filter (fun d => ts_ge d start_date && ts_le d last_date)
        (map (date_of tg) (rows tg)) in
    tagged_frame csv = Ok tg
    /\ heap w' !! forecast = Some fc
    /\ columns fc = ["ds"; "yhat"]
    /\ map (date_of fc) (rows fc) = sort_by (fun d => d) (train_dates ++ test_dates)
    /\ trace w' = library_calls train all_loc ++ [print]
    /\ heap w' !! all_loc = Some combined
    /\ map (date_of combined) (rows combined) = train_dates ++ test_dates
    /\ heap w' !! future_loc = Some fut
    /\ future_loc <> all_loc
    /\ future_loc <> forecast
    /\ future_dates train_dates 24 = Ok (map (date_of fut) (rows fut)).
Proof.
  intros Hrun. unfold pipeline in Hrun. py_step_in Hrun.
  match type of Hrun with
  | bind ?m _ ?w0 = _ => destruct (m w0) as [[[train test]|e] w1] eqn:Hsplit
  end; rewrite (bind_run _ _ _ _ _ Hsplit) in Hrun; [|discriminate].
  apply split_Ok with (df := csv) in Hsplit
    as (tg & Htg & Htr & Hte & _ & _ & _ & Htrace1 & _);
    [|apply lookup_insert_eq].
  cbn [fst snd] in Hrun.
  destruct (forecast_dates L _ _ _ _ _ _ _ _ Htr Hte Hrun)
    as (fc & fut & all_loc & future_loc & print & Hfc & Hcols & Hdates & Htrace & Hall
        & Hfut & Hne1 & Hne2 & Hfuture).
  assert (Hcombined : map (date_of (concat_ignore_index (train_frame tg) (test_frame tg)))
                        (rows (concat_ignore_index (train_frame tg) (test_frame tg)))
                      = List.filter (fun d => ts_lt d start_date) (map (date_of tg) (rows tg))
                        ++ List.filter (fun d => ts_ge d start_date && ts_le d last_date)
                             (map (date_of tg) (rows tg))).
  { unfold concat_ignore_index. cbn [train_frame test_frame columns].
    rewrite bool_decide_eq_true_2 by reflexivity. cbn [rows].
    rewrite (date_of_same_cells _ tg _ (List.filter (in_train tg) (rows tg)
                                         ++ List.filter (in_test tg) (rows tg)));
      [| reflexivity | apply number_rows_cells].
    rewrite map_app. unfold in_train, in_test.
    now rewrite (map_filter_dates (date_of tg) (fun d => ts_lt d start_date)),
      (map_filter_dates (date_of tg) (fun d => ts_ge d start_date && ts_le d last_date)). }
  exists tg, fc, fut, (concat_ignore_index (train_frame tg) (test_frame tg)), train,
    all_loc, future_loc, print. cbv zeta.
  rewrite Hcombined in Hdates.
  split; [exact Htg|]. split; [exact Hfc|]. split; [exact Hcols|]. split; [exact Hdates|].
  split; [rewrite Htrace, Htrace1; reflexivity|].
  split; [exact Hall|]. split; [exact Hcombined|]. split; [exact Hfut|].
  split; [exact Hne1|]. split; [exact Hne2|].
  rewrite <- Hfuture. f_equal.
  change (date_of (train_frame tg)) with (date_of tg). cbn [train_frame rows].
  unfold in_train. now rewrite (map_filter_dates (date_of tg) (fun d => ts_lt d start_date)).
Qed.

Lemma standard_series_dates (price : nat -> float) :
  map (date_of (rename rename_columns (standard_series price))) (rows (standard_series price))
  = map (fun i => month_start (1992 * 12 + Z.of_nat i)) (seq 0 313).
Proof. vm_compute. reflexivity. Qed.

Lemma filter_by_date_nil (g : Row -> Timestamp) (f : Timestamp -> bool) (l : list Row) :
  List.filter f (map g l) = [] -> List.filter (fun r => f (g r)) l = [].
Proof.
  rewrite <- map_filter_dates. now destruct (List.filter (fun r => f (g r)) l).
Qed.

(** The frames a run on the standard series leaves, whatever the prices and
    the library: the forecast and the combined frame have one row per input
    month, the future frame has the 288 training months and the 24 months
    after them. *)
Lemma standard_forecast_dates (L : ForecastLibrary) (price : nat -> float) (forecast : loc)
  (fig : Figure) (w' : World) :
  pipeline L (standard_series price) initial_world = (Ok (forecast, fig), w') ->
  exists (fc fut combined : DataFrame) (train all_loc future_loc : loc) (print : Event),
    heap w' !! forecast = Some fc
    /\ columns fc = ["ds"; "yhat"]
    /\ map (date_of fc) (rows fc)
       = map (fun i => month_start (1992 * 12 + Z.of_nat i)) (seq 0 313)
    /\ List.filter (fun r => ts_gt (date_of fc r) last_date) (rows fc) = []
    /\ trace w' = library_calls train all_loc ++ [print]
    /\ heap w' !! all_loc = Some combined
    /\ map (date_of combined) (rows combined)
       = map (fun i => month_start (1992 * 12 + Z.of_nat i)) (seq 0 313)
    /\ heap w' !! future_loc = Some fut
    /\ future_loc <> all_loc
    /\ future_loc <> forecast
    /\ map (date_of fut) (rows fut)
       = map (fun i => month_start (1992 * 12 + Z.of_nat i)) (seq 0 288)
         ++ map (fun i => month_start (2016 * 12 + Z.of_nat i)) (seq 0 24).
Proof.
  intros Hrun.
  destruct (pipeline_forecast_dates L _ _ _ _ Hrun)
    as (tg & fc & fut & combined & train & all_loc & future_loc & print & H).
  cbv zeta in H.
  destruct H as (Htg & Hfc & Hcols & Hdates & Htrace & Hall & Hcombined & Hfut & Hne1 & Hne2
                 & Hfuture).
  rewrite (tagged_dates_input _ _ Htg), standard_series_dates in Hdates, Hcombined, Hfuture.
  assert (Hrows : map (date_of fc) (rows fc)
                  = map (fun i => month_start (1992 * 12 + Z.of_nat i)) (seq 0 313)).
  { rewrite Hdates. vm_compute. reflexivity. }
  exists fc, fut, combined, train, all_loc, future_loc, print.
  split; [exact Hfc|]. split; [exact Hcols|]. split; [exact Hrows|]. split.
  { apply filter_by_date_nil with (f := fun d => ts_gt d last_date).
    rewrite Hrows. vm_compute. reflexivity. }
  split; [exact Htrace|]. split; [exact Hall|]. split.
  { rewrite Hcombined. vm_compute. reflexivity. }
  split; [exact Hfut|]. split; [exact Hne1|]. split; [exact Hne2|].
  assert (Hcomputed :
            future_dates
              (List.filter (fun d => ts_lt d start_date)
                 (map (fun i => month_start (1992 * 12 + Z.of_nat i)) (seq 0 313))) 24
            = Ok (map (fun i => month_start (1992 * 12 + Z.of_nat i)) (seq 0 288)
                  ++ map (fun i => month_start (2016 * 12 + Z.of_nat i)) (seq 0 24)))
    by (vm_compute; reflexivity).
  rewrite Hcomputed in Hfuture. now injection Hfuture as <-.
Qed.

(** C3, as stated, fails: on the standard series the forecast the pipeline
    returns has no row dated after 2018-01-01, not 24; and no forecasting
    library and no prices make it 24. *)
Lemma forecast_has_no_row_after_2018 :
  (exists (forecast : loc) (fig : Figure) (w' : World) (fc : DataFrame),
      pipeline (constant_library 2%float) flat_series initial_world
      = (Ok (forecast, fig), w')
      /\ heap w' !! forecast = Some fc
      /\ length (rows fc) = 313%nat
      /\ length (List.filter (fun r => ts_gt (date_of fc r) last_date) (rows fc)) = 0%nat)
  /\ ~ (exists (L : ForecastLibrary) (price : nat -> float) (forecast : loc) (fig : Figure)
               (w' : World) (fc : DataFrame),
          pipeline L (standard_series price) initial_world = (Ok (forecast, fig), w')
          /\ heap w' !! forecast = Some fc
          /\ length (List.filter (fun r => ts_gt (date_of fc r) last_date) (rows fc))
             = 24%nat).
Proof.
  split.
  - eexists _, _, _, _. split; [vm_compute; reflexivity|].
    split; [vm_compute; reflexivity|].
    split; vm_compute; reflexivity.
  - intros (L & price & forecast & fig & w' & fc & Hrun & Hfc & Hcount).
    destruct (standard_forecast_dates L price forecast fig w' Hrun)
      as (fc' & fut & combined & train & all_loc & future_loc & print
          & Hfc' & _ & _ & Hnone & _).
    rewrite Hfc in Hfc'. injection Hfc' as <-.
    rewrite Hnone in Hcount. discriminate Hcount.
Qed.

(** C3, amended.  For the standard monthly series (January 1992 to January
    2018), whatever the prices and whatever the forecasting library
    computes, a run of the pipeline that returns asks the library for a
    prediction on the combined Train and Test rows, and the forecast it
    returns has one row per input month: 313 rows dated 1992-01-01 to
    2018-01-01, and no row after 2018-01-01.  The 24-period extension of the
    date axis is another frame, which no later call reads; it starts at the
    end of Train, adding the months 2016-01-01 to 2017-12-01 to the 288
    training months. *)
Theorem forecast_covers_combined_series
  (L : ForecastLibrary) (price : nat -> float) (forecast : loc) (fig : Figure) (w' : World)
  (Hrun : pipeline L (standard_series price) initial_world = (Ok (forecast, fig), w')) :
  exists (fc fut combined : DataFrame) (train all_loc future_loc : loc) (print : Event),
    heap w' !! forecast = Some fc
    /\ map (date_of fc) (rows fc)
       = map (fun i => month_start (1992 * 12 + Z.of_nat i)) (seq 0 313)
    /\ length (rows fc) = 313%nat
    /\ List.last (map (date_of fc) (rows fc)) NaT = datetime 2018 1 1
    /\ List.filter (fun r => ts_gt (date_of fc r) last_date) (rows fc) = []
    /\ trace w' = library_calls train all_loc ++ [print]
    /\ heap w' !! all_loc = Some combined
    /\ map (date_of combined) (rows combined) = map (date_of fc) (rows fc)
    /\ heap w' !! future_loc = Some fut
    /\ future_loc <> all_loc
    /\ future_loc <> forecast
    /\ map (date_of fut) (rows fut)
       = map (fun i => month_start (1992 * 12 + Z.of_nat i)) (seq 0 288)
         ++ map (fun i => month_start (2016 * 12 + Z.of_nat i)) (seq 0 24)
    /\ List.last (map (date_of fut) (rows fut)) NaT = datetime 2017 12 1.
Proof.
  destruct (standard_forecast_dates L price forecast fig w' Hrun)
    as (fc & fut & combined & train & all_loc & future_loc & print
        & Hfc & _ & Hrows & Hnone & Htrace & Hall & Hcombined & Hfut & Hne1 & Hne2 & Hfuture).
  exists fc, fut, combined, train, all_loc, future_loc, print.
  split; [exact Hfc|]. split; [exact Hrows|].
  split; [now rewrite <- (length_map (date_of fc)), Hrows|].
  split; [rewrite Hrows; vm_compute; reflexivity|].
  split; [exact Hnone|]. split; [exact Htrace|]. split; [exact Hall|].
  split; [now rewrite Hcombined, Hrows|].
  split; [exact Hfut|]. split; [exact Hne1|]. split; [exact Hne2|].
  split; [exact Hfuture|].
  rewrite Hfuture. vm_compute. reflexivity.
Qed.

Lemma forecast_covers_combined_series_witness :
  exists (fc fut combined : DataFrame) (train all_loc future_loc : loc) (print : Event),
    heap (snd (pipeline (constant_library 2%float) flat_series
                 initial_world)) !! 7%positive = Some fc
    /\ map (date_of fc) (rows fc)
       = map (fun i => month_start (1992 * 12 + Z.of_nat i)) (seq 0 313)
    /\ length (rows fc) = 313%nat
    /\ List.last (map (date_of fc) (rows fc)) NaT = datetime 2018 1 1
    /\ List.filter (fun r => ts_gt (date_of fc r) last_date) (rows fc) = []
    /\ trace (snd (pipeline (constant_library 2%float) flat_series initial_world))
       = library_calls train all_loc ++ [print]
    /\ heap (snd (pipeline (constant_library 2%float) flat_series
                    initial_world)) !! all_loc = Some combined
    /\ map (date_of combined) (rows combined) = map (date_of fc) (rows fc)
    /\ heap (snd (pipeline (constant_library 2%float) flat_series
                    initial_world)) !! future_loc = Some fut
    /\ future_loc <> all_loc
    /\ future_loc <> 7%positive
    /\ map (date_of fut) (rows fut)
       = map (fun i => month_start (1992 * 12 + Z.of_nat i)) (seq 0 288)
         ++ map (fun i => month_start (2016 * 12 + Z.of_nat i)) (seq 0 24)
    /\ List.last (map (date_of fut) (rows fut)) NaT = datetime 2017 12 1.
Proof.
  apply (forecast_covers_combined_series (constant_library 2%float) (fun _ => 2%float)
           7%positive (FigureOf 7%positive)).
  vm_compute. reflexivity.
Defined.

(* ===================================================================== *)
(** ** The rows the test accuracy is computed on *)
(* ===================================================================== *)

Lemma as_floats_Ok (s : Series Cell) (xs : Series float) :
  as_floats s = Ok xs -> map fst xs = map fst s.
Proof.
  revert xs. induction s as [|[l c] s IH]; intros xs; simpl.
  - now intros [= <-].
  - destruct c, (as_floats s) as [ys|e]; try discriminate;
      intros [= <-]; simpl; now rewrite (IH ys).
Qed.

Lemma getitem_labels (df : DataFrame) (name : string) (s : Series Cell) :
  getitem df name = Ok s -> map fst s = labels df.
Proof.
  unfold getitem. destruct (column_count name (columns df)) as [|[|k]]; try discriminate.
  intros [= <-]. unfold labels. now rewrite map_map.
Qed.

Lemma iloc_labels (n : nat) (df : DataFrame) (s : Series Cell) :
  iloc_from_last_column n df = Ok s -> map fst s = skipn n (labels df).
Proof.
  unfold iloc_from_last_column. destruct (columns df); [discriminate|].
  intros [= <-]. unfold labels. now rewrite map_map, skipn_map.
Qed.

Lemma concat_same_columns (a b : DataFrame) :
  columns a = columns b ->
  concat_ignore_index a b
  = mkDataFrame (columns a) (number_rows 0 (map cells (rows a ++ rows b))).
Proof.
  intros Hcols. unfold concat_ignore_index. now rewrite bool_decide_eq_true_2.
Qed.

Lemma zip_sub_series_values (a b : Series float) :
  values (zip_sub_series a b) = zip_sub (values a) (values b).
Proof.
  revert b. induction a as [|[l x] a IH]; intros [|[l' y] b]; simpl; try reflexivity.
  f_equal. apply IH.
Qed.

Lemma same_labels_refl (ls : list Z) : same_labels ls ls = true.
Proof. induction ls as [|l ls IH]; simpl; [reflexivity|]. now rewrite Z.eqb_refl. Qed.

Lemma root_mean_squared_Ok {T : Type} `{Number T} (y_actual y_predicted : list T) (rmse : T) :
  root_mean_squared y_actual y_predicted = Ok rmse ->
  length y_actual = length y_predicted
  /\ length y_actual <> 0%nat
  /\ rmse = num_sqrt (np_mean (squared_errors y_actual y_predicted)).
Proof.
  unfold root_mean_squared, mean_squared_error.
  destruct (Nat.eqb_spec (length y_actual) (length y_predicted)) as [Hlen|]; [|discriminate].
  destruct (Nat.eqb_spec (length y_actual) 0) as [|Hne]; [discriminate|].
  cbn [negb].
  destruct (negb _); [discriminate|].
  intros [= <-]. auto.
Qed.

Lemma forecast_cells_length (L : ForecastLibrary) (state : Fitted L)
  (asked : list (Timestamp * Cell)) :
  length (forecast_cells state asked) = length asked.
Proof. unfold forecast_cells. apply length_map. Qed.

Lemma ts_lt_le (a b : Timestamp) : ts_lt a b = true -> ts_le a b = true.
Proof.
  destruct a as [|x], b as [|y]; cbn; try discriminate.
  rewrite Z.ltb_lt, Z.leb_le. lia.
Qed.

Lemma ts_lt_trans (a b c : Timestamp) :
  ts_lt a b = true -> ts_lt b c = true -> ts_lt a c = true.
Proof.
  destruct a as [|x], b as [|y], c as [|z]; cbn; try discriminate.
  rewrite !Z.ltb_lt. lia.
Qed.

Lemma strictly_sorted_sorted (ds : list Timestamp) :
  StronglySorted (fun a b => ts_lt a b = true) ds ->
  StronglySorted (fun a b => ts_le a b = true) ds.
Proof.
  induction 1 as [|d ds Hs IH Hall]; constructor; [exact IH|].
  eapply Forall_impl; [exact Hall|]. intros x. apply ts_lt_le.
Qed.

(** The executable check is sound. *)
Lemma dates_increasing_sound (ds : list Timestamp) :
  dates_increasing ds = true -> StronglySorted (fun a b => ts_lt a b = true) ds.
Proof.
  induction ds as [|d ds IH]; [constructor|].
  destruct ds as [|d' ds]; [repeat constructor|].
  cbn [dates_increasing]. intros Hinc. apply andb_true_iff in Hinc as [Hlt Hinc].
  specialize (IH Hinc). constructor; [exact IH|].
  apply StronglySorted_inv in IH as [_ Hall].
  constructor; [exact Hlt|].
  eapply Forall_impl; [exact Hall|]. intros x. now apply ts_lt_trans.
Qed.

Lemma seq_skipn (n k : nat) : skipn k (seq 0 (k + n)) = seq k n.
Proof.
  rewrite seq_app, skipn_app, length_seq, Nat.sub_diag.
  rewrite skipn_all2 by (rewrite length_seq; lia). reflexivity.
Qed.

Lemma map_seq_shift {A : Type} (f : nat -> A) (k n : nat) :
  map f (seq k n) = map (fun i => f (k + i)%nat) (seq 0 n).
Proof.
  revert k. induction n as [|n IH]; intros k; simpl; [reflexivity|].
  rewrite Nat.add_0_r. f_equal.
  rewrite (IH (S k)), <- seq_shift, map_map.
  apply map_ext. intros i. f_equal. lia.
Qed.

(** C4, amended.  The test accuracy is computed on the forecast rows from
    position 288 on (not on the last 24 rows), against Test's [y] values.
    Whenever the orchestrator returns, on a Train and a Test frame with the
    same columns, in increasing date order when put one after the other, and
    Test indexed 288, 289, ... (as for a date-ordered frame read from file
    whose first 288 rows are Train): Train has exactly 288 rows, the
    selected predictions are as many as the Test rows, carry the same labels
    and the same dates in the same order, and the figures printed are
    test MAE = mean of the absolute residuals (predicted minus actual) and
    test RMSE = square root of the mean of the squared residuals, after the
    calls to the forecasting library. *)
Theorem test_accuracy_rows
  (L : ForecastLibrary) (w w' : World) (train test forecast : loc) (fig : Figure)
  (dtr dte : DataFrame)
  (Htr : heap w !! train = Some dtr)
  (Hte : heap w !! test = Some dte)
  (Hcols : columns dtr = columns dte)
  (Hsorted : strictly_ascending (concat_ignore_index dtr dte))
  (Hlabels : labels dte = map (fun i => 288 + Z.of_nat i) (seq 0 (length (rows dte))))
  (Hrun : final_prophet_model L train test w = (Ok (forecast, fig), w')) :
  exists (fc : DataFrame) (y_predicted y_actual : Series float) (all_data : loc)
         (train_mae train_rmse : float),
    heap w' !! forecast = Some fc
    /\ (exists cs : Series Cell,
           iloc_from_last_column 288 fc = Ok cs /\ as_floats cs = Ok y_predicted)
    /\ (exists cs : Series Cell, getitem dte "y" = Ok cs /\ as_floats cs = Ok y_actual)
    /\ length (rows dtr) = 288%nat
    /\ length y_predicted = length (rows dte)
    /\ map fst y_predicted = labels dte
    /\ map fst y_actual = labels dte
    /\ map (date_of fc) (skipn 288 (rows fc)) = map (date_of dte) (rows dte)
    /\ trace w'
       = trace w ++ library_calls train all_data
         ++ [EvPrint train_mae train_rmse
               (mean_absolute (zip_sub (values y_predicted) (values y_actual)))
               (num_sqrt (np_mean (squared_errors (values y_actual) (values y_predicted))))].
Proof.
  destruct (final_run L w w' train test forecast fig dtr dte Htr Hte Hrun)
    as (state & dates & flags & yac & ypc & ya & yp & res & cv & rmse & fc & all_loc
        & future_loc & history & fdates & fut & H).
  cbv zeta in H.
  destruct H as (Hds & Hflags & _ & Hfc & Hheap & _ & _ & Hyac & Hya & Hypc & Hyp & Hsub
                 & Hrmse & Htrace & _).
  unfold strictly_ascending in Hsorted.
  rewrite (getitem_dates _ _ Hds) in Hsorted. apply strictly_sorted_sorted in Hsorted.
  rewrite (concat_same_columns dtr dte Hcols) in Hds, Hflags.
  (* lengths *)
  assert (Hlen_dates : length (values dates) = (length (rows dtr) + length (rows dte))%nat).
  { apply getitem_length in Hds. unfold series_map in Hds. rewrite length_map in Hds.
    rewrite values_length, Hds. cbn [rows].
    now rewrite number_rows_length, length_map, length_app. }
  assert (Hlen_flags : length (values flags) = length (values dates)).
  { rewrite Hlen_dates, values_length, (getitem_length _ _ _ Hflags). cbn [rows].
    now rewrite number_rows_length, length_map, length_app. }
  assert (Hfc_len : length (rows fc) = (length (rows dtr) + length (rows dte))%nat).
  { subst fc. cbn [rows].
    rewrite number_rows_length, forecast_cells_length, sort_by_length, length_combine.
    lia. }
  assert (Hya_labels : map fst ya = labels dte).
  { now rewrite (as_floats_Ok _ _ Hya), (getitem_labels _ _ _ Hyac). }
  assert (Hyp_labels : map fst yp = skipn 288 (labels fc)).
  { now rewrite (as_floats_Ok _ _ Hyp), (iloc_labels _ _ _ Hypc). }
  assert (Hfc_labels : labels fc
                       = map (fun i => 0 + Z.of_nat i)
                           (seq 0 (length (rows dtr) + length (rows dte)))).
  { unfold labels. rewrite <- Hfc_len. subst fc. cbn [rows].
    now rewrite number_rows_labels, number_rows_length. }
  destruct (root_mean_squared_Ok _ _ _ Hrmse) as (Hsame & Hnonzero & Hrmse_eq).
  assert (Hya_len : length ya = length (rows dte)).
  { rewrite <- (length_map fst ya), Hya_labels. unfold labels. apply length_map. }
  assert (Hyp_len : length yp = (length (rows dtr) + length (rows dte) - 288)%nat).
  { rewrite <- (length_map fst yp), Hyp_labels, length_skipn, Hfc_labels.
    now rewrite length_map, length_seq. }
  rewrite (values_length ya), (values_length yp) in Hsame.
  rewrite (values_length ya) in Hnonzero.
  assert (Htrain_len : length (rows dtr) = 288%nat) by lia.
  (* labels *)
  assert (Hyp_labels' : map fst yp = labels dte).
  { rewrite Hyp_labels, Hfc_labels, Htrain_len, skipn_map.
    rewrite seq_skipn, Hlabels, (map_seq_shift _ 288).
    apply map_ext. intros i. lia. }
  (* residuals *)
  assert (Hres : values res = zip_sub (values yp) (values ya)).
  { unfold series_sub in Hsub.
    rewrite Hyp_labels', Hya_labels, same_labels_refl in Hsub.
    injection Hsub as <-. apply zip_sub_series_values. }
  exists fc, yp, ya, all_loc, (series_mean (map fst cv)), (series_mean (map snd cv)).
  split; [exact Hheap|]. split; [eauto|]. split; [eauto|].
  split; [exact Htrain_len|]. split; [lia|]. split; [exact Hyp_labels'|].
  split; [exact Hya_labels|]. split.
  - rewrite <- skipn_map.
    assert (Hfc_dates : map (date_of fc) (rows fc) = values dates).
    { subst fc. cbn [rows].
      rewrite (forecast_cells_dates L state 0 _ ["yhat"]), sort_by_map.
      rewrite map_fst_combine by exact Hlen_flags.
      now apply sort_by_sorted. }
    rewrite Hfc_dates, <- (getitem_dates _ _ Hds). cbn [rows].
    rewrite (date_of_same_cells _ dte _ (rows dtr ++ rows dte));
      [| exact Hcols | apply number_rows_cells].
    rewrite map_app, skipn_app, length_map, Htrain_len, Nat.sub_diag.
    rewrite skipn_all2 by (rewrite length_map; lia). reflexivity.
  - now rewrite Htrace, Hres, Hrmse_eq.
Qed.

(** C4, as stated, fails: on the standard series the predictions the test
    accuracy is computed on are the 25 forecast rows from position 288 on,
    one per Test row, not the last 24 rows; and no forecasting library and
    no prices make them 24. *)
Lemma test_accuracy_uses_25_rows :
  (exists (forecast : loc) (fig : Figure) (w' : World) (fc : DataFrame)
          (y_predicted : Series Cell),
      pipeline (constant_library 2%float) flat_series initial_world
      = (Ok (forecast, fig), w')
      /\ heap w' !! forecast = Some fc
      /\ iloc_from_last_column 288 fc = Ok y_predicted
      /\ length y_predicted = 25%nat
      /\ length (rows (test_frame flat_tagged)) = 25%nat)
  /\ ~ (exists (L : ForecastLibrary) (price : nat -> float) (forecast : loc) (fig : Figure)
               (w' : World) (fc : DataFrame) (y_predicted : Series Cell),
          pipeline L (standard_series price) initial_world = (Ok (forecast, fig), w')
          /\ heap w' !! forecast = Some fc
          /\ iloc_from_last_column 288 fc = Ok y_predicted
          /\ length y_predicted = 24%nat).
Proof.
  split.
  - eexists _, _, _, _, _. split; [vm_compute; reflexivity|].
    split; [vm_compute; reflexivity|].
    split; [vm_compute; reflexivity|].
    split; vm_compute; reflexivity.
  - intros (L & price & forecast & fig & w' & fc & yp & Hrun & Hfc & Hiloc & Hcount).
    destruct (standard_forecast_dates L price forecast fig w' Hrun)
      as (fc' & fut & combined & train & all_loc & future_loc & print
          & Hfc' & Hcols & Hdates & _).
    rewrite Hfc in Hfc'. injection Hfc' as <-.
    unfold iloc_from_last_column in Hiloc. rewrite Hcols in Hiloc.
    injection Hiloc as <-.
    rewrite length_map, length_skipn, <- (length_map (date_of fc)), Hdates in Hcount.
    rewrite length_map, length_seq in Hcount. discriminate Hcount.
Qed.

Lemma test_accuracy_rows_witness :
  exists (fc : DataFrame) (y_predicted y_actual : Series float) (all_data : loc)
         (train_mae train_rmse : float),
    heap (snd (final_prophet_model (constant_library 2%float) 3%positive 4%positive
                 flat_split_world)) !! 7%positive = Some fc
    /\ (exists cs : Series Cell,
           iloc_from_last_column 288 fc = Ok cs /\ as_floats cs = Ok y_predicted)
    /\ (exists cs : Series Cell,
           getitem (test_frame flat_tagged) "y" = Ok cs /\ as_floats cs = Ok y_actual)
    /\ length (rows (train_frame flat_tagged)) = 288%nat
    /\ length y_predicted = length (rows (test_frame flat_tagged))
    /\ map fst y_predicted = labels (test_frame flat_tagged)
    /\ map fst y_actual = labels (test_frame flat_tagged)
    /\ map (date_of fc) (skipn 288 (rows fc))
       = map (date_of (test_frame flat_tagged)) (rows (test_frame flat_tagged))
    /\ trace (snd (final_prophet_model (constant_library 2%float) 3%positive 4%positive
                     flat_split_world))
       = trace flat_split_world ++ library_calls 3%positive all_data
         ++ [EvPrint train_mae train_rmse
               (mean_absolute (zip_sub (values y_predicted) (values y_actual)))
               (num_sqrt (np_mean (squared_errors (values y_actual) (values y_predicted))))].
Proof.
  apply (test_accuracy_rows (constant_library 2%float) flat_split_world _
           3%positive 4%positive 7%positive (FigureOf 7%positive)
           (train_frame flat_tagged) (test_frame flat_tagged)).
  - vm_compute. reflexivity.
  - vm_compute. reflexivity.
  - reflexivity.
  - apply dates_increasing_sound. vm_compute. reflexivity.
  - vm_compute. reflexivity.
  - vm_compute. reflexivity.
Defined.

(* ===================================================================== *)
(** ** Mean absolute error and root mean squared error *)
(* ===================================================================== *)

Section ExactMetrics.

Local Open Scope R_scope.










End ExactMetrics.

(** On two series with the same index the script's subtraction pairs the
    values in order and keeps the index. *)
Lemma same_labels_sub (a b : Series float) (residuals : Series float) :
  map fst a = map fst b ->
  series_sub a b = Ok residuals ->
  values residuals = zip_sub (values a) (values b).
Proof.
  intros Hlabels. unfold series_sub.
  rewrite Hlabels, same_labels_refl. intros [= <-]. apply zip_sub_series_values.
Qed.



Section ExactAccuracy.

Local Open Scope R_scope.







End ExactAccuracy.


(* ===================================================================== *)
(** * Further properties of the script *)
(* ===================================================================== *)

(* ===================================================================== *)
(** ** The schema of Train and Test *)
(* ===================================================================== *)

Lemma rename_columns_idempotent (c : string) :
  rename_columns (rename_columns c) = rename_columns c.
Proof.
  unfold rename_columns.
  destruct (String.eqb_spec c "gas_price") as [->|H1]; [reflexivity|].
  destruct (String.eqb_spec c "month_and_year") as [->|H2]; [reflexivity|].
  apply String.eqb_neq in H1, H2. now rewrite H1, H2.
Qed.

(** Renaming neither makes nor removes a [great_recession] column. *)
Lemma rename_columns_tag (c : string) :
  String.eqb "great_recession" (rename_columns c) = String.eqb "great_recession" c.
Proof.
  unfold rename_columns.
  destruct (String.eqb_spec c "gas_price") as [->|H1]; [reflexivity|].
  destruct (String.eqb_spec c "month_and_year") as [->|H2]; reflexivity.
Qed.

Lemma column_count_renamed_tag (cols : list string) :
  column_count "great_recession" (map rename_columns cols)
  = column_count "great_recession" cols.
Proof.
  unfold column_count. induction cols as [|c cols IH]; [reflexivity|].
  cbn [map List.filter]. rewrite rename_columns_tag.
  destruct (String.eqb "great_recession" c); cbn [length]; now rewrite IH.
Qed.

Lemma assign_cell_length (n : string) (v : Cell) (cols : list string) (cs : list Cell) :
  length (assign_cell n v cols cs) = length cs.
Proof.
  revert cs. induction cols as [|c cols IH]; intros [|x cs]; simpl; try reflexivity.
  now rewrite IH.
Qed.

(** Writing a column keeps the rows rectangular. *)
Lemma assign_rows_well_formed (n : string) (cols : list string) (b : bool)
  (rs : list Row) (vs : list Cell) :
  Forall (fun r => length (cells r) = length cols) rs ->
  Forall (fun r => length (cells r) = length (if b then cols ++ [n] else cols))
         (assign_rows n cols b rs vs).
Proof.
  intros Hall. revert vs.
  induction Hall as [|r rs Hr _ IH]; intros vs; simpl; constructor; [|apply IH].
  cbn [cells]. destruct b.
  - rewrite !length_app, Hr. reflexivity.
  - now rewrite assign_cell_length.
Qed.

Lemma tagged_well_formed (df tg : DataFrame) :
  well_formed df -> tagged_frame df = Ok tg -> well_formed tg.
Proof.
  intros Hwf Htg.
  destruct (tagged_frame_Ok _ _ Htg) as (dates & _ & _ & _ & ->).
  unfold well_formed, setitem, has_column. cbn [rename columns rows].
  rewrite negb_involutive.
  apply assign_rows_well_formed. unfold well_formed in Hwf. now rewrite length_map.
Qed.

Lemma filter_well_formed (cols : list string) (f : Row -> bool) (rs : list Row) :
  Forall (fun r => length (cells r) = length cols) rs ->
  Forall (fun r => length (cells r) = length cols) (List.filter f rs).
Proof.
  rewrite !List.Forall_forall. intros H r Hr. apply List.filter_In in Hr as [Hr _]. auto.
Qed.

(** X1.  Train and Test have the same columns: the columns of the input
    with [gas_price] renamed to [y] and [month_and_year] to [ds], every other
    name untouched, and [great_recession] appended on the right unless the
    input already has a column of that name.  They have exactly one [ds]
    column, and their rows have one cell per column whenever the rows of the
    input do. *)
Theorem partition_schema
  (w w' : World) (p train test : loc) (df : DataFrame)
  (Hp : heap w !! p = Some df)
  (Hwf : well_formed df)
  (Hrun : rename_and_train_test_split p w = (Ok (train, test), w')) :
  exists tr te : DataFrame,
    heap w' !! train = Some tr
    /\ heap w' !! test = Some te
    /\ columns tr = (if has_column "great_recession" df
                     then map rename_columns (columns df)
                     else map rename_columns (columns df) ++ ["great_recession"])
    /\ columns te = columns tr
    /\ column_count "ds" (columns tr) = 1%nat
    /\ has_column "great_recession" tr = true
    /\ well_formed tr
    /\ well_formed te.
Proof.
  destruct (split_Ok _ _ _ _ _ _ Hp Hrun) as (tg & Htg & Htr & Hte & _).
  pose proof (tagged_well_formed _ _ Hwf Htg) as Hwf'.
  destruct (tagged_frame_Ok _ _ Htg) as (dates & Hcount & Hcells & Hl & Hset).
  pose proof (tagged_columns df tg dates Hset) as Hcols.
  rewrite column_count_renamed_tag in Hcols.
  exists (train_frame tg), (test_frame tg).
  split; [exact Htr|]. split; [exact Hte|]. cbn [train_frame test_frame columns].
  split.
  { rewrite Hcols. unfold has_column.
    now destruct (Nat.eqb (column_count "great_recession" (columns df)) 0). }
  split; [reflexivity|].
  split; [exact (tagged_ds_count df tg dates Hcount Hset)|].
  split.
  { unfold has_column. change (columns (train_frame tg)) with (columns tg). rewrite Hcols.
    destruct (Nat.eqb_spec (column_count "great_recession" (columns df)) 0) as [H0|H0].
    - rewrite column_count_app, column_count_renamed_tag, H0. reflexivity.
    - rewrite column_count_renamed_tag. now apply Nat.eqb_neq in H0 as ->. }
  split; apply filter_well_formed; exact Hwf'.
Qed.

Lemma partition_schema_witness :
  exists tr te : DataFrame,
    heap (snd (rename_and_train_test_split 1%positive (world_with pretagged_frame)))
      !! 3%positive = Some tr
    /\ heap (snd (rename_and_train_test_split 1%positive (world_with pretagged_frame)))
         !! 4%positive = Some te
    /\ columns tr = (if has_column "great_recession" pretagged_frame
                     then map rename_columns (columns pretagged_frame)
                     else map rename_columns (columns pretagged_frame) ++ ["great_recession"])
    /\ columns te = columns tr
    /\ column_count "ds" (columns tr) = 1%nat
    /\ has_column "great_recession" tr = true
    /\ well_formed tr
    /\ well_formed te.
Proof.
  apply (partition_schema (world_with pretagged_frame) _ 1%positive 3%positive 4%positive
           pretagged_frame).
  - reflexivity.
  - repeat constructor.
  - vm_compute. reflexivity.
Defined.

(* ===================================================================== *)
(** ** The recession lies in the training range *)
(* ===================================================================== *)

Lemma recession_before_start (d : Timestamp) :
  is_great_recession d = 1 -> ts_lt d start_date = true.
Proof.
  unfold is_great_recession. cbv zeta.
  destruct (ts_le recession_start d && ts_le d recession_end) eqn:Hin; [|discriminate].
  intros _. apply andb_true_iff in Hin as [_ Hend].
  rewrite start_date_ns.
  destruct d as [|x]; [discriminate|].
  change recession_end with (Ts 1243814400000000000) in Hend.
  cbn [ts_le ts_lt] in *. apply Z.leb_le in Hend. apply Z.ltb_lt. lia.
Qed.

(** X2.  The recession interval ends before the test range starts: a date
    tagged 1 is before 2016-01-01.  Hence every row of Test carries the tag
    0, and a row of Train carries the tag 1 exactly when its date is from
    2007-12-01 to 2009-06-01. *)
Theorem recession_rows_are_training_rows
  (w w' : World) (p train test : loc) (df : DataFrame)
  (Hp : heap w !! p = Some df)
  (Hwf : well_formed df)
  (Hrun : rename_and_train_test_split p w = (Ok (train, test), w')) :
  (forall d : Timestamp, is_great_recession d = 1 -> ts_lt d start_date = true)
  /\ exists tr te : DataFrame,
      heap w' !! train = Some tr
      /\ heap w' !! test = Some te
      /\ (forall r : Row, In r (rows te) -> flag_of te r = Some (CInt 0))
      /\ (forall r : Row,
             In r (rows tr) ->
             flag_of tr r = Some (CInt 1)
             <-> ts_le (datetime 2007 12 1) (date_of tr r) = true
                 /\ ts_le (date_of tr r) (datetime 2009 6 1) = true).
Proof.
  split; [exact recession_before_start|].
  destruct (split_Ok _ _ _ _ _ _ Hp Hrun) as (tg & Htg & Htr & Hte & _).
  pose proof (tagged_flag_of_date df tg Hwf Htg) as Hflag.
  exists (train_frame tg), (test_frame tg).
  split; [exact Htr|]. split; [exact Hte|]. split.
  - intros r Hin. cbn [test_frame rows] in Hin.
    apply List.filter_In in Hin as [Hin Htest].
    change (flag_of (test_frame tg) r) with (flag_of tg r).
    rewrite (Hflag r Hin). do 2 f_equal.
    destruct (Z.eq_dec (is_great_recession (date_of tg r)) 1) as [H1|H1].
    + apply recession_before_start in H1.
      unfold in_test in Htest. now rewrite (train_not_test _ H1) in Htest.
    + unfold is_great_recession in *. cbv zeta in *.
      now destruct (ts_le recession_start (date_of tg r)
                    && ts_le (date_of tg r) recession_end).
  - intros r Hin. cbn [train_frame rows] in Hin.
    apply List.filter_In in Hin as [Hin _].
    change (flag_of (train_frame tg) r) with (flag_of tg r).
    change (date_of (train_frame tg) r) with (date_of tg r).
    rewrite (Hflag r Hin). unfold is_great_recession. cbv zeta.
    change recession_start with (datetime 2007 12 1).
    change recession_end with (datetime 2009 6 1).
    destruct (ts_le (datetime 2007 12 1) (date_of tg r)) eqn:H1,
             (ts_le (date_of tg r) (datetime 2009 6 1)) eqn:H2; cbn [andb];
      split; try (intros [= ?]); try (intros [? ?]); try discriminate; auto.
Qed.

Lemma recession_rows_are_training_rows_witness :
  (forall d : Timestamp, is_great_recession d = 1 -> ts_lt d start_date = true)
  /\ exists tr te : DataFrame,
      heap (snd (rename_and_train_test_split 1%positive (world_with sample_frame)))
        !! 3%positive = Some tr
      /\ heap (snd (rename_and_train_test_split 1%positive (world_with sample_frame)))
           !! 4%positive = Some te
      /\ (forall r : Row, In r (rows te) -> flag_of te r = Some (CInt 0))
      /\ (forall r : Row,
             In r (rows tr) ->
             flag_of tr r = Some (CInt 1)
             <-> ts_le (datetime 2007 12 1) (date_of tr r) = true
                 /\ ts_le (date_of tr r) (datetime 2009 6 1) = true).
Proof.
  apply (recession_rows_are_training_rows (world_with sample_frame) _ 1%positive 3%positive
           4%positive sample_frame).
  - reflexivity.
  - repeat constructor.
  - vm_compute. reflexivity.
Defined.

(* ===================================================================== *)
(** ** Partitioning again *)
(* ===================================================================== *)

Lemma map_rename_idempotent (cols : list string) :
  map rename_columns (map rename_columns cols) = map rename_columns cols.
Proof.
  rewrite map_map. apply map_ext. intros c. apply rename_columns_idempotent.
Qed.

(** A cell already holding the value is left as it is. *)
Lemma assign_cell_fresh (n : string) (v : Cell) (cols : list string) (cs : list Cell) :
  length cs = length cols ->
  column_count n cols = 0%nat ->
  assign_cell n v (cols ++ [n]) (cs ++ [v]) = cs ++ [v].
Proof.
  revert cs.
  induction cols as [|c cols IH]; intros [|x cs]; simpl; try discriminate.
  - intros _ _. now rewrite String.eqb_refl.
  - intros Hlen Hc. unfold column_count in Hc. simpl in Hc.
    rewrite String.eqb_sym in Hc.
    destruct (String.eqb c n); [discriminate|].
    f_equal. apply IH; [lia | exact Hc].
Qed.

Lemma assign_cell_idempotent (n : string) (v : Cell) (cols : list string) (cs : list Cell) :
  assign_cell n v cols (assign_cell n v cols cs) = assign_cell n v cols cs.
Proof.
  revert cs. induction cols as [|c cols IH]; intros [|x cs]; simpl; try reflexivity.
  rewrite IH. now destruct (String.eqb c n).
Qed.

(** After a column was written, writing the same values again changes no
    row. *)
Lemma assign_rows_settled (n : string) (cols : list string) (rs : list Row) (vs : list Cell) :
  Forall (fun r => length (cells r) = length cols) rs ->
  length vs = length rs ->
  let b := Nat.eqb (column_count n cols) 0 in
  Forall2 (fun r v => assign_cell n v (if b then cols ++ [n] else cols) (cells r) = cells r)
          (assign_rows n cols b rs vs) vs.
Proof.
  intros Hall. revert vs.
  induction Hall as [|r rs Hr _ IH]; intros [|v vs]; simpl; try discriminate; [constructor|].
  intros Hlen. injection Hlen as Hlen.
  constructor; [|apply IH; exact Hlen].
  cbn [cells].
  destruct (Nat.eqb_spec (column_count n cols) 0) as [Hc|Hc].
  - now apply assign_cell_fresh.
  - apply assign_cell_idempotent.
Qed.

Lemma Forall2_map_r {A B : Type} (P : A -> B -> Prop) (f : A -> B) (l : list A) :
  Forall2 P l (map f l) -> Forall (fun a => P a (f a)) l.
Proof.
  induction l as [|a l IH]; simpl; intros H; [constructor|].
  apply Forall2_cons_1 in H as [Ha H]. constructor; auto.
Qed.

(** In the tagged frame of a rectangular input, writing a row's own tag
    into it changes nothing. *)
Lemma tagged_rows_settled (df tg : DataFrame) :
  well_formed df ->
  tagged_frame df = Ok tg ->
  Forall (fun r =>
            assign_cell "great_recession" (CInt (is_great_recession (date_of tg r)))
              (columns tg) (cells r) = cells r)
         (rows tg).
Proof.
  intros Hwf Htg.
  destruct (tagged_frame_Ok _ _ Htg) as (dates & Hcount & Hcells & Hl & Hset).
  pose proof (tagged_dates df tg dates Hcells Hset) as Hdates.
  pose proof (tagged_columns df tg dates Hset) as Hcols.
  apply (Forall2_map_r
           (fun r v => assign_cell "great_recession" v (columns tg) (cells r) = cells r)
           (fun r => CInt (is_great_recession (date_of tg r)))).
  rewrite <- (map_map (date_of tg) (fun d => CInt (is_great_recession d))), Hdates.
  rewrite Hcols. rewrite Hset at 1. unfold setitem, has_column.
  cbn [rename columns rows]. rewrite negb_involutive, values_series_map.
  apply assign_rows_settled.
  - unfold well_formed in Hwf. now rewrite length_map.
  - rewrite length_map. unfold values. rewrite length_map.
    rewrite <- (length_map fst dates), Hl. unfold labels. now rewrite length_map.
Qed.

Lemma assign_rows_unchanged (n : string) (cols : list string) (f : Row -> Cell)
  (rs : list Row) :
  Forall (fun r => assign_cell n (f r) cols (cells r) = cells r) rs ->
  assign_rows n cols false rs (map f rs) = rs.
Proof.
  induction 1 as [|[l cs] rs Hr _ IH]; [reflexivity|].
  cbn [assign_rows map tl label cells] in *. now rewrite Hr, IH.
Qed.

Lemma tagged_ds_lookup (df tg : DataFrame) :
  tagged_frame df = Ok tg ->
  Forall (fun r => lookup_cell "ds" (columns tg) (cells r) = Some (CTime (date_of tg r)))
         (rows tg).
Proof.
  intros Htg.
  destruct (tagged_frame_Ok _ _ Htg) as (dates & Hcount & Hcells & Hl & Hset).
  pose proof (tagged_ds_cells df tg dates Hcells Hset) as Hds.
  unfold date_of. revert Hds. generalize (values dates). generalize (rows tg).
  induction l as [|r rs IH]; intros [|d ds]; simpl; try discriminate; [constructor|].
  intros [= Hr Hrest]. constructor; [now rewrite Hr | now apply (IH ds)].
Qed.

(** A frame cut out of a tagged frame is its own tagged frame: renaming
    changes no column name, the date column is read as it is, and the tag
    column is overwritten with the values it holds. *)
Lemma tagged_frame_fixed (df tg : DataFrame) (f : Row -> bool) :
  well_formed df ->
  tagged_frame df = Ok tg ->
  let cut := mkDataFrame (columns tg) (List.filter f (rows tg)) in
  tagged_frame cut = Ok cut.
Proof.
  intros Hwf Htg cut.
  destruct (tagged_frame_Ok _ _ Htg) as (dates & Hcount & Hcells & Hl & Hset).
  pose proof (tagged_columns df tg dates Hset) as Hcols.
  pose proof (tagged_ds_count df tg dates Hcount Hset) as Hds_count.
  assert (Hrenamed : map rename_columns (columns tg) = columns tg).
  { rewrite Hcols. destruct (Nat.eqb _ 0).
    - rewrite map_app, map_rename_idempotent. reflexivity.
    - apply map_rename_idempotent. }
  assert (Htag_count : Nat.eqb (column_count "great_recession" (columns tg)) 0 = false).
  { rewrite Hcols.
    destruct (Nat.eqb_spec (column_count "great_recession" (map rename_columns (columns df))) 0)
      as [H0|H0].
    - rewrite column_count_app, H0. reflexivity.
    - now apply Nat.eqb_neq. }
  assert (Hlookup : Forall (fun r => lookup_cell "ds" (columns tg) (cells r)
                                     = Some (CTime (date_of tg r)))
                           (List.filter f (rows tg))).
  { pose proof (tagged_ds_lookup df tg Htg) as H. rewrite List.Forall_forall in *.
    intros r Hr. apply List.filter_In in Hr as [Hr _]. auto. }
  assert (Hsettled : Forall (fun r =>
                               assign_cell "great_recession"
                                 (CInt (is_great_recession (date_of tg r)))
                                 (columns tg) (cells r) = cells r)
                            (List.filter f (rows tg))).
  { pose proof (tagged_rows_settled df tg Hwf Htg) as H. rewrite List.Forall_forall in *.
    intros r Hr. apply List.filter_In in Hr as [Hr _]. auto. }
  unfold tagged_frame. cbv zeta.
  assert (Hcut : rename rename_columns cut = cut).
  { unfold rename, cut. cbn [columns rows]. now rewrite Hrenamed. }
  rewrite Hcut. unfold getitem. cbn [cut columns rows]. rewrite Hds_count.
  assert (Hseries :
            map (fun r => (label r, default missing (lookup_cell "ds" (columns tg) (cells r))))
                (List.filter f (rows tg))
            = series_map CTime (map (fun r => (label r, date_of tg r))
                                    (List.filter f (rows tg)))).
  { unfold series_map. rewrite map_map.
    revert Hlookup. generalize (List.filter f (rows tg)).
    induction 1 as [|r rs Hr _ IH]; [reflexivity|].
    cbn [map]. now rewrite Hr, IH. }
  rewrite Hseries, as_dates_series_map. f_equal.
  unfold setitem, has_column, cut. cbn [columns rows].
  rewrite Htag_count. cbn [negb].
  rewrite values_series_map. unfold values. rewrite !map_map. cbn [snd].
  rewrite (assign_rows_unchanged "great_recession" (columns tg)
             (fun r => CInt (is_great_recession (date_of tg r)))) by exact Hsettled.
  reflexivity.
Qed.

Lemma filter_filter_same {A : Type} (f : A -> bool) (l : list A) :
  List.filter f (List.filter f l) = List.filter f l.
Proof.
  induction l as [|a l IH]; [reflexivity|].
  cbn [List.filter]. destruct (f a) eqn:Ha; [|exact IH].
  cbn [List.filter]. now rewrite Ha, IH.
Qed.

Lemma filter_filter_none {A : Type} (f g : A -> bool) (l : list A) :
  (forall a : A, g a = true -> f a = false) ->
  List.filter f (List.filter g l) = [].
Proof.
  intros Hfg. induction l as [|a l IH]; [reflexivity|].
  cbn [List.filter]. destruct (g a) eqn:Ha; [|exact IH].
  cbn [List.filter]. now rewrite (Hfg a Ha).
Qed.

(** X3.  Partitioning is settled after one pass.  Running the partitioner
    on the Train frame it returned succeeds and gives that Train again, with
    an empty Test of the same columns; running it on the Test frame gives an
    empty Train and that Test again. *)
Theorem partition_of_parts
  (w w' : World) (p train test : loc) (df : DataFrame)
  (Hp : heap w !! p = Some df)
  (Hwf : well_formed df)
  (Hrun : rename_and_train_test_split p w = (Ok (train, test), w')) :
  exists tr te : DataFrame,
    heap w' !! train = Some tr
    /\ heap w' !! test = Some te
    /\ (exists (train2 test2 : loc) (w2 : World),
           rename_and_train_test_split train w' = (Ok (train2, test2), w2)
           /\ heap w2 !! train2 = Some tr
           /\ heap w2 !! test2 = Some (mkDataFrame (columns tr) []))
    /\ (exists (train3 test3 : loc) (w3 : World),
           rename_and_train_test_split test w' = (Ok (train3, test3), w3)
           /\ heap w3 !! train3 = Some (mkDataFrame (columns te) [])
           /\ heap w3 !! test3 = Some te).
Proof.
  destruct (split_Ok _ _ _ _ _ _ Hp Hrun) as (tg & Htg & Htr & Hte & _).
  exists (train_frame tg), (test_frame tg).
  split; [exact Htr|]. split; [exact Hte|]. split.
  - destruct (rename_and_train_test_split train w') as [[[train2 test2]|e] w2] eqn:Hrun2.
    + destruct (split_Ok _ _ _ _ _ _ Htr Hrun2) as (tg2 & Htg2 & Htr2 & Hte2 & _).
      unfold train_frame at 1 in Htg2.
      rewrite (tagged_frame_fixed df tg (in_train tg) Hwf Htg) in Htg2.
      injection Htg2 as <-.
      exists train2, test2, w2. split; [reflexivity|].
      rewrite Htr2, Hte2. unfold train_frame, test_frame. cbn [columns rows].
      change (in_train (mkDataFrame (columns tg) (List.filter (in_train tg) (rows tg))))
        with (in_train tg).
      change (in_test (mkDataFrame (columns tg) (List.filter (in_train tg) (rows tg))))
        with (in_test tg).
      rewrite filter_filter_same, filter_filter_none; [split; reflexivity|].
      intros r Hr. unfold in_train in Hr. unfold in_test. now apply train_not_test.
    + rewrite (split_run w' train _ Htr) in Hrun2. cbv zeta in Hrun2.
      unfold train_frame at 1 in Hrun2.
      rewrite (tagged_frame_fixed df tg (in_train tg) Hwf Htg) in Hrun2. discriminate.
  - destruct (rename_and_train_test_split test w') as [[[train3 test3]|e] w3] eqn:Hrun3.
    + destruct (split_Ok _ _ _ _ _ _ Hte Hrun3) as (tg3 & Htg3 & Htr3 & Hte3 & _).
      unfold test_frame at 1 in Htg3.
      rewrite (tagged_frame_fixed df tg (in_test tg) Hwf Htg) in Htg3.
      injection Htg3 as <-.
      exists train3, test3, w3. split; [reflexivity|].
      rewrite Htr3, Hte3. unfold train_frame, test_frame. cbn [columns rows].
      change (in_train (mkDataFrame (columns tg) (List.filter (in_test tg) (rows tg))))
        with (in_train tg).
      change (in_test (mkDataFrame (columns tg) (List.filter (in_test tg) (rows tg))))
        with (in_test tg).
      rewrite filter_filter_same, filter_filter_none; [split; reflexivity|].
      intros r Hr. unfold in_test in Hr. unfold in_train. now apply test_not_train.
    + rewrite (split_run w' test _ Hte) in Hrun3. cbv zeta in Hrun3.
      unfold test_frame at 1 in Hrun3.
      rewrite (tagged_frame_fixed df tg (in_test tg) Hwf Htg) in Hrun3. discriminate.
Qed.

Lemma partition_of_parts_witness :
  exists tr te : DataFrame,
    heap (snd (rename_and_train_test_split 1%positive (world_with sample_frame)))
      !! 3%positive = Some tr
    /\ heap (snd (rename_and_train_test_split 1%positive (world_with sample_frame)))
         !! 4%positive = Some te
    /\ (exists (train2 test2 : loc) (w2 : World),
           rename_and_train_test_split 3%positive
             (snd (rename_and_train_test_split 1%positive (world_with sample_frame)))
           = (Ok (train2, test2), w2)
           /\ heap w2 !! train2 = Some tr
           /\ heap w2 !! test2 = Some (mkDataFrame (columns tr) []))
    /\ (exists (train3 test3 : loc) (w3 : World),
           rename_and_train_test_split 4%positive
             (snd (rename_and_train_test_split 1%positive (world_with sample_frame)))
           = (Ok (train3, test3), w3)
           /\ heap w3 !! train3 = Some (mkDataFrame (columns te) [])
           /\ heap w3 !! test3 = Some te).
Proof.
  apply (partition_of_parts (world_with sample_frame) _ 1%positive 3%positive 4%positive
           sample_frame).
  - reflexivity.
  - repeat constructor.
  - vm_compute. reflexivity.
Defined.

(* ===================================================================== *)
(** ** The cut of a date-ordered, range-indexed frame *)
(* ===================================================================== *)

(** In a date-sorted list the rows before the test range are a prefix. *)
Lemma train_is_prefix (g : Row -> Timestamp) (l : list Row) :
  StronglySorted (fun a b => ts_le a b = true) (map g l) ->
  List.filter (fun r => ts_lt (g r) start_date) l
  = firstn (length (List.filter (fun r => ts_lt (g r) start_date) l)) l.
Proof.
  induction l as [|a l IH]; intros Hs; [reflexivity|].
  cbn [map] in Hs. apply StronglySorted_inv in Hs as [Hs Hall].
  cbn [List.filter]. destruct (ts_lt (g a) start_date) eqn:Hlt.
  - cbn [length firstn]. f_equal. now apply IH.
  - rewrite (no_train_after g (g a) l Hlt Hall). reflexivity.
Qed.

(** Once a row is neither before the test range nor in it, no later row is
    in it. *)
Lemma no_test_after (g : Row -> Timestamp) (d : Timestamp) (l : list Row) :
  ts_lt d start_date = false ->
  ts_ge d start_date && ts_le d last_date = false ->
  Forall (fun x => ts_le d x = true) (map g l) ->
  List.filter (fun r => ts_ge (g r) start_date && ts_le (g r) last_date) l = [].
Proof.
  intros Hlt Htest. induction l as [|a l IH]; intros Hall; [reflexivity|].
  cbn [List.filter map] in *.
  apply Forall_cons in Hall as [Ha Hall].
  rewrite IH by exact Hall.
  replace (ts_ge (g a) start_date && ts_le (g a) last_date) with false; [reflexivity|].
  symmetry. unfold ts_ge in *. rewrite start_date_ns, last_date_ns in *.
  destruct d as [|x], (g a) as [|y]; cbn [ts_le ts_lt] in *; try discriminate.
  apply Z.ltb_ge in Hlt. apply Z.leb_le in Ha.
  apply andb_false_iff in Htest as [Htest|Htest]; apply Z.leb_gt in Htest; lia.
Qed.

(** The rows in the test range follow the rows before it. *)
Lemma test_is_next (g : Row -> Timestamp) (l : list Row) :
  StronglySorted (fun a b => ts_le a b = true) (map g l) ->
  let test := List.filter (fun r => ts_ge (g r) start_date && ts_le (g r) last_date) l in
  test
  = firstn (length test)
      (skipn (length (List.filter (fun r => ts_lt (g r) start_date) l)) l).
Proof.
  induction l as [|a l IH]; intros Hs; [reflexivity|].
  cbn [map] in Hs. apply StronglySorted_inv in Hs as [Hs Hall].
  specialize (IH Hs). cbv zeta in *.
  cbn [List.filter]. destruct (ts_lt (g a) start_date) eqn:Hlt.
  - rewrite (train_not_test _ Hlt). cbn [length skipn]. exact IH.
  - rewrite (no_train_after g (g a) l Hlt Hall) in *. cbn [length skipn] in *.
    destruct (ts_ge (g a) start_date && ts_le (g a) last_date) eqn:Htest.
    + cbn [length firstn]. f_equal. exact IH.
    + rewrite (no_test_after g (g a) l Hlt Htest Hall). reflexivity.
Qed.

Lemma firstn_seq (k n : nat) : (k <= n)%nat -> firstn k (seq 0 n) = seq 0 k.
Proof.
  intros Hk. replace n with (k + (n - k))%nat by lia.
  rewrite seq_app, firstn_app, length_seq, Nat.sub_diag, firstn_O, app_nil_r.
  apply firstn_all2. rewrite length_seq. lia.
Qed.

Lemma firstn_skipn_seq (k m n : nat) :
  (k + m <= n)%nat -> firstn m (skipn k (seq 0 n)) = seq k m.
Proof.
  intros Hk. replace n with (k + (n - k))%nat by lia.
  rewrite seq_skipn. replace (n - k)%nat with (m + (n - k - m))%nat by lia.
  rewrite seq_app, firstn_app, length_seq, Nat.sub_diag, firstn_O, app_nil_r.
  apply firstn_all2. rewrite length_seq. lia.
Qed.

Lemma filter_length_le {A : Type} (f : A -> bool) (l : list A) :
  (length (List.filter f l) <= length l)%nat.
Proof.
  induction l as [|a l IH]; [reflexivity|].
  cbn [List.filter]. destruct (f a); cbn [length]; lia.
Qed.

(** The cut of a tagged frame whose input is indexed 0, 1, 2, ... and in
    ascending date order. *)
Lemma cut_in_place (df tg : DataFrame) :
  range_indexed df ->
  ascending (rename rename_columns df) ->
  tagged_frame df = Ok tg ->
  let tr := train_frame tg in
  let te := test_frame tg in
  rows tr = firstn (length (rows tr)) (rows tg)
  /\ rows te = firstn (length (rows te)) (skipn (length (rows tr)) (rows tg))
  /\ labels tr = map Z.of_nat (seq 0 (length (rows tr)))
  /\ labels te
     = map (fun i => Z.of_nat (length (rows tr)) + Z.of_nat i) (seq 0 (length (rows te))).
Proof.
  intros Hrange Hsorted Htg. cbv zeta.
  assert (Hasc : StronglySorted (fun a b => ts_le a b = true) (map (date_of tg) (rows tg))).
  { unfold ascending in Hsorted. now rewrite (tagged_dates_input df tg Htg). }
  destruct (tagged_frame_Ok _ _ Htg) as (dates & Hcount & Hcells & Hl & Hset).
  pose proof (tagged_labels df tg dates Hset) as Hlabels.
  pose proof (tagged_length df tg dates Hset) as Hlength.
  unfold range_indexed in Hrange. rewrite <- Hlabels, <- Hlength in Hrange.
  pose (k := length (List.filter (in_train tg) (rows tg))).
  pose (m := length (List.filter (in_test tg) (rows tg))).
  assert (Hprefix : List.filter (in_train tg) (rows tg) = firstn k (rows tg))
    by (apply (train_is_prefix (date_of tg)); exact Hasc).
  assert (Hnext : List.filter (in_test tg) (rows tg) = firstn m (skipn k (rows tg)))
    by (apply (test_is_next (date_of tg)); exact Hasc).
  assert (Hboth : (k + m <= length (rows tg))%nat).
  { unfold k, m, in_train, in_test.
    rewrite <- length_app, (sorted_cut (date_of tg) (rows tg) Hasc).
    apply filter_length_le. }
  cbn [train_frame test_frame rows]. unfold labels. cbn [rows]. fold k m.
  split; [exact Hprefix|]. split; [exact Hnext|]. split.
  - change (rows (train_frame tg)) with (List.filter (in_train tg) (rows tg)).
    rewrite Hprefix, <- firstn_map. fold (labels tg).
    rewrite Hrange, firstn_map, firstn_seq; [reflexivity | lia].
  - change (rows (test_frame tg)) with (List.filter (in_test tg) (rows tg)).
    rewrite Hnext, <- firstn_map, <- skipn_map. fold (labels tg).
    rewrite Hrange, skipn_map, firstn_map, firstn_skipn_seq by lia.
    rewrite (map_seq_shift Z.of_nat). apply map_ext. intros i. lia.
Qed.

(** X4.  On a frame indexed 0, 1, 2, ... whose rows are in ascending date
    order, the partitioner cuts in place: Train is the first rows of the
    tagged frame and Test the rows that follow them, so Train is indexed
    0, 1, ... and the index of Test starts at the number of Train rows. *)
Theorem partition_cuts_in_place
  (w w' : World) (p train test : loc) (df : DataFrame)
  (Hp : heap w !! p = Some df)
  (Hrange : range_indexed df)
  (Hsorted : ascending (rename rename_columns df))
  (Hrun : rename_and_train_test_split p w = (Ok (train, test), w')) :
  exists tg tr te : DataFrame,
    tagged_frame df = Ok tg
    /\ heap w' !! train = Some tr
    /\ heap w' !! test = Some te
    /\ rows tr = firstn (length (rows tr)) (rows tg)
    /\ rows te = firstn (length (rows te)) (skipn (length (rows tr)) (rows tg))
    /\ labels tr = map Z.of_nat (seq 0 (length (rows tr)))
    /\ labels te
       = map (fun i => Z.of_nat (length (rows tr)) + Z.of_nat i) (seq 0 (length (rows te))).
Proof.
  destruct (split_Ok _ _ _ _ _ _ Hp Hrun) as (tg & Htg & Htr & Hte & _).
  exists tg, (train_frame tg), (test_frame tg).
  split; [exact Htg|]. split; [exact Htr|]. split; [exact Hte|].
  exact (cut_in_place df tg Hrange Hsorted Htg).
Qed.

Lemma partition_cuts_in_place_witness :
  exists tg tr te : DataFrame,
    tagged_frame short_series = Ok tg
    /\ heap (snd (rename_and_train_test_split 1%positive (world_with short_series)))
         !! 3%positive = Some tr
    /\ heap (snd (rename_and_train_test_split 1%positive (world_with short_series)))
         !! 4%positive = Some te
    /\ rows tr = firstn (length (rows tr)) (rows tg)
    /\ rows te = firstn (length (rows te)) (skipn (length (rows tr)) (rows tg))
    /\ labels tr = map Z.of_nat (seq 0 (length (rows tr)))
    /\ labels te
       = map (fun i => Z.of_nat (length (rows tr)) + Z.of_nat i) (seq 0 (length (rows te))).
Proof.
  apply (partition_cuts_in_place (world_with short_series) _ 1%positive 3%positive 4%positive
           short_series).
  - reflexivity.
  - reflexivity.
  - unfold ascending. vm_compute. repeat constructor.
  - vm_compute. reflexivity.
Defined.

(* ===================================================================== *)
(** ** Every run of the orchestrator *)
(* ===================================================================== *)

Lemma bind_read_frame_None {B : Type} (p : loc) (k : DataFrame -> Py B) (w : World) :
  heap w !! p = None ->
  bind (read_frame p) k w = (Raise BadRef, w).
Proof. intros Hp. unfold bind, read_frame. now rewrite Hp. Qed.

(** A fallible pure step: the run went on, or it ended there. *)
Ltac py_fork_in H :=
  match type of H with
  | bind (lift ?X) _ _ = _ =>
      let E := fresh "Estep" in
      destruct X eqn:E; [ rewrite bind_lift_Ok in H | rewrite bind_lift_Raise in H ]
  | bind (if ?c then lift (Raise _) else _) _ _ = _ =>
      let E := fresh "Estep" in
      destruct c eqn:E; [ rewrite bind_lift_Raise in H | ]
  end.

Ltac py_all_in H := repeat first [ py_step_in H | py_fork_in H ].

(** The frames of the world a run started in are kept by the insertions at
    fresh locations the run made. *)
Ltac frames_kept_tac :=
  let q := fresh "q" in
  let d := fresh "d" in
  let Hq := fresh "Hq" in
  intros q d Hq; cbn [heap]; heap_simpl; exact Hq.

Ltac trace_prefix_tac k :=
  exists k; cbn [heap trace]; unfold library_calls; cbn [firstn];
  rewrite <- ?app_assoc; cbn [app]; rewrite ?app_nil_r; reflexivity.

Ltac trace_tac :=
  first [ trace_prefix_tac 0%nat | trace_prefix_tac 1%nat | trace_prefix_tac 2%nat
        | trace_prefix_tac 3%nat | trace_prefix_tac 4%nat | trace_prefix_tac 5%nat
        | trace_prefix_tac 6%nat | trace_prefix_tac 7%nat | trace_prefix_tac 8%nat
        | trace_prefix_tac 9%nat ].

(** What every run of the orchestrator does, whether it returns or raises:
    it keeps the frames it found, and its calls to the library are made in
    the order of [library_calls], the print coming last and only when the run
    returns. *)
Lemma final_outcome (L : ForecastLibrary) (w w' : World) (train test : loc)
  (r : Result (loc * Figure)) :
  final_prophet_model L train test w = (r, w') ->
  frames_kept w w'
  /\ match r with
     | Ok (forecast, fig) =>
         heap w !! forecast = None
         /\ is_Some (heap w' !! forecast)
         /\ fig = FigureOf forecast
         /\ exists print : Event,
             is_print print = true
             /\ trace w' = trace w ++ library_calls train (fresh (dom (heap w))) ++ [print]
     | Raise _ =>
         exists k : nat,
           trace w' = trace w ++ firstn k (library_calls train (fresh (dom (heap w))))
     end.
Proof.
  intros Hrun.
  unfold final_prophet_model, pd_concat in Hrun.
  destruct (heap w !! train) as [dtr|] eqn:Htr.
  2:{ rewrite bind_assoc, bind_read_frame_None in Hrun by exact Htr.
      injection Hrun as <- <-. split; [now intros q d Hq | trace_tac]. }
  destruct (heap w !! test) as [dte|] eqn:Hte.
  2:{ rewrite bind_assoc in Hrun. erewrite bind_read_frame in Hrun by exact Htr.
      rewrite bind_assoc, bind_read_frame_None in Hrun by exact Hte.
      injection Hrun as <- <-. split; [now intros q d Hq | trace_tac]. }
  unfold Prophet, add_seasonality, fit, make_future_dataframe, df_getitem,
    apply_is_great_recession, df_setitem, predict, cross_validation, performance_metrics,
    df_getattr in Hrun.
  py_all_in Hrun;
    try (injection Hrun as <- <-; split; [frames_kept_tac | trace_tac]).
  unfold ret in Hrun. injection Hrun as <- <-.
  split; [frames_kept_tac|].
  split.
  { match goal with
    | |- heap w !! fresh (dom ?h) = None =>
        destruct (heap w !! fresh (dom h)) as [d|] eqn:Hin; [|reflexivity];
        exfalso; apply (fresh_not_in h (fresh (dom h))); [heap_is_Some | reflexivity]
    end. }
  split; [cbn [heap]; rewrite lookup_insert_eq; eauto|].
  split; [reflexivity|].
  eexists. split;
    [|cbn [heap trace]; unfold library_calls; rewrite <- !app_assoc; reflexivity].
  reflexivity.
Qed.

(** X5.  The orchestrator changes no frame it did not create: after any
    run, returning or raising, every frame object that existed before
    (Train and Test among them) is there with the content it had.  When the
    run returns, the forecast it returns is a new object and the figure is
    the plot of that forecast. *)
Theorem orchestrator_keeps_frames
  (L : ForecastLibrary) (w : World) (train test : loc) :
  let run := final_prophet_model L train test w in
  frames_kept w (snd run)
  /\ forall (forecast : loc) (fig : Figure),
      fst run = Ok (forecast, fig) ->
      heap w !! forecast = None
      /\ is_Some (heap (snd run) !! forecast)
      /\ fig = FigureOf forecast.
Proof.
  cbv zeta.
  destruct (final_prophet_model L train test w) as [r w'] eqn:Hrun.
  destruct (final_outcome L w w' train test r Hrun) as [Hkept Hr].
  split; [exact Hkept|].
  cbn [fst snd]. intros forecast fig ->.
  destruct Hr as (Hnew & Hthere & Hfig & _). auto.
Qed.

(** X6.  The calls the orchestrator makes come in one fixed order: the
    model constructor, the yearly and the recession seasonality, the fit on
    Train, the 24-month future frame, the prediction on the combined frame,
    the plot, the cross-validation and the performance metrics.  A run that
    raises has made the first few of these calls and has printed nothing; a
    run that returns has made all of them and then printed once. *)
Theorem orchestrator_call_order
  (L : ForecastLibrary) (w : World) (train test : loc) :
  let run := final_prophet_model L train test w in
  exists all_data : loc,
    heap w !! all_data = None
    /\ match fst run with
       | Ok _ =>
           exists print : Event,
             is_print print = true
             /\ trace (snd run) = trace w ++ library_calls train all_data ++ [print]
       | Raise _ =>
           exists k : nat,
             trace (snd run) = trace w ++ firstn k (library_calls train all_data)
             /\ forallb (fun e => negb (is_print e)) (firstn k (library_calls train all_data))
                = true
       end.
Proof.
  cbv zeta.
  destruct (final_prophet_model L train test w) as [r w'] eqn:Hrun.
  destruct (final_outcome L w w' train test r Hrun) as [_ Hr].
  exists (fresh (dom (heap w))). split; [apply fresh_lookup|].
  cbn [fst snd]. destruct r as [[forecast fig]|e].
  - destruct Hr as (_ & _ & _ & Hprint). exact Hprint.
  - destruct Hr as [k Hk]. exists k. split; [exact Hk|].
    unfold library_calls.
    do 10 (destruct k as [|k]; [reflexivity|]). reflexivity.
Qed.

(* ===================================================================== *)
(** ** The model and the frames of a run that returns *)
(* ===================================================================== *)

Lemma future_base_dates (fdates : list Timestamp) (k : Z) :
  map (date_of (mkDataFrame ["ds"] [])) (number_rows k (map (fun d => [CTime d]) fdates))
  = fdates.
Proof.
  revert k. induction fdates as [|d fdates IH]; intros k; [reflexivity|].
  cbn [map number_rows]. rewrite IH. reflexivity.
Qed.

(** The future frame after line 104: every row carries the tag of its own
    date. *)
Lemma future_frame_flags (fdates : list Timestamp) (dates : Series Timestamp) :
  let base := mkDataFrame ["ds"] (number_rows 0 (map (fun d => [CTime d]) fdates)) in
  getitem base "ds" = Ok (series_map CTime dates) ->
  let fut := setitem base "great_recession"
               (series_map (fun d => CInt (is_great_recession d)) dates) in
  Forall (fun r => flag_of fut r = Some (CInt (is_great_recession (date_of fut r))))
         (rows fut).
Proof.
  intros base Hds fut.
  assert (Hvalues : values dates = fdates).
  { rewrite <- (getitem_dates base dates Hds). apply future_base_dates. }
  unfold fut, setitem, has_column, base, flag_of, date_of. cbn [columns rows].
  change (column_count "great_recession" ["ds"]) with 0%nat. cbn [Nat.eqb negb app].
  rewrite values_series_map, Hvalues. clear fut Hds Hvalues base.
  generalize 0. induction fdates as [|d ds IH]; intros k; [constructor|].
  cbn [map number_rows assign_rows tl label cells app].
  constructor; [reflexivity | apply IH].
Qed.

Lemma concat_length (a b : DataFrame) :
  length (rows (concat_ignore_index a b)) = (length (rows a) + length (rows b))%nat.
Proof.
  unfold concat_ignore_index. destruct (bool_decide (columns a = columns b)); cbn [rows];
    now rewrite number_rows_length, ?length_map, ?length_app, ?length_map.
Qed.

(** What a run of the orchestrator that returns has fitted, predicted and
    left in the heap. *)
Lemma final_run_model (L : ForecastLibrary) (w w' : World) (train test forecast : loc)
  (fig : Figure) (dtr dte : DataFrame) :
  heap w !! train = Some dtr ->
  heap w !! test = Some dte ->
  final_prophet_model L train test w = (Ok (forecast, fig), w') ->
  exists (state : Fitted L) (dates : Series Timestamp) (flags : Series Cell)
         (history : Series Timestamp) (fut : DataFrame) (future_loc : loc),
    let all_data := concat_ignore_index dtr dte in
    lib_fit L fitted_config dtr = Ok state
    /\ getitem all_data "ds" = Ok (series_map CTime dates)
    /\ getitem all_data "great_recession" = Ok flags
    /\ heap w' !! forecast
       = Some (mkDataFrame ["ds"; "yhat"]
                 (number_rows 0
                    (forecast_cells state
                       (sort_by fst (combine (values dates) (values flags))))))
    /\ getitem dtr "ds" = Ok (series_map CTime history)
    /\ heap w !! future_loc = None
    /\ future_loc <> forecast
    /\ heap w' !! future_loc = Some fut
    /\ columns fut = ["ds"; "great_recession"]
    /\ future_dates (values history) 24 = Ok (map (date_of fut) (rows fut))
    /\ Forall (fun r => flag_of fut r = Some (CInt (is_great_recession (date_of fut r))))
              (rows fut).
Proof.
  intros Htr Hte Hrun.
  unfold final_prophet_model, pd_concat, Prophet, add_seasonality, fit,
    make_future_dataframe, df_getitem, apply_is_great_recession, df_setitem, predict,
    cross_validation, performance_metrics, df_getattr in Hrun.
  py_run_in Hrun.
  cbn [fm_state fm_history] in *.
  unfold ret in Hrun. injection Hrun as <- <- <-.
  apply as_dates_Ok in Estep1. subst a0.
  apply as_dates_Ok in Estep4. subst a3.
  apply as_dates_Ok in Estep6. subst a5.
  apply condition_Ok in Estep7.
  rewrite insert_insert_eq.
  destruct (future_frame_dates a2
              (series_map (fun d => CInt (is_great_recession d)) a4)) as [Hfcols Hfdates].
  pose proof (future_frame_flags a2 a4 Estep3) as Hflags. cbv zeta in Hflags.
  set (fut := setitem _ "great_recession" _) in *.
  set (p_all := fresh (dom (heap w))).
  set (h_all := <[p_all := concat_ignore_index dtr dte]> (heap w)).
  set (p_future := fresh (dom h_all)).
  set (h_future := <[p_future := fut]> h_all).
  set (p_forecast := fresh (dom h_future)).
  assert (Hfuture_lookup : h_future !! p_future = Some fut) by apply lookup_insert_eq.
  assert (Hne2 : p_forecast <> p_future).
  { apply not_eq_sym, fresh_not_in. rewrite Hfuture_lookup. eauto. }
  assert (Hnew : heap w !! p_future = None).
  { destruct (heap w !! p_future) as [d|] eqn:Hin; [|reflexivity].
    exfalso. apply (fresh_not_in h_all p_future); [|reflexivity].
    unfold h_all. rewrite lookup_insert_ne; [eauto|].
    apply not_eq_sym, fresh_not_in. eauto. }
  exists a, a6, a7, a1, fut, p_future.
  cbv zeta. cbn [heap trace].
  split; [exact Estep|]. split; [exact Estep5|]. split; [exact Estep7|].
  split; [now rewrite lookup_insert_eq|].
  split; [reflexivity|]. split; [exact Hnew|]. split; [now apply not_eq_sym|].
  split; [now rewrite lookup_insert_ne by (now apply not_eq_sym)|].
  split; [exact Hfcols|]. split; [now rewrite Hfdates|]. exact Hflags.
Qed.

(* ===================================================================== *)
(** ** The future frame *)
(* ===================================================================== *)

(** X7.  When the orchestrator returns it has left a future frame, a new
    object other than the forecast: it has the columns [ds] and
    [great_recession], one row per Train row and 24 more, and every row
    carries the tag of its own date. *)
Theorem future_frame_is_tagged
  (L : ForecastLibrary) (w w' : World) (train test forecast : loc) (fig : Figure)
  (dtr dte : DataFrame)
  (Htr : heap w !! train = Some dtr)
  (Hte : heap w !! test = Some dte)
  (Hrun : final_prophet_model L train test w = (Ok (forecast, fig), w')) :
  exists (future : loc) (fut : DataFrame),
    heap w !! future = None
    /\ future <> forecast
    /\ heap w' !! future = Some fut
    /\ columns fut = ["ds"; "great_recession"]
    /\ length (rows fut) = (length (rows dtr) + 24)%nat
    /\ forall r : Row,
        In r (rows fut) -> flag_of fut r = Some (CInt (is_great_recession (date_of fut r))).
Proof.
  destruct (final_run_model L w w' train test forecast fig dtr dte Htr Hte Hrun)
    as (state & dates & flags & history & fut & future & H).
  cbv zeta in H.
  destruct H as (_ & _ & _ & _ & Hhist & Hnew & Hne & Hfut & Hcols & Hfuture & Hflags).
  exists future, fut.
  split; [exact Hnew|]. split; [exact Hne|]. split; [exact Hfut|]. split; [exact Hcols|].
  split.
  - unfold future_dates in Hfuture.
    destruct (latest (values history)); [|discriminate].
    injection Hfuture as Hfuture.
    rewrite <- (length_map (date_of fut) (rows fut)), <- Hfuture.
    rewrite length_app, values_length. cbn [length].
    apply getitem_length in Hhist. unfold series_map in Hhist.
    rewrite length_map in Hhist. rewrite Hhist. reflexivity.
  - now apply List.Forall_forall.
Qed.

Lemma future_frame_is_tagged_witness :
  exists (future : loc) (fut : DataFrame),
    heap flat_split_world !! future = None
    /\ future <> 7%positive
    /\ heap (snd (final_prophet_model (constant_library 2%float) 3%positive 4%positive
                    flat_split_world)) !! future = Some fut
    /\ columns fut = ["ds"; "great_recession"]
    /\ length (rows fut) = (length (rows (train_frame flat_tagged)) + 24)%nat
    /\ forall r : Row,
        In r (rows fut) -> flag_of fut r = Some (CInt (is_great_recession (date_of fut r))).
Proof.
  apply (future_frame_is_tagged (constant_library 2%float) flat_split_world _
           3%positive 4%positive 7%positive (FigureOf 7%positive)
           (train_frame flat_tagged) (test_frame flat_tagged)).
  - vm_compute. reflexivity.
  - vm_compute. reflexivity.
  - vm_compute. reflexivity.
Defined.

(* ===================================================================== *)
(** ** The two series the test accuracy is computed from *)
(* ===================================================================== *)

(** In a run that returns: the actual values are indexed like Test, the
    predicted values are indexed from 288 on, and the two series have the
    same, non-zero length. *)
Lemma final_run_series (L : ForecastLibrary) (w w' : World) (train test forecast : loc)
  (fig : Figure) (dtr dte : DataFrame) :
  heap w !! train = Some dtr ->
  heap w !! test = Some dte ->
  final_prophet_model L train test w = (Ok (forecast, fig), w') ->
  exists (y_actual y_predicted residuals : Series float) (all_loc : loc)
         (train_mae train_rmse test_rmse : float),
    map fst y_actual = labels dte
    /\ map fst y_predicted
       = skipn 288 (map Z.of_nat (seq 0 (length (rows dtr) + length (rows dte))))
    /\ length y_actual = length y_predicted
    /\ length y_actual <> 0%nat
    /\ series_sub y_predicted y_actual = Ok residuals
    /\ trace w'
       = trace w ++ library_calls train all_loc
         ++ [EvPrint train_mae train_rmse (mean_absolute (values residuals)) test_rmse]
    /\ (exists cs : Series Cell, getitem dte "y" = Ok cs /\ as_floats cs = Ok y_actual)
    /\ (exists (fc : DataFrame) (cs : Series Cell),
           heap w' !! forecast = Some fc
           /\ iloc_from_last_column 288 fc = Ok cs
           /\ as_floats cs = Ok y_predicted).
Proof.
  intros Htr Hte Hrun.
  destruct (final_run L w w' train test forecast fig dtr dte Htr Hte Hrun)
    as (state & dates & flags & yac & ypc & ya & yp & res & cv & rmse & fc & all_loc
        & future_loc & history & fdates & fut & H).
  cbv zeta in H.
  destruct H as (Hds & Hflags & _ & Hfc & Hheap & _ & _ & Hyac & Hya & Hypc & Hyp & Hsub
                 & Hrmse & Htrace & _).
  assert (Hlen_dates : length (values dates) = (length (rows dtr) + length (rows dte))%nat).
  { apply getitem_length in Hds. unfold series_map in Hds. rewrite length_map in Hds.
    now rewrite values_length, Hds, concat_length. }
  assert (Hlen_flags : length (values flags) = (length (rows dtr) + length (rows dte))%nat).
  { now rewrite values_length, (getitem_length _ _ _ Hflags), concat_length. }
  assert (Hfc_labels : labels fc
                       = map Z.of_nat (seq 0 (length (rows dtr) + length (rows dte)))).
  { subst fc. unfold labels. cbn [rows]. rewrite number_rows_labels.
    rewrite forecast_cells_length, sort_by_length, length_combine, Hlen_dates, Hlen_flags.
    rewrite Nat.min_id. apply map_ext. intros i. lia. }
  destruct (root_mean_squared_Ok _ _ _ Hrmse) as (Hsame & Hnonzero & _).
  rewrite (values_length ya), (values_length yp) in Hsame.
  rewrite (values_length ya) in Hnonzero.
  exists ya, yp, res, all_loc, (series_mean (map fst cv)), (series_mean (map snd cv)), rmse.
  split; [now rewrite (as_floats_Ok _ _ Hya), (getitem_labels _ _ _ Hyac)|].
  split; [now rewrite (as_floats_Ok _ _ Hyp), (iloc_labels _ _ _ Hypc), Hfc_labels|].
  split; [exact Hsame|]. split; [exact Hnonzero|]. split; [exact Hsub|].
  split; [exact Htrace|]. split; eauto.
Qed.

Lemma getitem_count (df : DataFrame) (name : string) (s : Series Cell) :
  getitem df name = Ok s -> column_count name (columns df) = 1%nat.
Proof.
  unfold getitem. now destruct (column_count name (columns df)) as [|[|k]].
Qed.

Lemma orchestrator_lengths (L : ForecastLibrary) (w w' : World) (train test forecast : loc)
  (fig : Figure) (dtr dte : DataFrame) :
  heap w !! train = Some dtr ->
  heap w !! test = Some dte ->
  final_prophet_model L train test w = (Ok (forecast, fig), w') ->
  length (rows dtr) = 288%nat
  /\ (1 <= length (rows dte))%nat
  /\ column_count "ds" (columns dtr) = 1%nat
  /\ column_count "y" (columns dte) = 1%nat.
Proof.
  intros Htr Hte Hrun.
  destruct (final_run_series L w w' train test forecast fig dtr dte Htr Hte Hrun)
    as (ya & yp & res & all_loc & tm & tr & rmse & Hya & Hyp & Hsame & Hnonzero & _).
  destruct (final_run L w w' train test forecast fig dtr dte Htr Hte Hrun)
    as (state & dates & flags & yac & ypc & ya' & yp' & res' & cv & rmse' & fc & all_loc'
        & future_loc & history & fdates & fut & H).
  cbv zeta in H.
  destruct H as (_ & _ & _ & _ & _ & _ & _ & Hyac & _ & _ & _ & _ & _ & _ & _ & Hhist & _).
  apply (f_equal (@length Z)) in Hya, Hyp.
  rewrite length_map in Hya, Hyp. unfold labels in Hya.
  rewrite length_skipn, !length_map, length_seq in Hyp.
  rewrite length_map in Hya.
  split; [lia|]. split; [lia|].
  split; [exact (getitem_count _ _ _ Hhist) | exact (getitem_count _ _ _ Hyac)].
Qed.

(** X9.  The orchestrator returns only on a Train frame of exactly 288 rows
    and a Test frame of at least one row: the predictions are taken from
    row 288 of the forecast on, and the squared-error metric refuses series
    of different lengths and empty series.  Train then has exactly one [ds]
    column and Test exactly one [y] column. *)
Theorem orchestrator_needs_288_training_rows
  (L : ForecastLibrary) (w w' : World) (train test forecast : loc) (fig : Figure)
  (dtr dte : DataFrame)
  (Htr : heap w !! train = Some dtr)
  (Hte : heap w !! test = Some dte)
  (Hrun : final_prophet_model L train test w = (Ok (forecast, fig), w')) :
  length (rows dtr) = 288%nat
  /\ (1 <= length (rows dte))%nat
  /\ column_count "ds" (columns dtr) = 1%nat
  /\ column_count "y" (columns dte) = 1%nat.
Proof. exact (orchestrator_lengths L w w' train test forecast fig dtr dte Htr Hte Hrun). Qed.

Lemma orchestrator_needs_288_training_rows_witness :
  length (rows (train_frame flat_tagged)) = 288%nat
  /\ (1 <= length (rows (test_frame flat_tagged)))%nat
  /\ column_count "ds" (columns (train_frame flat_tagged)) = 1%nat
  /\ column_count "y" (columns (test_frame flat_tagged)) = 1%nat.
Proof.
  apply (orchestrator_needs_288_training_rows (constant_library 2%float) flat_split_world
           (snd (final_prophet_model (constant_library 2%float) 3%positive 4%positive
                   flat_split_world))
           3%positive 4%positive 7%positive (FigureOf 7%positive)).
  - vm_compute. reflexivity.
  - vm_compute. reflexivity.
  - vm_compute. reflexivity.
Defined.

(* ===================================================================== *)
(** ** A Test frame indexed apart from the forecast *)
(* ===================================================================== *)

Lemma series_lookup_In {A : Type} (l : Z) (s : Series A) (a : A) :
  series_lookup l s = Some a -> In l (map fst s).
Proof.
  induction s as [|[l' x] s IH]; [discriminate|].
  cbn [series_lookup map fst]. destruct (Z.eqb_spec l l') as [->|Hne]; [now left|].
  intros H. right. now apply IH.
Qed.

(** Subtracting two series that share no label gives missing values
    only. *)
Lemma series_sub_disjoint (a b residuals : Series float) :
  (forall l : Z, In l (map fst a) -> In l (map fst b) -> False) ->
  series_sub a b = Ok residuals ->
  Forall (fun x => x = PrimFloat.nan) (values residuals).
Proof.
  intros Hdisjoint. unfold series_sub.
  destruct (same_labels (map fst a) (map fst b)) eqn:Hsame.
  - intros [= <-].
    destruct a as [|[l x] a], b as [|[l' y] b]; try discriminate; [constructor|].
    cbn [map fst same_labels] in Hsame. apply andb_true_iff in Hsame as [Hl _].
    apply Z.eqb_eq in Hl. subst l'.
    exfalso. apply (Hdisjoint l); now left.
  - destruct (has_duplicate (map fst a) || has_duplicate (map fst b)); [discriminate|].
    intros [= <-]. unfold values. rewrite map_map. cbn [snd].
    apply List.Forall_forall. intros x Hx.
    apply List.in_map_iff in Hx as (l & <- & _).
    destruct (series_lookup l a) as [xa|] eqn:Ha; [|reflexivity].
    destruct (series_lookup l b) as [xb|] eqn:Hb; [|reflexivity].
    exfalso. apply (Hdisjoint l); eapply series_lookup_In; eassumption.
Qed.

(** The mean of the absolute values of a series of missing values only is
    itself missing. *)
Lemma mean_absolute_missing (xs : list float) :
  Forall (fun x => x = PrimFloat.nan) xs ->
  PrimFloat.is_nan (mean_absolute xs) = true.
Proof.
  intros Hall. unfold mean_absolute, series_mean.
  assert (Hnone : List.filter (fun x => negb (num_is_nan x)) (map num_abs xs) = []).
  { induction Hall as [|x xs -> _ IH]; [reflexivity|].
    cbn [map List.filter].
    change (negb (num_is_nan (num_abs PrimFloat.nan))) with false. exact IH. }
  rewrite Hnone. reflexivity.
Qed.

(** X10.  When every index label of Test is below 288, no label of the
    actual values is a label of the predictions (the forecast is indexed
    from 0 and cut at position 288): the residuals are all missing, and a run
    that returns prints a missing test MAE. *)
Theorem test_mae_is_missing_when_index_is_apart
  (L : ForecastLibrary) (w w' : World) (train test forecast : loc) (fig : Figure)
  (dtr dte : DataFrame)
  (Htr : heap w !! train = Some dtr)
  (Hte : heap w !! test = Some dte)
  (Hlabels : Forall (fun l => l < 288) (labels dte))
  (Hrun : final_prophet_model L train test w = (Ok (forecast, fig), w')) :
  exists (all_data : loc) (train_mae train_rmse test_mae test_rmse : float),
    trace w'
    = trace w ++ library_calls train all_data
      ++ [EvPrint train_mae train_rmse test_mae test_rmse]
    /\ PrimFloat.is_nan test_mae = true.
Proof.
  destruct (final_run_series L w w' train test forecast fig dtr dte Htr Hte Hrun)
    as (ya & yp & res & all_loc & tm & tr & rmse & Hya & Hyp & _ & _ & Hsub & Htrace & _).
  exists all_loc, tm, tr, (mean_absolute (values res)), rmse.
  split; [exact Htrace|].
  apply mean_absolute_missing, (series_sub_disjoint yp ya); [|exact Hsub].
  intros l Hp Ha. rewrite Hya in Ha. rewrite Hyp in Hp.
  rewrite List.Forall_forall in Hlabels. apply Hlabels in Ha.
  apply In_nth with (d := 0) in Hp as (i & Hi & Hnth).
  rewrite nth_skipn in Hnth.
  rewrite length_skipn, length_map, length_seq in Hi.
  rewrite (nth_indep _ 0 (Z.of_nat 0)) in Hnth by (rewrite length_map, length_seq; lia).
  rewrite map_nth, seq_nth in Hnth by lia. lia.
Qed.

Lemma all_below_sound (n : Z) (ls : list Z) :
  forallb (fun l => l <? n) ls = true -> Forall (fun l => l < n) ls.
Proof.
  intros Hall. apply List.Forall_forall. intros l Hl.
  apply (proj1 (List.forallb_forall _ _) Hall) in Hl. now apply Z.ltb_lt.
Qed.

Lemma test_mae_is_missing_when_index_is_apart_witness :
  exists (all_data : loc) (train_mae train_rmse test_mae test_rmse : float),
    trace (snd (final_prophet_model (constant_library 2%float) 3%positive 4%positive
                  reindexed_split_world))
    = trace reindexed_split_world ++ library_calls 3%positive all_data
      ++ [EvPrint train_mae train_rmse test_mae test_rmse]
    /\ PrimFloat.is_nan test_mae = true.
Proof.
  apply (test_mae_is_missing_when_index_is_apart (constant_library 2%float)
           reindexed_split_world _ 3%positive 4%positive 7%positive (FigureOf 7%positive)
           (train_frame flat_tagged) (reset_index (test_frame flat_tagged))).
  - vm_compute. reflexivity.
  - vm_compute. reflexivity.
  - apply all_below_sound. vm_compute. reflexivity.
  - vm_compute. reflexivity.
Defined.

(* ===================================================================== *)
(** ** The script as a whole *)
(* ===================================================================== *)

(** The steps of [main] that returned. *)
Lemma main_Ok (L : ForecastLibrary) (csv : DataFrame) (w' : World) :
  main L csv initial_world = (Ok tt, w') ->
  exists (tg : DataFrame) (train test forecast : loc) (fig : Figure) (w1 : World),
    tagged_frame csv = Ok tg
    /\ heap w1 !! train = Some (train_frame tg)
    /\ heap w1 !! test = Some (test_frame tg)
    /\ trace w1 = []
    /\ heap w1 !! 1%positive = Some csv
    /\ final_prophet_model L train test w1 = (Ok (forecast, fig), w').
Proof.
  intros Hrun.
  unfold main, pipeline in Hrun. rewrite !bind_assoc in Hrun.
  rewrite bind_new_frame in Hrun. cbn [heap trace initial_world] in Hrun.
  rewrite !bind_assoc in Hrun.
  match type of Hrun with
  | bind ?m _ ?w0 = _ => destruct (m w0) as [[[train test]|e] w1] eqn:Hsplit
  end; rewrite (bind_run _ _ _ _ _ Hsplit) in Hrun; [|discriminate].
  cbn [fst snd] in Hrun.
  destruct (final_prophet_model L train test w1) as [[[forecast fig]|e] w2] eqn:Hfinal;
    rewrite (bind_run _ _ _ _ _ Hfinal) in Hrun; [|discriminate].
  unfold ret in Hrun. injection Hrun as <-.
  apply split_Ok with (df := csv) in Hsplit
    as (tg & Htg & Htr & Hte & _ & _ & _ & Htrace1 & Hkept1);
    [|apply lookup_insert_eq].
  exists tg, train, test, forecast, fig, w1.
  split; [exact Htg|]. split; [exact Htr|]. split; [exact Hte|].
  split; [exact Htrace1|]. split; [|exact Hfinal].
  rewrite Hkept1; cbn [heap]; rewrite lookup_insert_eq; eauto.
Qed.

Lemma column_count_renamed_other (name : string) (cols : list string) :
  name <> "great_recession" ->
  column_count name
    (if Nat.eqb (column_count "great_recession" (map rename_columns cols)) 0
     then map rename_columns cols ++ ["great_recession"]
     else map rename_columns cols)
  = column_count name (map rename_columns cols).
Proof.
  intros Hne. destruct (Nat.eqb _ 0); [|reflexivity].
  rewrite column_count_app. unfold column_count at 2. cbn [List.filter].
  apply String.eqb_neq in Hne. rewrite Hne. cbn [length]. lia.
Qed.

(** X11.  [main] returns only when the frame read from the file has, after
    renaming, one date column holding dates and one price column, exactly
    288 rows dated before 2016-01-01 and at least one row dated from
    2016-01-01 to 2018-01-01.  It then has made every call to the library in
    order and printed once, and the frame read from the file is as it
    was. *)
Theorem main_returns_only_on_288_training_rows
  (L : ForecastLibrary) (csv : DataFrame) (w' : World)
  (Hrun : main L csv initial_world = (Ok tt, w')) :
  exists (tg : DataFrame) (train all_data : loc) (print : Event),
    tagged_frame csv = Ok tg
    /\ column_count "ds" (map rename_columns (columns csv)) = 1%nat
    /\ column_count "y" (map rename_columns (columns csv)) = 1%nat
    /\ train_count tg = 288%nat
    /\ (1 <= test_count tg)%nat
    /\ heap w' !! 1%positive = Some csv
    /\ is_print print = true
    /\ trace w' = library_calls train all_data ++ [print].
Proof.
  destruct (main_Ok L csv w' Hrun)
    as (tg & train & test & forecast & fig & w1 & Htg & Htr & Hte & Htrace1 & Hcsv & Hfinal).
  destruct (orchestrator_lengths L w1 w' train test forecast fig _ _ Htr Hte Hfinal)
    as (Htrain & Htest & _ & Hy).
  destruct (final_outcome L w1 w' train test _ Hfinal)
    as [Hkept2 (_ & _ & _ & print & Hp & Ht)].
  destruct (tagged_frame_Ok _ _ Htg) as (dates & Hcount & _ & _ & Hset).
  cbn [test_frame columns] in Hy.
  rewrite (tagged_columns csv tg dates Hset), column_count_renamed_other in Hy
    by discriminate.
  exists tg, train, (fresh (dom (heap w1))), print.
  split; [exact Htg|]. split; [exact Hcount|]. split; [exact Hy|].
  split; [exact Htrain|]. split; [exact Htest|].
  split; [exact (Hkept2 _ _ Hcsv)|].
  split; [exact Hp|].
  rewrite Ht, Htrace1. reflexivity.
Qed.

Lemma main_returns_only_on_288_training_rows_witness :
  exists (tg : DataFrame) (train all_data : loc) (print : Event),
    tagged_frame flat_series = Ok tg
    /\ column_count "ds" (map rename_columns (columns flat_series)) = 1%nat
    /\ column_count "y" (map rename_columns (columns flat_series)) = 1%nat
    /\ train_count tg = 288%nat
    /\ (1 <= test_count tg)%nat
    /\ heap (snd (main (constant_library 2%float) flat_series initial_world)) !! 1%positive
       = Some flat_series
    /\ is_print print = true
    /\ trace (snd (main (constant_library 2%float) flat_series initial_world))
       = library_calls train all_data ++ [print].
Proof.
  apply (main_returns_only_on_288_training_rows (constant_library 2%float) flat_series).
  vm_compute. reflexivity.
Defined.

(* ===================================================================== *)
(** ** Errors of a perfect forecast *)
(* ===================================================================== *)

Section ExactErrors.

Local Open Scope R_scope.








End ExactErrors.

(* ===================================================================== *)
(** ** A Test frame without prices *)
(* ===================================================================== *)

Lemma getattr_missing (df : DataFrame) (name : string) (r : Result (Series Cell)) :
  column_count name (columns df) = 0%nat ->
  match getitem df name with
  | Raise (KeyError _) => Raise (AttributeError name)
  | r => r
  end = r ->
  r = Raise (AttributeError name).
Proof. unfold getitem. intros ->. now intros <-. Qed.

Ltac stopped_tac w k :=
  eexists _, k, (fresh (dom (heap w)));
  split; [reflexivity|]; split;
  [ cbn [heap trace]; unfold library_calls; cbn [firstn];
    rewrite <- ?app_assoc; cbn [app]; rewrite ?app_nil_r; reflexivity
  | split; [lia | intros Hk; discriminate Hk] ].

(** X13.  On a Test frame that has no [y] column the orchestrator never
    returns.  The column is read only after the work of the library: when
    all the calls to the library went through, the run ends with
    [AttributeError('y')], after the performance metrics and before anything
    is printed. *)
Theorem missing_prices_surface_after_the_library
  (L : ForecastLibrary) (w w' : World) (train test : loc) (dte : DataFrame)
  (r : Result (loc * Figure))
  (Hte : heap w !! test = Some dte)
  (Hy : column_count "y" (columns dte) = 0%nat)
  (Hrun : final_prophet_model L train test w = (r, w')) :
  exists (e : Exn) (k : nat) (all_data : loc),
    r = Raise e
    /\ trace w' = trace w ++ firstn k (library_calls train all_data)
    /\ (k <= 9)%nat
    /\ (k = 9%nat -> e = AttributeError "y").
Proof.
  unfold final_prophet_model, pd_concat in Hrun.
  destruct (heap w !! train) as [dtr|] eqn:Htr.
  2:{ rewrite bind_assoc, bind_read_frame_None in Hrun by exact Htr.
      injection Hrun as <- <-. stopped_tac w 0%nat. }
  unfold Prophet, add_seasonality, fit, make_future_dataframe, df_getitem,
    apply_is_great_recession, df_setitem, predict, cross_validation, performance_metrics,
    df_getattr in Hrun.
  py_all_in Hrun;
    try match goal with
        | E : match getitem dte "y" with _ => _ end = Ok _ |- _ =>
            apply (getattr_missing dte "y" _ Hy) in E; discriminate E
        end;
    try match goal with
        | E : match getitem dte "y" with _ => _ end = Raise ?e |- _ =>
            apply (getattr_missing dte "y" _ Hy) in E; injection E as ->;
            injection Hrun as <- <-;
            exists (AttributeError "y"), 9%nat, (fresh (dom (heap w)));
            split; [reflexivity|]; split;
              [ cbn [heap trace]; unfold library_calls; cbn [firstn];
                rewrite <- ?app_assoc; reflexivity
              | split; [lia | reflexivity] ]
        end;
    injection Hrun as <- <-;
    first [ stopped_tac w 0%nat | stopped_tac w 1%nat | stopped_tac w 2%nat
          | stopped_tac w 3%nat | stopped_tac w 4%nat | stopped_tac w 5%nat
          | stopped_tac w 6%nat | stopped_tac w 7%nat | stopped_tac w 8%nat ].
Qed.

Lemma missing_prices_surface_after_the_library_witness :
  exists (e : Exn) (k : nat) (all_data : loc),
    fst (final_prophet_model (constant_library 2%float) 3%positive 4%positive
           (snd (rename_and_train_test_split 1%positive (world_with dates_only_frame))))
    = Raise e
    /\ trace (snd (final_prophet_model (constant_library 2%float) 3%positive 4%positive
                     (snd (rename_and_train_test_split 1%positive
                             (world_with dates_only_frame)))))
       = trace (snd (rename_and_train_test_split 1%positive (world_with dates_only_frame)))
         ++ firstn k (library_calls 3%positive all_data)
    /\ (k <= 9)%nat
    /\ (k = 9%nat -> e = AttributeError "y").
Proof.
  apply (missing_prices_surface_after_the_library (constant_library 2%float)
           (snd (rename_and_train_test_split 1%positive (world_with dates_only_frame)))
           _ 3%positive 4%positive
           (mkDataFrame ["ds"; "great_recession"]
              [mkRow 1 [CTime (datetime 2016 1 1); CInt 0]])).
  - vm_compute. reflexivity.
  - reflexivity.
  - vm_compute. reflexivity.
Defined.

(* ===================================================================== *)
(** ** The rows [main] scores *)
(* ===================================================================== *)

(** X14.  On a frame read from the file indexed 0, 1, 2, ... and in
    ascending date order, a run of [main] that returns scores aligned rows:
    the predictions taken from forecast row 288 on carry the index labels of
    the actual values of Test, so no residual is lost to the label-wise
    subtraction, and the test MAE printed is the mean of the absolute
    differences of the two series taken in order. *)
Theorem main_scores_aligned_rows
  (L : ForecastLibrary) (csv : DataFrame) (w' : World)
  (Hrange : range_indexed csv)
  (Hsorted : ascending (rename rename_columns csv))
  (Hrun : main L csv initial_world = (Ok tt, w')) :
  exists (tg fc : DataFrame) (y_actual y_predicted : Series float)
         (train all_data forecast : loc) (train_mae train_rmse test_rmse : float),
    tagged_frame csv = Ok tg
    /\ (exists cs : Series Cell,
           getitem (test_frame tg) "y" = Ok cs /\ as_floats cs = Ok y_actual)
    /\ heap w' !! forecast = Some fc
    /\ (exists cs : Series Cell,
           iloc_from_last_column 288 fc = Ok cs /\ as_floats cs = Ok y_predicted)
    /\ map fst y_actual = labels (test_frame tg)
    /\ map fst y_predicted = map fst y_actual
    /\ trace w'
       = library_calls train all_data
         ++ [EvPrint train_mae train_rmse
               (mean_absolute (zip_sub (values y_predicted) (values y_actual)))
               test_rmse].
Proof.
  destruct (main_Ok L csv w' Hrun)
    as (tg & train & test & forecast & fig & w1 & Htg & Htr & Hte & Htrace1 & _ & Hfinal).
  destruct (final_run_series L w1 w' train test forecast fig _ _ Htr Hte Hfinal)
    as (ya & yp & res & all_loc & tm & tr & rmse & Hya & Hyp & Hsame & Hnonzero & Hsub
        & Htrace & Hactual & (fc & cs & Hfc & Hiloc & Hfloats)).
  destruct (orchestrator_lengths L w1 w' train test forecast fig _ _ Htr Hte Hfinal)
    as (Htrain & _).
  destruct (cut_in_place csv tg Hrange Hsorted Htg) as (_ & _ & _ & Hlabels).
  cbv zeta in Hlabels. rewrite Htrain in Hlabels, Hyp.
  assert (Haligned : map fst yp = map fst ya).
  { rewrite Hya, Hyp, Hlabels, skipn_map, seq_skipn, (map_seq_shift Z.of_nat).
    apply map_ext. intros i. lia. }
  exists tg, fc, ya, yp, train, all_loc, forecast, tm, tr, rmse.
  split; [exact Htg|]. split; [exact Hactual|]. split; [exact Hfc|].
  split; [eauto|]. split; [exact Hya|]. split; [exact Haligned|].
  rewrite Htrace, Htrace1, (same_labels_sub yp ya res Haligned Hsub). reflexivity.
Qed.

Lemma main_scores_aligned_rows_witness :
  exists (tg fc : DataFrame) (y_actual y_predicted : Series float)
         (train all_data forecast : loc) (train_mae train_rmse test_rmse : float),
    tagged_frame flat_series = Ok tg
    /\ (exists cs : Series Cell,
           getitem (test_frame tg) "y" = Ok cs /\ as_floats cs = Ok y_actual)
    /\ heap (snd (main (constant_library 2%float) flat_series initial_world)) !! forecast
       = Some fc
    /\ (exists cs : Series Cell,
           iloc_from_last_column 288 fc = Ok cs /\ as_floats cs = Ok y_predicted)
    /\ map fst y_actual = labels (test_frame tg)
    /\ map fst y_predicted = map fst y_actual
    /\ trace (snd (main (constant_library 2%float) flat_series initial_world))
       = library_calls train all_data
         ++ [EvPrint train_mae train_rmse
               (mean_absolute (zip_sub (values y_predicted) (values y_actual)))
               test_rmse].
Proof.
  apply (main_scores_aligned_rows (constant_library 2%float) flat_series).
  - vm_compute. reflexivity.
  - unfold ascending. apply strictly_sorted_sorted, dates_increasing_sound.
    vm_compute. reflexivity.
  - vm_compute. reflexivity.
Defined.

(* ===================================================================== *)
(** ** A file the partitioner refuses *)
(* ===================================================================== *)

(** X15.  [main] passes on the exception of the partitioner: when the frame
    read from the file has no single date column holding dates, [main] ends
    with the exception the tagging raised, before any call to the library and
    with nothing printed, and the frame read from the file is as it was. *)
Theorem main_stops_at_the_partitioner
  (L : ForecastLibrary) (csv : DataFrame) (e : Exn)
  (Hbad : tagged_frame csv = Raise e) :
  exists w' : World,
    main L csv initial_world = (Raise e, w')
    /\ trace w' = []
    /\ heap w' !! 1%positive = Some csv.
Proof.
  unfold main, pipeline. rewrite !bind_assoc, bind_new_frame.
  cbn [heap trace initial_world]. rewrite !bind_assoc.
  match goal with
  | |- context [bind (rename_and_train_test_split ?p) _ ?w0] =>
      pose proof (split_run w0 p csv (lookup_insert_eq _ _ _)) as Hsplit
  end.
  cbv zeta in Hsplit. rewrite Hbad in Hsplit.
  eexists. rewrite (bind_run _ _ _ _ _ Hsplit). split; [reflexivity|].
  cbn [heap trace]. split; [reflexivity|].
  rewrite lookup_insert_ne; [apply lookup_insert_eq|].
  apply not_eq_sym, fresh_not_in. rewrite lookup_insert_eq. eauto.
Qed.

Lemma main_stops_at_the_partitioner_witness :
  exists w' : World,
    main (constant_library 2%float) prices_only_frame initial_world
    = (Raise (KeyError "ds"), w')
    /\ trace w' = []
    /\ heap w' !! 1%positive = Some prices_only_frame.
Proof.
  apply (main_stops_at_the_partitioner (constant_library 2%float) prices_only_frame
           (KeyError "ds")).
  reflexivity.
Defined.
